(** * Session and flow orchestration of the Drugs.ng WhatsApp bot

    A shallow embedding of the conversational engine of [src/index.js] and
    [src/utils/pagination.js]:

    - message text is a [string] of 8-bit code units; [trim], [toLowerCase]
      and the regular expressions of the dispatcher are written out as
      functions on it (only the ASCII white space and letters are special);
    - JavaScript numbers that hold page numbers and millisecond timestamps
      are integers in [Z];
    - [session.data], an open JavaScript object, is a [gmap string value];
    - the [Session] and [OTP] tables are an in-memory store ([World]); every
      table operation succeeds, [session.save()] writes the whole object;
      the [OTP] table is a list in which a row keeps its position;
    - collaborators whose code is outside [src/] (domain API, classifier,
      validation, token and code generators, encryption) are fields of an
      environment record [Env], so a handler is a function
      [Env -> ... -> World -> World]; a call of a collaborator that raises
      is a field that answers [None] or [false];
    - an outgoing message is its template, not its text.

    Beside the engine: the landing page link ([Landing]), the order ids
    read from free text ([OrderParser]) and the tracking that uses them
    ([Tracking]), the searches, the cart and the appointments ([Catalog],
    whose messages are kept beside the store), the administration gate and
    the backup codes ([Admin]), and the text of a page of a list
    ([PaginationMessage]), which is built as a string. *)

From Stdlib Require Import ZArith Ascii String List Bool Lia.
From stdpp Require Import base option gmap strings list fin_maps pretty.

Local Open Scope string_scope.
Local Open Scope Z_scope.

(** ** Text utilities (String.prototype.trim, toLowerCase, [\d], [\s]) *)

Module Text.

Definition code (c : ascii) : nat := nat_of_ascii c.

(** White space removed by [trim] and matched by [\s] (ASCII part). *)
Definition isSpace (c : ascii) : bool :=
  let n := code c in
  ((9 <=? n)%nat && (n <=? 13)%nat) || (n =? 32)%nat.

(** [\d] without the unicode flag: the ten ASCII digits. *)
Definition isDigit (c : ascii) : bool :=
  let n := code c in (48 <=? n)%nat && (n <=? 57)%nat.

Definition lowerChar (c : ascii) : ascii :=
  let n := code c in
  if ((65 <=? n)%nat && (n <=? 90)%nat)%bool then ascii_of_nat (n + 32) else c.

Fixpoint toLowerCase (s : string) : string :=
  match s with
  | EmptyString => EmptyString
  | String c r => String (lowerChar c) (toLowerCase r)
  end.

Fixpoint trimStart (s : string) : string :=
  match s with
  | String c r => if isSpace c then trimStart r else s
  | EmptyString => EmptyString
  end.

(** Drops the white space at the end: a character is kept when it is not a
    space or when something is kept after it. *)
Fixpoint trimEnd (s : string) : string :=
  match s with
  | EmptyString => EmptyString
  | String c r =>
      match trimEnd r with
      | EmptyString => if isSpace c then EmptyString else String c EmptyString
      | r' => String c r'
      end
  end.

Definition trim (s : string) : string := trimEnd (trimStart s).

Fixpoint allDigits (s : string) : bool :=
  match s with
  | EmptyString => true
  | String c r => isDigit c && allDigits r
  end.

(** [/^\d+$/] *)
Definition isDigitString (s : string) : bool :=
  match s with
  | EmptyString => false
  | _ => allDigits s
  end.

(** [/^\d{4}$/] *)
Definition isFourDigits (s : string) : bool :=
  (String.length s =? 4)%nat && allDigits s.

Definition digitValue (c : ascii) : Z := Z.of_nat (code c) - 48.

Fixpoint parseDecimalFrom (acc : Z) (s : string) : Z :=
  match s with
  | EmptyString => acc
  | String c r => parseDecimalFrom (10 * acc + digitValue c) r
  end.

(** [parseInt(s, 10)] on a string of digits. *)
Definition parseInt10 (s : string) : Z := parseDecimalFrom 0 s.

(** Longest prefix of digits, and what follows it. *)
Fixpoint spanDigits (s : string) : string * string :=
  match s with
  | String c r =>
      if isDigit c then let '(d, rest) := spanDigits r in (String c d, rest)
      else (EmptyString, s)
  | EmptyString => (EmptyString, EmptyString)
  end.

Definition eqs (a b : string) : bool := String.eqb a b.

(** [prefix p s]: the rest of [s] after [p], when [s] starts with [p]. *)
Fixpoint stripPrefix (p s : string) : option string :=
  match p, s with
  | EmptyString, _ => Some s
  | String a p', String b s' => if Ascii.eqb a b then stripPrefix p' s' else None
  | String _ _, EmptyString => None
  end.

End Text.

(** ** Pagination cursor manager ([src/utils/pagination.js]) *)

Module Pagination.
Import Text.

(** [parseNavigationCommand(message, currentPage, totalPages)]; [None] is
    the JavaScript [null]. *)
Definition parseNavigationCommand (message : string) (currentPage totalPages : Z)
  : option Z :=
  if eqs message "" then None
  else
    let nav := toLowerCase (trim message) in
    if eqs nav "next" && (currentPage <? totalPages) then Some (currentPage + 1)
    else if eqs nav "previous" && (1 <? currentPage) then Some (currentPage - 1)
    else
      if isDigitString (trim message) then
        let n := parseInt10 (trim message) in
        if (1 <=? n) && (n <=? totalPages) then Some n else None
      else None.

(** The three command shapes, in the words of the specification; the
    message is read up to surrounding white space. *)
Inductive NavShape (currentPage totalPages : Z) : string -> Z -> Prop :=
  | ShapeNext m :
      toLowerCase m = "next" -> currentPage < totalPages ->
      NavShape currentPage totalPages m (currentPage + 1)
  | ShapePrevious m :
      toLowerCase m = "previous" -> currentPage > 1 ->
      NavShape currentPage totalPages m (currentPage - 1)
  | ShapeNumber m n :
      isDigitString m = true -> parseInt10 m = n -> 1 <= n <= totalPages ->
      NavShape currentPage totalPages m n.

End Pagination.

(** ** Data model: sessions, one-time codes, outgoing messages *)

Module Model.

(** [session.state] *)
Inductive SessionState :=
  NEW | REGISTERING | LOGGING_IN | LOGGED_IN | SUPPORT_CHAT.

#[global] Instance SessionState_eq_dec : EqDecision SessionState.
Proof. solve_decision. Defined.

(** The registration payload [{name, email, password, phoneNumber}]; an
    absent field is the empty string (both are falsy in the source). *)
Record RegistrationData := mkReg {
  reg_name : string;
  reg_email : string;
  reg_password : string;
  reg_phoneNumber : string
}.

(** A pagination cursor [{currentPage, totalPages, pageSize}]. *)
Record Cursor := mkCursor {
  currentPage : Z;
  totalPages : Z;
  pageSize : Z
}.

(** The values stored under the keys of [session.data]. [VTime ms] is an
    ISO timestamp string (as written by [new Date().toISOString()]), kept
    as its milliseconds; [VStr] holds the other strings. *)
Inductive value :=
  | VNull
  | VBool (b : bool)
  | VNum (n : Z)
  | VStr (s : string)
  | VTime (ms : Z)
  | VReg (r : RegistrationData)
  | VCursor (c : Cursor)
  | VItems (items : list string)
  | VSearch (specialty location : string).

(** JavaScript truthiness. *)
Definition truthy (v : value) : bool :=
  match v with
  | VNull => false
  | VBool b => b
  | VNum n => negb (n =? 0)
  | VStr s => negb (Text.eqs s "")
  | VTime _ | VReg _ | VCursor _ | VItems _ | VSearch _ _ => true
  end.

(** [session.data.k]: a missing key reads as [undefined], which behaves as
    [null] wherever the source looks at it. *)
Definition field (d : gmap string value) (k : string) : value :=
  default VNull (d !! k).

(** [new Date(v).getTime()]; [None] is [NaN]. *)
Definition dateMs (v : value) : option Z :=
  match v with
  | VTime ms => Some ms
  | VNum n => Some n
  | _ => None
  end.

Record Session := mkSession {
  state : SessionState;
  data : gmap string value;
  lastActivity : option Z;
  supportTeamId : option Z
}.

Definition withState (st : SessionState) (s : Session) : Session :=
  mkSession st (data s) (lastActivity s) (supportTeamId s).
Definition withData (d : gmap string value) (s : Session) : Session :=
  mkSession (state s) d (lastActivity s) (supportTeamId s).
Definition withLastActivity (t : option Z) (s : Session) : Session :=
  mkSession (state s) (data s) t (supportTeamId s).
Definition withSupportTeamId (i : option Z) (s : Session) : Session :=
  mkSession (state s) (data s) (lastActivity s) i.
(** [session.data.k = v] *)
Definition setField (k : string) (v : value) (s : Session) : Session :=
  withData (<[k := v]> (data s)) s.

(** A row of the [OTP] table. [otp_meta] is [meta.registrationData], the
    encrypted snapshot of the payload ([None]: [meta] is [null]). *)
Record OTPRecord := mkOTP {
  otp_email : string;
  otp_code : string;
  otp_purpose : string;
  otp_isUsed : bool;
  otp_usedAt : option Z;
  otp_expiresAt : Z;
  otp_createdAt : Z;
  otp_meta : option string
}.

Definition withUsed (u : bool) (at_ : option Z) (r : OTPRecord) : OTPRecord :=
  mkOTP (otp_email r) (otp_code r) (otp_purpose r) u at_
        (otp_expiresAt r) (otp_createdAt r) (otp_meta r).

(** The intents of the classifier that the dispatcher switches on. *)
Inductive Intent :=
  | greeting | register | login | logout
  | search_products | add_to_cart | place_order | track_order
  | search_doctors | book_appointment | payment
  | help | support | diagnostic_tests | healthcare_products
  | unknown.

#[global] Instance Intent_eq_dec : EqDecision Intent.
Proof. solve_decision. Defined.

Record NlpResult := mkNlp {
  intent : Intent;
  parameters : gmap string string;
  fulfillmentText : string
}.

(** [parameters.k], the empty string when absent. *)
Definition param (p : gmap string string) (k : string) : string :=
  default "" (p !! k).
Definition given (p : gmap string string) (k : string) : bool :=
  negb (Text.eqs (param p k) "").

(** The message templates of the source, by the place that sends them. *)
Inductive Template :=
  | TRateLimited
  | TIdleLogout
  | TSupportExited
  | TSupportUnavailable
  | TSupportConnected (role : string)
  | TSupportFailed
  | TAttachOk (orderId : string)
  | TAttachFailed (orderId : string)
  | TNoPendingPrescription
  | TPrescriptionReceived
  | TProductPage (page totalPages : Z)
  | TDoctorPage (page totalPages : Z)
  | TOtpPrompt
  | TOtpInvalidFormat
  | TOtpSessionExpired
  | TOtpNoMatch
  | TOtpAlreadyUsed
  | TOtpExpired
  | TRegistrationSuccess (name : string)
  | TRegistrationFailed
  | TOtpVerifyError
  | TResendNoRegistration
  | TResendSent (email : string)
  | TResendEmailDown
  | TResendError
  | TRegistrationInvalid
  | TEmailTaken
  | TOtpSent (email : string)
  | TOtpEmailDown
  | TRegistrationSetupFailed
  | TRegistrationMissing (name email password : bool)
  | TAlreadyRegistered
  | TLoginInvalid
  | TLoginSuccess
  | TLoginFailed
  | TLoginMissing (email password : bool)
  | TAlreadyLoggedIn
  | TLogoutDone
  | TGreetingNew
  | TGreetingBack
  | THelp
  | TAuthRequired
  | TFallback (text : string)
  | TApology.

(** A message body: sent as it is, or through
    [formatResponseWithOptions(text, isLoggedIn)]. *)
Inductive Body :=
  | Plain (t : Template)
  | WithOptions (t : Template) (isLoggedIn : bool).

Definition template (b : Body) : Template :=
  match b with Plain t | WithOptions t _ => t end.

Record Outgoing := mkOut { out_to : string; out_body : Body }.

(** The shared store: both tables and the log of sent messages (oldest
    first). *)
Record World := mkWorld {
  sessions : gmap string Session;
  otps : list OTPRecord;
  outbox : list Outgoing
}.

Definition withSessions (m : gmap string Session) (w : World) : World :=
  mkWorld m (otps w) (outbox w).
Definition withOtps (l : list OTPRecord) (w : World) : World :=
  mkWorld (sessions w) l (outbox w).

(** [await session.save()] for the session of [phone]. *)
Definition saveSession (phone : string) (s : Session) (w : World) : World :=
  withSessions (<[phone := s]> (sessions w)) w.

(** Modelled from the spec: [sendWhatsAppMessage] of [config/whatsapp] is
    missing from [src/]; the outbound-delivery collaborator is
    [send(identity, text) -> ok|Failed], a failure being logged and not
    raised, so [await sendWhatsAppMessage(phone, body)] appends to the log
    and control goes on. *)
Definition sendWhatsAppMessage (phone : string) (b : Body) (w : World) : World :=
  mkWorld (sessions w) (otps w) (outbox w ++ [mkOut phone b]).

(** What a domain call answers: a user id and possibly a token. *)
Record AuthResult := mkAuth { res_userId : Z; res_token : string }.

Record PageData := mkPage {
  pd_items : list string;
  pd_page : Z;
  pd_totalPages : Z;
  pd_pageSize : Z
}.

(** The result of a handler that may leave through an exception. *)
Inductive Result :=
  | Done (w : World)
  | Threw (w : World).

(** The collaborators of one inbound event, none of them under [src/]. A
    call that raises answers [None] (or [false]). [registerUser] is given
    the [OTP] table as it stands when the call is made. [domainHandler]
    stands for the catalogue, cart, order, appointment and payment handlers,
    which are outside this development. *)
Record Env := mkEnv {
  now : Z;
  sessionIdleTimeoutMinutes : option Z;
  rateLimitAllowed : bool;
  generateToken : string;
  classify : string -> string -> Session -> NlpResult;
  sanitizeInput : string -> string;
  normalizePhoneNumber : string -> string;
  isValidRegistrationData : RegistrationData -> bool;
  isValidLoginData : string -> string -> bool;
  findUserByEmail : string -> option bool;
  generateOTP : option string;
  getOTPExpiry : Z;
  encryptData : RegistrationData -> option string;
  decryptData : string -> option RegistrationData;
  sendOTPEmail : string -> string -> bool;
  registerUser : list OTPRecord -> RegistrationData -> option AuthResult;
  loginUser : string -> string -> option AuthResult;
  startSupportChat : string -> string -> bool;
  endSupportChat : string -> bool;
  sendSupportMessage : string -> string -> bool;
  savePrescription : string -> value -> value -> bool;
  listAllProductsPaginated : Z -> Z -> option PageData;
  searchDoctorsPaginated : string -> string -> Z -> Z -> option PageData;
  domainHandler : Intent -> string -> Session -> gmap string string -> World -> Result
}.

End Model.

(** ** One-time-code gate: lookups in the [OTP] table *)

Module Otp.
Import Text Model.

Definition shiftIndex (x : nat * OTPRecord) : nat * OTPRecord := (S (fst x), snd x).

(** [OTP.findOne({ where, order: [['createdAt','DESC']] })]: the matching
    row with the greatest [createdAt] (the first such row of the table on a
    tie), with its position in the table. *)
Fixpoint findLatest (p : OTPRecord -> bool) (l : list OTPRecord)
  : option (nat * OTPRecord) :=
  match l with
  | [] => None
  | r :: l' =>
      let rest := shiftIndex <$> findLatest p l' in
      if p r then
        match rest with
        | Some x => if otp_createdAt r <? otp_createdAt (snd x) then Some x else Some (0%nat, r)
        | None => Some (0%nat, r)
        end
      else rest
  end.

(** [where: { code, purpose }] *)
Definition byCode (code purpose : string) (r : OTPRecord) : bool :=
  eqs (otp_code r) code && eqs (otp_purpose r) purpose.

(** [where: { email, code, purpose }] *)
Definition byEmailCode (email code purpose : string) (r : OTPRecord) : bool :=
  eqs (otp_email r) email && eqs (otp_code r) code && eqs (otp_purpose r) purpose.

(** [OTP.update({ isUsed: true }, { where: { email, purpose, isUsed: false } })] *)
Definition markAllUsed (email purpose : string) (l : list OTPRecord) : list OTPRecord :=
  map (fun r =>
         if eqs (otp_email r) email && eqs (otp_purpose r) purpose && negb (otp_isUsed r)
         then withUsed true (otp_usedAt r) r else r) l.

(** [otpRecord.save()] for the row found at position [i]. *)
Definition saveOtp (i : nat) (r : OTPRecord) (w : World) : World :=
  withOtps (<[i := r]> (otps w)) w.

(** [OTP.create({ email, code, purpose, expiresAt, meta })]: a new row,
    unused, created now. *)
Definition createOtp (env : Env) (email code : string) (meta : option string)
  (w : World) : World :=
  withOtps (otps w ++ [mkOTP email code "registration" false None
                             (getOTPExpiry env) (now env) meta]) w.

(** The encrypted snapshot put in [meta]: [null] when the encryption raises
    or gives a falsy value. *)
Definition snapshot (env : Env) (r : RegistrationData) : option string :=
  match encryptData env (mkReg (reg_name r) (reg_email r) (reg_password r) (reg_phoneNumber r)) with
  | Some c => if eqs c "" then None else Some c
  | None => None
  end.

(** A registration payload is usable when it is an object with a truthy
    [email]. *)
Definition usableRegistration (v : value) : option RegistrationData :=
  match v with
  | VReg r => if eqs (reg_email r) "" then None else Some r
  | _ => None
  end.

(** [a || b] *)
Definition orElse (a b : value) : value := if truthy a then a else b.

(** [(freshSession && freshSession.data && freshSession.data.registrationData)
     || (session.data && session.data.registrationData)] *)
Definition sessionRegistration (freshSession : option Session) (session : Session) : value :=
  orElse (match freshSession with
          | Some f => field (data f) "registrationData"
          | None => VNull
          end)
         (field (data session) "registrationData").

(** The payload recovered from the snapshot of a row (lines 2399-2415). *)
Definition recoverRegistration (env : Env) (phoneNumber : string) (r : OTPRecord)
  : option RegistrationData :=
  match otp_meta r with
  | Some c =>
      if eqs c "" then None
      else match decryptData env c with
           | Some d =>
               if eqs (reg_email d) "" then None
               else Some (mkReg (reg_name d) (reg_email d) (reg_password d)
                            (if eqs (reg_phoneNumber d) ""
                             then normalizePhoneNumber env phoneNumber
                             else reg_phoneNumber d))
           | None => None
           end
  | None => None
  end.

End Otp.

(** ** The handlers of [src/index.js] *)

Module Handlers.
Import Text Model Otp.

(** What [isAuthenticatedSession] may be handed: [null]/[undefined], an
    object whose properties cannot be read without an exception, or an
    object with a (possibly absent) [state] and a (possibly [null])
    [data]. *)
Inductive SessionArg :=
  | ArgNull
  | ArgThrowing
  | ArgObject (st : option SessionState) (d : option (gmap string value)).

Definition argOf (s : Session) : SessionArg := ArgObject (Some (state s)) (Some (data s)).

(** The body of the [try] block of [isAuthenticatedSession]; [None] when an
    exception leaves it. *)
Definition isAuthenticatedSession_try (a : SessionArg) : option bool :=
  match a with
  | ArgNull => Some false
  | ArgThrowing => None
  | ArgObject st d =>
      if decide (st = Some LOGGED_IN) then Some true
      else match d with
           | Some d => if truthy (field d "userId") then Some true else Some false
           | None => Some false
           end
  end.

(** [isAuthenticatedSession(session)]: the [catch] answers [false]. *)
Definition isAuthenticatedSession (a : SessionArg) : bool :=
  default false (isAuthenticatedSession_try a).

(** [result.token || generateToken()] *)
Definition tokenOf (env : Env) (result : AuthResult) : string :=
  if eqs (res_token result) "" then generateToken env else res_token result.

(** [Object.assign(session.data || {}, fields)]: later fields win. *)
Definition assign (fields : list (string * value)) (d : gmap string value)
  : gmap string value :=
  foldl (fun m kv => <[fst kv := snd kv]> m) d fields.

(** Modelled from the spec: [notifySupportTeams] of [services/support] is
    missing from [src/]; a notification goes through the outbound-delivery
    collaborator, whose failures are logged and not raised; it leaves the
    store as it is. *)
Definition notifySupportTeams (phoneNumber : string) (w : World) : World := w.

(** The registration payload the verification goes on with (lines
    2386-2416): the one of the session when it is usable, else the one
    recovered from the snapshot of the row found for the code. *)
Definition resolveRegistration (env : Env) (phoneNumber : string)
  (freshSession : option Session) (session : Session)
  (otpRecordByCode : option (nat * OTPRecord)) : option RegistrationData :=
  match usableRegistration (sessionRegistration freshSession session), otpRecordByCode with
  | None, Some (_, r) => recoverRegistration env phoneNumber r
  | fromSession, _ => fromSession
  end.

(** The session after a registration completed with [result] (lines
    2479-2487). *)
Definition registeredSession (env : Env) (result : AuthResult) (session : Session)
  : Session :=
  withData (assign [("userId", VNum (res_userId result));
                    ("token", VStr (tokenOf env result));
                    ("tokenLastUsed", VTime (now env));
                    ("waitingForOTPVerification", VBool false);
                    ("registrationData", VNull);
                    ("emailSendFailed", VBool false)] (data session))
           (withState LOGGED_IN session).

(** The gate proper (lines 2455-2512), for the row [r] found at position
    [i] and the payload [rd]: used and expired codes are turned away; a good
    code is marked used, then the user is created; when that fails the used
    flag is put back. *)
Definition verifyAndRegister (env : Env) (phoneNumber : string) (session : Session)
  (rd : RegistrationData) (i : nat) (r : OTPRecord) (w : World) : World :=
  if otp_isUsed r then
    sendWhatsAppMessage phoneNumber (WithOptions TOtpAlreadyUsed false) w
  else if otp_expiresAt r <? now env then
    sendWhatsAppMessage phoneNumber (WithOptions TOtpExpired false) w
  else
    (* marked used before the user is created *)
    let w := saveOtp i (withUsed true (Some (now env)) r) w in
    match registerUser env (otps w) rd with
    | Some result =>
        let session := registeredSession env result session in
        let w := saveSession phoneNumber session w in
        let w := notifySupportTeams phoneNumber w in
        sendWhatsAppMessage phoneNumber
          (WithOptions (TRegistrationSuccess (reg_name rd)) true) w
    | None =>
        let w := sendWhatsAppMessage phoneNumber (WithOptions TRegistrationFailed false) w in
        (* the used flag is put back, the session keeps its state *)
        let w := saveOtp i (withUsed false None r) w in
        saveSession phoneNumber
          (setField "waitingForOTPVerification" (VBool true) session) w
    end.

(** [handleRegistrationOTPVerification(phoneNumber, session, otpCode)] *)
Definition handleRegistrationOTPVerification (env : Env) (phoneNumber : string)
  (session : Session) (otpCode : string) (w : World) : World :=
  let otp := trim otpCode in
  if negb (isFourDigits otp) then
    sendWhatsAppMessage phoneNumber (WithOptions TOtpInvalidFormat false) w
  else
    let freshSession := sessions w !! phoneNumber in
    let otpRecordByCode := findLatest (byCode otp "registration") (otps w) in
    match resolveRegistration env phoneNumber freshSession session otpRecordByCode with
    | None =>
        let w := sendWhatsAppMessage phoneNumber (WithOptions TOtpSessionExpired false) w in
        match freshSession with
        | Some f =>
            saveSession phoneNumber
              (setField "registrationData" VNull
                 (setField "waitingForOTPVerification" (VBool false) f)) w
        | None => w
        end
    | Some rd =>
        let session := default session freshSession in
        let byEmail := findLatest (byEmailCode (reg_email rd) otp "registration") (otps w) in
        let otpRecord :=
          match otpRecordByCode with
          | Some (i, r) => if eqs (otp_email r) (reg_email rd) then Some (i, r) else byEmail
          | None => byEmail
          end in
        match otpRecord with
        | None => sendWhatsAppMessage phoneNumber (WithOptions TOtpNoMatch false) w
        | Some (i, r) => verifyAndRegister env phoneNumber session rd i r w
        end
    end.

(** [handleResendOTP(phoneNumber, session)] *)
Definition handleResendOTP (env : Env) (phoneNumber : string) (session : Session)
  (w : World) : World :=
  let freshSession := sessions w !! phoneNumber in
  match usableRegistration (sessionRegistration freshSession session) with
  | None =>
      let w := sendWhatsAppMessage phoneNumber (WithOptions TResendNoRegistration false) w in
      match freshSession with
      | Some f =>
          saveSession phoneNumber
            (setField "registrationData" VNull
               (setField "waitingForOTPVerification" (VBool false) f)) w
      | None => w
      end
  | Some registrationData =>
      let session := default session freshSession in
      match generateOTP env with
      | None => sendWhatsAppMessage phoneNumber (WithOptions TResendError false) w
      | Some newOtp =>
          (* old codes are marked used so that they cannot be reused *)
          let w := withOtps (markAllUsed (reg_email registrationData) "registration" (otps w)) w in
          let w := createOtp env (reg_email registrationData) newOtp
                     (snapshot env registrationData) w in
          if sendOTPEmail env (reg_email registrationData) newOtp then
            let w := sendWhatsAppMessage phoneNumber
                       (WithOptions (TResendSent (reg_email registrationData)) false) w in
            saveSession phoneNumber
              (setField "emailSendFailed" (VBool false)
                 (setField "registrationAttempts" (VNum 0)
                    (setField "waitingForOTPVerification" (VBool true) session))) w
          else
            let w := sendWhatsAppMessage phoneNumber (WithOptions TResendEmailDown false) w in
            saveSession phoneNumber
              (setField "emailSendFailed" (VBool true)
                 (setField "waitingForOTPVerification" (VBool true) session)) w
      end
  end.

(** [(session.data.registrationAttempts || 0) + 1] *)
Definition nextAttempt (d : gmap string value) : Z :=
  match field d "registrationAttempts" with
  | VNum n => n + 1
  | _ => 1
  end.

(** [handleRegistration(phoneNumber, session, parameters)] *)
Definition handleRegistration (env : Env) (phoneNumber : string) (session : Session)
  (parameters : gmap string string) (w : World) : World :=
  if decide (state session = NEW \/ state session = REGISTERING) then
    if given parameters "name" && given parameters "email" && given parameters "password" then
      let userData :=
        mkReg (sanitizeInput env (param parameters "name"))
              (toLowerCase (sanitizeInput env (param parameters "email")))
              (sanitizeInput env (param parameters "password"))
              (normalizePhoneNumber env phoneNumber) in
      if negb (isValidRegistrationData env userData) then
        sendWhatsAppMessage phoneNumber (WithOptions TRegistrationInvalid false) w
      else if default false (findUserByEmail env (reg_email userData)) then
        sendWhatsAppMessage phoneNumber (WithOptions TEmailTaken false) w
      else
        let session :=
          setField "token" VNull
            (setField "userId" VNull
               (setField "registrationData" (VReg userData)
                  (withState REGISTERING session))) in
        let w := saveSession phoneNumber session w in
        match generateOTP env with
        | Some otp =>
            (* a new row; the earlier rows of this address are left as they are *)
            let w := createOtp env (reg_email userData) otp (snapshot env userData) w in
            let emailSent := sendOTPEmail env (reg_email userData) otp in
            let w := sendWhatsAppMessage phoneNumber
                       (WithOptions (if emailSent then TOtpSent (reg_email userData)
                                     else TOtpEmailDown) false) w in
            saveSession phoneNumber
              (setField "emailSendFailed" (VBool (negb emailSent))
                 (setField "registrationAttempts" (VNum (nextAttempt (data session)))
                    (setField "waitingForOTPVerification" (VBool true) session))) w
        | None =>
            let w := sendWhatsAppMessage phoneNumber (WithOptions TRegistrationSetupFailed false) w in
            saveSession phoneNumber
              (setField "waitingForOTPVerification" (VBool false)
                 (setField "registrationData" VNull session)) w
        end
    else
      sendWhatsAppMessage phoneNumber
        (WithOptions (TRegistrationMissing (given parameters "name")
                        (given parameters "email") (given parameters "password")) false) w
  else
    sendWhatsAppMessage phoneNumber
      (WithOptions TAlreadyRegistered (isAuthenticatedSession (argOf session))) w.

(** [handleLogin(phoneNumber, session, parameters)] *)
Definition handleLogin (env : Env) (phoneNumber : string) (session : Session)
  (parameters : gmap string string) (w : World) : World :=
  if decide (state session = NEW \/ state session = LOGGING_IN) then
    let session := withState LOGGING_IN session in
    let w := saveSession phoneNumber session w in
    if given parameters "email" && given parameters "password" then
      let email := toLowerCase (sanitizeInput env (param parameters "email")) in
      let password := sanitizeInput env (param parameters "password") in
      if negb (isValidLoginData env email password) then
        sendWhatsAppMessage phoneNumber (WithOptions TLoginInvalid false) w
      else
        match loginUser env email password with
        | Some result =>
            let session :=
              withData (assign [("userId", VNum (res_userId result));
                                ("token", VStr (tokenOf env result));
                                ("tokenLastUsed", VTime (now env))] (data session))
                       (withState LOGGED_IN session) in
            let w := saveSession phoneNumber session w in
            sendWhatsAppMessage phoneNumber (WithOptions TLoginSuccess true) w
        | None =>
            sendWhatsAppMessage phoneNumber (WithOptions TLoginFailed false) w
        end
    else
      sendWhatsAppMessage phoneNumber
        (WithOptions (TLoginMissing (given parameters "email") (given parameters "password"))
                     false) w
  else
    sendWhatsAppMessage phoneNumber (WithOptions TAlreadyLoggedIn true) w.

(** [handleLogout(phoneNumber, session)] *)
Definition handleLogout (phoneNumber : string) (session : Session) (w : World) : World :=
  let session := withData ∅ (withState NEW session) in
  let w := saveSession phoneNumber session w in
  sendWhatsAppMessage phoneNumber (Plain TLogoutDone) w.

(** [handleGreeting(phoneNumber, session)] *)
Definition handleGreeting (phoneNumber : string) (session : Session) (w : World) : World :=
  if decide (state session = NEW) then sendWhatsAppMessage phoneNumber (Plain TGreetingNew) w
  else sendWhatsAppMessage phoneNumber (Plain TGreetingBack) w.

(** [handleHelp(phoneNumber, isLoggedIn)] *)
Definition handleHelp (phoneNumber : string) (isLoggedIn : bool) (w : World) : World :=
  sendWhatsAppMessage phoneNumber (WithOptions THelp isLoggedIn) w.

(** Modelled from the spec: [startSupportChat] of [services/support] is
    missing from [src/]; the support intent takes the session to
    [SUPPORT_CHAT]. This is the store after a successful call. *)
Definition supportChatStarted (phoneNumber : string) (w : World) : World :=
  withSessions (alter (withState SUPPORT_CHAT) phoneNumber (sessions w)) w.

(** Modelled from the spec: [endSupportChat] of [services/support] is
    missing from [src/]; leaving the support chat takes the session back to
    [LOGGED_IN]. This is the store after a successful call. *)
Definition supportChatEnded (phoneNumber : string) (w : World) : World :=
  withSessions (alter (withState LOGGED_IN) phoneNumber (sessions w)) w.

(** [parameters.supportType || 'general'] *)
Definition supportRoleOf (parameters : gmap string string) : string :=
  if given parameters "supportType" then param parameters "supportType" else "general".

(** [handleSupportRequest(phoneNumber, session, parameters)] *)
Definition handleSupportRequest (env : Env) (phoneNumber : string) (session : Session)
  (parameters : gmap string string) (w : World) : World :=
  let isLoggedIn := isAuthenticatedSession (argOf session) in
  let supportRole := supportRoleOf parameters in
  if startSupportChat env phoneNumber supportRole then
    let w := supportChatStarted phoneNumber w in
    sendWhatsAppMessage phoneNumber (WithOptions (TSupportConnected supportRole) isLoggedIn) w
  else
    (* the catch block: "Revert session state on failure" *)
    let session := withSupportTeamId None (withState LOGGED_IN session) in
    let w := saveSession phoneNumber session w in
    sendWhatsAppMessage phoneNumber
      (WithOptions TSupportFailed (isAuthenticatedSession (argOf session))) w.

(** The branch of the [/webhook] media handler that keeps an uploaded file
    pending (lines 539-550): the caption names no order. *)
Definition webhookPendingPrescription (phoneNumber url : string)
  (extractedText : string) (w : World) : World :=
  let session := default (mkSession NEW ∅ None None) (sessions w !! phoneNumber) in
  let w := match sessions w !! phoneNumber with
           | Some _ => w
           | None => saveSession phoneNumber session w
           end in
  let session := setField "pendingPrescriptionUrl" (VStr url) session in
  let session := if eqs extractedText "" then session
                 else setField "pendingPrescriptionExtractedText" (VStr extractedText) session in
  let w := saveSession phoneNumber session w in
  sendWhatsAppMessage phoneNumber (Plain TPrescriptionReceived) w.

End Handlers.

(** ** The flow dispatcher: [handleCustomerMessage] *)

Module Dispatcher.
Import Text Model Otp Handlers Pagination.

(** [/^(close|exit|end chat|stop support)$/i.test(messageText.trim())] *)
Definition closeMatch (messageText : string) : bool :=
  let s := toLowerCase (trim messageText) in
  eqs s "close" || eqs s "exit" || eqs s "end chat" || eqs s "stop support".

(** [a || b] on optional results. *)
Definition orElseOpt {A} (a b : option A) : option A :=
  match a with Some _ => a | None => b end.

(** [\s+#?(\d+)] at the start of [s]: the captured digits. *)
Definition spacesThenNumber (s : string) : option string :=
  match s with
  | String c _ =>
      if isSpace c then
        let rest := trimStart s in
        let digitsAt := match rest with
                        | String "#" r => r
                        | _ => rest
                        end in
        let d := fst (spanDigits digitsAt) in
        if eqs d "" then None else Some d
      else None
  | EmptyString => None
  end.

(** [messageText.trim().match(/^(?:rx|attach|link)\s+#?(\d+)/i)]: the order
    id captured, when the message is a quick-attach command. Lowering the
    text leaves spaces, [#] and digits as they are. *)
Definition attachMatch (messageText : string) : option string :=
  let s := toLowerCase (trim messageText) in
  match orElseOpt (stripPrefix "rx" s)
          (orElseOpt (stripPrefix "attach" s) (stripPrefix "link" s)) with
  | Some rest => spacesThenNumber rest
  | None => None
  end.

(** [messageText.trim().match(/^\d{4}$/)] *)
Definition otpMatch (messageText : string) : bool := isFourDigits (trim messageText).

(** [messageText.toLowerCase().trim().match(/^(resend|retry|send again)$/)] *)
Definition resendMatch (messageText : string) : bool :=
  let s := trim (toLowerCase messageText) in
  eqs s "resend" || eqs s "retry" || eqs s "send again".

(** The target page of a navigation command for the cursor stored under
    [key], when the [if (targetPage)] test passes. *)
Definition navigationTarget (session : Session) (key messageText : string)
  : option (Z * Cursor) :=
  match field (data session) key with
  | VCursor c =>
      match parseNavigationCommand messageText (currentPage c) (totalPages c) with
      | Some t => if t =? 0 then None else Some (t, c)
      | None => None
      end
  | _ => None
  end.

Definition waitingForOTP (session : Session) : bool :=
  truthy (field (data session) "waitingForOTPVerification").

(** [intent]s that are served only to an authenticated session. *)
Definition authenticatedOnly (i : Intent) : bool :=
  match i with
  | search_products | add_to_cart | place_order | track_order | search_doctors
  | book_appointment | payment | diagnostic_tests | healthcare_products => true
  | _ => false
  end.

(** Where a message goes. *)
Inductive Route :=
  | RSupportClose
  | RSupportForward (messageText : string)
  | RAttach (orderId : string)
  | RAttachNothingPending
  | RProductPage (targetPage : Z) (c : Cursor)
  | RDoctorPage (targetPage : Z) (c : Cursor)
  | ROtpVerify (code : string)
  | ROtpResend
  | ROtpPrompt
  | RAuthRequired (i : Intent)
  | RHandler (r : NlpResult) (isLoggedIn : bool).

(** The [switch (intent)] on the result of the classifier. *)
Definition routeIntent (env : Env) (phoneNumber : string) (session : Session)
  (messageText : string) : Route :=
  let isLoggedIn := isAuthenticatedSession (argOf session) in
  let nlpResult := classify env messageText phoneNumber session in
  if authenticatedOnly (intent nlpResult) && negb isLoggedIn
  then RAuthRequired (intent nlpResult)
  else RHandler nlpResult isLoggedIn.

(** The checks of [handleCustomerMessage] from line 1206 on, in the order of
    the source; each [if] that matches ends with [return]. *)
Definition route (env : Env) (phoneNumber : string) (session : Session)
  (messageText : string) : Route :=
  if decide (state session = SUPPORT_CHAT) then
    if closeMatch messageText then RSupportClose else RSupportForward messageText
  else
    match attachMatch messageText with
    | Some orderId =>
        if truthy (field (data session) "pendingPrescriptionUrl")
        then RAttach orderId else RAttachNothingPending
    | None =>
        match navigationTarget session "productPagination" messageText with
        | Some (t, c) => RProductPage t c
        | None =>
            match navigationTarget session "doctorPagination" messageText with
            | Some (t, c) => RDoctorPage t c
            | None =>
                if bool_decide (state session = REGISTERING) || waitingForOTP session then
                  if otpMatch messageText then ROtpVerify (trim messageText)
                  else if resendMatch messageText then ROtpResend
                  else if bool_decide (state session = REGISTERING) && waitingForOTP session
                       then ROtpPrompt
                       else routeIntent env phoneNumber session messageText
                else routeIntent env phoneNumber session messageText
            end
        end
    end.

(** [session.data.lastDoctorSearch || {}], read as
    [(specialty || '', location || '')]. *)
Definition lastDoctorSearch (session : Session) : string * string :=
  match field (data session) "lastDoctorSearch" with
  | VSearch specialty location => (specialty, location)
  | _ => ("", "")
  end.

(** [|| null] on the extracted text handed to [savePrescription]. *)
Definition orNull (v : value) : value := if truthy v then v else VNull.

Definition cursorOf (p : PageData) : Cursor :=
  mkCursor (pd_page p) (pd_totalPages p) (pd_pageSize p).

(** What each route runs. An exception that no handler catches leaves as
    [Threw]. *)
Definition runRoute (env : Env) (phoneNumber : string) (session : Session)
  (r : Route) (w : World) : Result :=
  match r with
  | RSupportClose =>
      if endSupportChat env phoneNumber then
        Done (sendWhatsAppMessage phoneNumber (Plain TSupportExited)
                (supportChatEnded phoneNumber w))
      else Threw w
  | RSupportForward messageText =>
      if sendSupportMessage env phoneNumber messageText then Done w
      else if endSupportChat env phoneNumber then
        Done (sendWhatsAppMessage phoneNumber (Plain TSupportUnavailable)
                (supportChatEnded phoneNumber w))
      else Done w
  | RAttach orderId =>
      if savePrescription env orderId (field (data session) "pendingPrescriptionUrl")
           (orNull (field (data session) "pendingPrescriptionExtractedText"))
      then
        let session := setField "pendingPrescriptionExtractedText" VNull
                         (setField "pendingPrescriptionUrl" VNull session) in
        Done (sendWhatsAppMessage phoneNumber (Plain (TAttachOk orderId))
                (saveSession phoneNumber session w))
      else Done (sendWhatsAppMessage phoneNumber (Plain (TAttachFailed orderId)) w)
  | RAttachNothingPending =>
      Done (sendWhatsAppMessage phoneNumber (Plain TNoPendingPrescription) w)
  | RProductPage t c =>
      match listAllProductsPaginated env t (pageSize c) with
      | Some pageData =>
          let session := setField "productPageItems" (VItems (pd_items pageData))
                           (setField "productPagination" (VCursor (cursorOf pageData)) session) in
          Done (sendWhatsAppMessage phoneNumber
                  (WithOptions (TProductPage (pd_page pageData) (pd_totalPages pageData))
                               (isAuthenticatedSession (argOf session)))
                  (saveSession phoneNumber session w))
      | None => Threw w
      end
  | RDoctorPage t c =>
      match searchDoctorsPaginated env (fst (lastDoctorSearch session))
              (snd (lastDoctorSearch session)) t (pageSize c) with
      | Some pageData =>
          let session := setField "doctorPageItems" (VItems (pd_items pageData))
                           (setField "doctorPagination" (VCursor (cursorOf pageData)) session) in
          Done (sendWhatsAppMessage phoneNumber
                  (WithOptions (TDoctorPage (pd_page pageData) (pd_totalPages pageData))
                               (isAuthenticatedSession (argOf session)))
                  (saveSession phoneNumber session w))
      | None => Threw w
      end
  | ROtpVerify code => Done (handleRegistrationOTPVerification env phoneNumber session code w)
  | ROtpResend => Done (handleResendOTP env phoneNumber session w)
  | ROtpPrompt => Done (sendWhatsAppMessage phoneNumber (WithOptions TOtpPrompt false) w)
  | RAuthRequired _ => Done (sendWhatsAppMessage phoneNumber (Plain TAuthRequired) w)
  | RHandler nlp isLoggedIn =>
      match intent nlp with
      | greeting => Done (handleGreeting phoneNumber session w)
      | register => Done (handleRegistration env phoneNumber session (parameters nlp) w)
      | login => Done (handleLogin env phoneNumber session (parameters nlp) w)
      | logout => Done (handleLogout phoneNumber session w)
      | help => Done (handleHelp phoneNumber isLoggedIn w)
      | support => Done (handleSupportRequest env phoneNumber session (parameters nlp) w)
      | unknown =>
          Done (sendWhatsAppMessage phoneNumber
                  (WithOptions (TFallback (fulfillmentText nlp)) isLoggedIn) w)
      | i => domainHandler env i phoneNumber session (parameters nlp) w
      end
  end.

(** [parseInt(process.env.SESSION_IDLE_TIMEOUT_MINUTES || '10', 10) * 60 * 1000];
    the variable, when it is set, holds a number. *)
Definition idleMs (env : Env) : Z :=
  default 10 (sessionIdleTimeoutMinutes env) * 60 * 1000.

Inductive IdleOutcome :=
  | IdleExpired (s : Session)
  | IdleActive (s : Session).

(** The idle-timeout block of [handleCustomerMessage] (lines 1176-1204):
    the session it leaves, and whether it logged the user out. *)
Definition sessionIdleCheck (env : Env) (session : Session) : IdleOutcome :=
  if decide (state session = LOGGED_IN) then
    let tokenLastUsedStr := field (data session) "tokenLastUsed" in
    let tooOld := match dateMs tokenLastUsedStr with
                  | Some tokenLastUsed => idleMs env <? now env - tokenLastUsed
                  | None => false
                  end in
    if truthy tokenLastUsedStr && tooOld then
      IdleExpired (withData ∅ (withState NEW session))
    else
      let session := if truthy (field (data session) "token") then session
                     else setField "token" (VStr (generateToken env)) session in
      IdleActive (setField "tokenLastUsed" (VTime (now env)) session)
  else IdleActive session.

(** [handleCustomerMessage(phoneNumber, messageText)] *)
Definition handleCustomerMessage (env : Env) (phoneNumber messageText : string)
  (w : World) : World :=
  if negb (rateLimitAllowed env) then
    sendWhatsAppMessage phoneNumber (Plain TRateLimited) w
  else
    let session := default (mkSession NEW ∅ None None) (sessions w !! phoneNumber) in
    let session := withLastActivity (Some (now env)) session in
    let w := saveSession phoneNumber session w in
    match sessionIdleCheck env session with
    | IdleExpired session =>
        sendWhatsAppMessage phoneNumber (Plain TIdleLogout) (saveSession phoneNumber session w)
    | IdleActive touched =>
        (* the block saves only inside [if (session.state === 'LOGGED_IN')] *)
        let w := if bool_decide (state session = LOGGED_IN)
                 then saveSession phoneNumber touched w else w in
        let session := touched in
        match runRoute env phoneNumber session (route env phoneNumber session messageText) w with
        | Done w => w
        | Threw w => sendWhatsAppMessage phoneNumber (Plain TApology) w
        end
    end.

End Dispatcher.

(** ** The properties of the specification, as definitions *)

Module Spec.
Import Text Model Otp Handlers Pagination Dispatcher.

(** The gates that may claim a message before the classifier is asked. *)
Inductive Gate := GSupport | GOtp | GAttach | GPagination | GIntent.

#[global] Instance Gate_eq_dec : EqDecision Gate.
Proof. solve_decision. Defined.

Definition gateOf (r : Route) : Gate :=
  match r with
  | RSupportClose | RSupportForward _ => GSupport
  | RAttach _ | RAttachNothingPending => GAttach
  | RProductPage _ _ | RDoctorPage _ _ => GPagination
  | ROtpVerify _ | ROtpResend | ROtpPrompt => GOtp
  | RAuthRequired _ | RHandler _ _ => GIntent
  end.

(** When a gate claims the message, each gate looked at on its own. *)
Definition claims (session : Session) (messageText : string) (g : Gate) : bool :=
  match g with
  | GSupport => bool_decide (state session = SUPPORT_CHAT)
  | GOtp =>
      (bool_decide (state session = REGISTERING) || waitingForOTP session)
      && (otpMatch messageText || resendMatch messageText
          || (bool_decide (state session = REGISTERING) && waitingForOTP session))
  | GAttach => bool_decide (is_Some (attachMatch messageText))
  | GPagination =>
      bool_decide (is_Some (navigationTarget session "productPagination" messageText))
      || bool_decide (is_Some (navigationTarget session "doctorPagination" messageText))
  | GIntent => true
  end.

(** The gate that serves a message under a priority order: the first one
    of the order that claims it, the classifier otherwise. *)
Definition firstGate (order : list Gate) (session : Session) (messageText : string) : Gate :=
  default GIntent (List.find (claims session messageText) order).

(** The order of the specification. *)
Definition specifiedOrder : list Gate := [GSupport; GOtp; GAttach; GPagination].

(** The order of the source. *)
Definition sourceOrder : list Gate := [GSupport; GAttach; GPagination; GOtp].



(** [tokenLastUsed] as a time, when the session holds one. *)
Definition tokenLastUsed (s : Session) : option Z :=
  if truthy (field (data s) "tokenLastUsed")
  then dateMs (field (data s) "tokenLastUsed") else None.


(** The session the media branch starts from: the stored one, or the one
    it creates. *)
Definition priorSession (ph : string) (w : World) : Session :=
  default (mkSession NEW ∅ None None) (sessions w !! ph).

(** What the last message sent by a run was. *)
Definition lastSent (w : World) : option Template :=
  template <$> (out_body <$> last (outbox w)).

End Spec.

(** ** Sample collaborators and stores *)

Module Sample.
Import Text Model Otp Handlers Pagination Dispatcher.

Definition phone : string := "2348012345678".

Definition ada : RegistrationData :=
  mkReg "Ada" "ada@example.com" "secret1" "2348012345678".

Definition registrationParameters : gmap string string :=
  list_to_map [("name", "Ada"); ("email", "ada@example.com"); ("password", "secret1")].

(** A classifier that reads the first word; a registration message is
    Ada's. *)
Definition classifyByKeyword (messageText _phone : string) (_s : Session) : NlpResult :=
  let s := toLowerCase (trim messageText) in
  if eqs s "support" then mkNlp support ∅ ""
  else if eqs s "logout" then mkNlp logout ∅ ""
  else if eqs s "cart" then mkNlp add_to_cart ∅ ""
  else match stripPrefix "register" s with
       | Some _ => mkNlp register registrationParameters ""
       | None => mkNlp unknown ∅ ""
       end.

(** Collaborators that all answer; the snapshot is the e-mail address in
    clear, which is enough to tell the payloads of the samples apart. *)
Definition env (t : Z) (registerOk supportOk : bool) (newCode : string) : Env :=
  {| now := t;
     sessionIdleTimeoutMinutes := None;
     rateLimitAllowed := true;
     generateToken := "tok-1";
     classify := classifyByKeyword;
     sanitizeInput := fun s => s;
     normalizePhoneNumber := fun s => s;
     isValidRegistrationData := fun _ => true;
     isValidLoginData := fun _ _ => true;
     findUserByEmail := fun _ => Some false;
     generateOTP := Some newCode;
     getOTPExpiry := t + 300000;
     encryptData := fun r => Some (reg_email r);
     decryptData := fun c => if eqs c "ada@example.com" then Some ada else None;
     sendOTPEmail := fun _ _ => true;
     registerUser := fun _ _ => if registerOk then Some (mkAuth 7 "") else None;
     loginUser := fun _ _ => Some (mkAuth 7 "");
     startSupportChat := fun _ _ => supportOk;
     endSupportChat := fun _ => true;
     sendSupportMessage := fun _ _ => true;
     savePrescription := fun _ _ _ => true;
     listAllProductsPaginated := fun p n => Some (mkPage [] p 5 n);
     searchDoctorsPaginated := fun _ _ p n => Some (mkPage [] p 5 n);
     domainHandler := fun _ _ _ _ w => Done w |}.

Definition emptyWorld : World := mkWorld ∅ [] [].

Definition sessionOf (st : SessionState) (fields : list (string * value)) : Session :=
  mkSession st (list_to_map fields) None None.

Definition worldOf (s : Session) (codes : list OTPRecord) : World :=
  mkWorld {[ phone := s ]} codes [].

(** Ada's code [4821], issued at time 1000 for five minutes. *)
Definition adaCode : OTPRecord :=
  mkOTP "ada@example.com" "4821" "registration" false None 301000 1000
        (Some "ada@example.com").

(** Ada is registering and waits for her code. *)
Definition registering : Session :=
  sessionOf REGISTERING [("registrationData", VReg ada);
                         ("waitingForOTPVerification", VBool true)].

(** She also uploaded a prescription that is not linked to an order yet. *)
Definition registeringWithUpload : Session :=
  sessionOf REGISTERING [("registrationData", VReg ada);
                         ("waitingForOTPVerification", VBool true);
                         ("pendingPrescriptionUrl", VStr "https://files.example/rx.png")].

(** She also has a product list open on page 1 of 5. *)
Definition registeringWithCursor : Session :=
  sessionOf REGISTERING [("registrationData", VReg ada);
                         ("waitingForOTPVerification", VBool true);
                         ("productPagination", VCursor (mkCursor 1 5 5))].

(** The session kept its state but lost the payload. *)
Definition registeringWithoutPayload : Session := sessionOf REGISTERING [].

(** Ada is logged in and was last seen at time [t]. *)
Definition loggedInSince (t : Z) : Session :=
  sessionOf LOGGED_IN [("userId", VNum 7); ("token", VStr "tok-0");
                       ("tokenLastUsed", VTime t)].

Definition loginParameters : gmap string string :=
  list_to_map [("email", "ada@example.com"); ("password", "secret1")].

(** Ada after a login at time 5000. *)
Definition loggedInAt5000 : Session :=
  sessionOf LOGGED_IN [("userId", VNum 7); ("token", VStr "tok-1");
                       ("tokenLastUsed", VTime 5000)].

(** A session that was never logged in but carries a user id. *)
Definition anonymousWithUserId : Session := sessionOf NEW [("userId", VNum 7)].

(** Ada sends her code at time [t]; the creation of the user answers
    when [ok]. *)
Definition verifyAt (t : Z) (ok : bool) (s : Session) (w : World) : World :=
  handleRegistrationOTPVerification (env t ok true "1111") phone s "4821" w.

Definition stateOf (w : World) : option SessionState := state <$> (sessions w !! phone).

Definition usedFlags (w : World) : list bool := otp_isUsed <$> otps w.

(** A second telephone. *)
Definition otherPhone : string := "2348099999999".

(** Ada registers from her telephone at time 1000 (code 4821); the same
    address is registered from a second telephone at time 2000 (code
    9999). *)
Definition registeredTwice : World :=
  handleCustomerMessage (env 2000 true true "9999") otherPhone
    "register Ada ada@example.com secret1"
    (handleCustomerMessage (env 1000 true true "4821") phone
       "register Ada ada@example.com secret1" emptyWorld).

(** She registers at time 1000 (code 4821) and asks for a resend at time
    2000 (code 9999). *)
Definition registeredThenResent : World :=
  handleCustomerMessage (env 2000 true true "9999") phone "resend"
    (handleCustomerMessage (env 1000 true true "4821") phone
       "register Ada ada@example.com secret1" emptyWorld).

End Sample.

(** ** Runs of the handlers that touch the [OTP] table *)

Module Steps.
Import Model Handlers.

(** One call of a handler that issues or verifies a code. *)
Inductive OtpStep : World -> World -> Prop :=
  | StepRegistration env phoneNumber session parameters w :
      OtpStep w (handleRegistration env phoneNumber session parameters w)
  | StepResend env phoneNumber session w :
      OtpStep w (handleResendOTP env phoneNumber session w)
  | StepVerification env phoneNumber session otpCode w :
      OtpStep w (handleRegistrationOTPVerification env phoneNumber session otpCode w).

(** The identity of a row: everything but the used flag and its time. *)
Definition sameCode (r r' : OTPRecord) : Prop :=
  otp_email r' = otp_email r /\ otp_code r' = otp_code r
  /\ otp_purpose r' = otp_purpose r /\ otp_expiresAt r' = otp_expiresAt r
  /\ otp_createdAt r' = otp_createdAt r /\ otp_meta r' = otp_meta r.

(** What a run may do to the rows it found: a row stays at its position
    with its identity, and a used row stays as it is. *)
Definition rowsKept (l l' : list OTPRecord) : Prop :=
  forall j r, l !! j = Some r ->
    exists r', l' !! j = Some r' /\ sameCode r r' /\ (otp_isUsed r = true -> r' = r).

(** The registration payload that [handleRegistration] builds from the
    parameters (lines 1611-1616). *)
Definition userDataOf (env : Env) (phoneNumber : string) (parameters : gmap string string)
  : RegistrationData :=
  mkReg (sanitizeInput env (param parameters "name"))
        (Text.toLowerCase (sanitizeInput env (param parameters "email")))
        (sanitizeInput env (param parameters "password"))
        (normalizePhoneNumber env phoneNumber).

(** The row that [OTP.create] adds when a code is issued by [env]. *)
Definition issuedRow (env : Env) (email code : string) (meta : option string) : OTPRecord :=
  mkOTP email code "registration" false None (getOTPExpiry env) (now env) meta.

End Steps.

(** ** The landing page: [formatPhoneForWa]
    ([src/pages/drugo-landing/index.js]) *)

Module Landing.
Import Text.

(** [s.replace(/\D/g, '')]: the digits of [s], in order. *)
Fixpoint digitsOf (s : string) : string :=
  match s with
  | EmptyString => EmptyString
  | String c r => if isDigit c then String c (digitsOf r) else digitsOf r
  end.

(** [s.replace(/^0+/, '')] *)
Fixpoint dropLeadingZeros (s : string) : string :=
  match s with
  | String "0" r => dropLeadingZeros r
  | _ => s
  end.

(** [s.startsWith('0')] *)
Definition startsWithZero (s : string) : bool :=
  match s with
  | String "0" _ => true
  | _ => false
  end.

(** [formatPhoneForWa(raw)], [raw] being a string. *)
Definition formatPhoneForWa (raw : string) : string :=
  if eqs raw "" then ""
  else
    let digits := digitsOf raw in
    if startsWithZero digits then dropLeadingZeros digits else digits.

(** [s.replace(/^\+/, '')] *)
Definition dropPlus (s : string) : string :=
  match s with
  | String "+" r => r
  | _ => s
  end.

(** [process.env.NEXT_PUBLIC_DRUGO_PHONE || '+1 555 175 1458'] (line 12):
    [configured] is the variable, [None] when it is not set; the default
    stands for a variable that is not set or is empty. *)
Definition defaultPhone : string := "+1 555 175 1458".

Definition rawPhone (configured : option string) : string :=
  match configured with
  | Some p => if eqs p "" then defaultPhone else p
  | None => defaultPhone
  end.

(** [phoneDigits] of [DrugoLanding] (line 13). *)
Definition phoneDigits (configured : option string) : string :=
  dropPlus (formatPhoneForWa (rawPhone configured)).

(** [waHref] (lines 15-16): the link of the page
    ([encodeURIComponent('Hello')] is [Hello]). *)
Definition waHref (configured : option string) : string :=
  let waNumber := phoneDigits configured in
  if eqs waNumber "" then "#"
  else ("https://wa.me/" ++ waNumber ++ "?text=Hello")%string.

End Landing.

(** ** Order ids in free text ([utils/orderParser.js]) *)

Module OrderParser.
Import Text.

Definition isLetter (c : ascii) : bool :=
  let n := code c in
  ((65 <=? n)%nat && (n <=? 90)%nat) || ((97 <=? n)%nat && (n <=? 122)%nat).

(** A word character of the regular expressions, [\w]. *)
Definition isWord (c : ascii) : bool := isLetter c || isDigit c || (code c =? 95)%nat.

(** The class [[A-Za-z0-9_-]]. *)
Definition isIdChar (c : ascii) : bool := isWord c || (code c =? 45)%nat.

Fixpoint allChars (p : ascii -> bool) (s : string) : bool :=
  match s with
  | EmptyString => true
  | String c r => p c && allChars p r
  end.

(** The longest prefix of characters of a class, and the rest. *)
Fixpoint spanWhile (p : ascii -> bool) (s : string) : string * string :=
  match s with
  | String c r =>
      if p c then let '(a, b) := spanWhile p r in (String c a, b) else (EmptyString, s)
  | EmptyString => (EmptyString, EmptyString)
  end.

(** The first [n] characters. *)
Fixpoint takeStr (n : nat) (s : string) : string :=
  match n, s with
  | S n', String c r => String c (takeStr n' r)
  | _, _ => EmptyString
  end.

(** The rest of [s] after the lower-case word [kw], matched without regard
    to case (flag [i]). *)
Fixpoint stripPrefixCI (kw s : string) : option string :=
  match kw, s with
  | EmptyString, _ => Some s
  | String a kw', String b s' =>
      if Ascii.eqb a (lowerChar b) then stripPrefixCI kw' s' else None
  | String _ _, EmptyString => None
  end.

Definition orElseStr (a b : option string) : option string :=
  match a with Some _ => a | None => b end.

(** Is the character before the position, or the one at it, a word
    character (for [\b])? *)
Definition wordBefore (prev : option ascii) : bool :=
  match prev with Some c => isWord c | None => false end.
Definition wordAt (s : string) : bool :=
  match s with String c _ => isWord c | EmptyString => false end.

(** A match of
    [/(?:\brx\b|\border\b|\bprescription\b)\s*#?([A-Za-z0-9_-]{2,50})/i]
    that starts at this position, [prev] being the character before it: the
    captured group. *)
Definition captionAt (prev : option ascii) (s : string) : option string :=
  if wordBefore prev then None
  else
    match orElseStr (stripPrefixCI "rx" s)
            (orElseStr (stripPrefixCI "order" s) (stripPrefixCI "prescription" s)) with
    | Some rest =>
        if wordAt rest then None
        else
          let afterSpaces := trimStart rest in
          let idAt := match afterSpaces with
                      | String "#" r => r
                      | _ => afterSpaces
                      end in
          let run := fst (spanWhile isIdChar idAt) in
          if (2 <=? String.length run)%nat then Some (takeStr 50 run) else None
    | None => None
    end.

(** The first match of the caption pattern in [s]. *)
Fixpoint searchCaption (prev : option ascii) (s : string) : option string :=
  match captionAt prev s with
  | Some id => Some id
  | None =>
      match s with
      | String c r => searchCaption (Some c) r
      | EmptyString => None
      end
  end.

(** A match of [/(?:drugsng[-_])([0-9]+)(?:[-_][0-9]+)?/i] that starts at
    this position: the first group. *)
Definition txRefAt (s : string) : option string :=
  match stripPrefixCI "drugsng" s with
  | Some (String c r) =>
      if ((code c =? 45)%nat || (code c =? 95)%nat)%bool then
        let run := fst (spanWhile isDigit r) in
        if eqs run "" then None else Some run
      else None
  | _ => None
  end.

Fixpoint searchTxRef (s : string) : option string :=
  match txRefAt s with
  | Some id => Some id
  | None =>
      match s with
      | String _ r => searchTxRef r
      | EmptyString => None
      end
  end.

Definition closeRun (run : string) : list string :=
  if eqs run "" then [] else [run].

(** The maximal runs of characters of a class, in order; [run] is the run
    being read. *)
Fixpoint runsFrom (p : ascii -> bool) (run : string) (s : string) : list string :=
  match s with
  | EmptyString => closeRun run
  | String c r =>
      if p c then runsFrom p (run ++ String c EmptyString) r
      else (closeRun run ++ runsFrom p EmptyString r)%list
  end.

Definition runsOf (p : ascii -> bool) (s : string) : list string := runsFrom p EmptyString s.

Definition atLeast (n : nat) (s : string) : bool := (n <=? String.length s)%nat.

(** [s.match(/\d{3,}/g)]: the runs of three digits or more. *)
Definition numberMatches (s : string) : list string :=
  List.filter (atLeast 3) (runsOf isDigit s).

(** Insertion into a list sorted by decreasing length, after the elements
    that are as long: the sort of JavaScript is stable. *)
Fixpoint insertByLength (x : string) (l : list string) : list string :=
  match l with
  | [] => [x]
  | y :: l' =>
      if (String.length y <? String.length x)%nat then x :: l
      else y :: insertByLength x l'
  end.

(** [numbers.sort((a, b) => b.length - a.length)] *)
Definition sortByLengthDesc (l : list string) : list string :=
  fold_left (fun acc x => insertByLength x acc) l [].

(** [tokens[0]] for [s.match(/[A-Za-z0-9_-]{3,50}/g)]: the first fifty
    characters of the first run of three characters or more. *)
Definition firstToken (s : string) : option string :=
  match List.filter (atLeast 3) (runsOf isIdChar s) with
  | run :: _ => Some (takeStr 50 run)
  | [] => None
  end.

(** [parseOrderIdFromText(text)], [text] being a string; [None] is [null]. *)
Definition parseOrderIdFromText (text : string) : option string :=
  if eqs text "" then None
  else
    let s := trim text in
    match searchCaption None s with
    | Some id => Some id
    | None =>
        match searchTxRef s with
        | Some id => Some id
        | None =>
            match sortByLengthDesc (numberMatches s) with
            | n :: _ => Some n
            | [] => firstToken s
            end
        end
    end.

(** [isValidOrderId(id)]; [sanitizeInput], of [utils/validation], is not
    under [src/]. *)
Definition isValidOrderId (sanitizeInput : string -> string) (id : string) : bool :=
  if eqs id "" then false
  else
    let clean := sanitizeInput id in
    (allDigits clean && (1 <=? String.length clean)%nat && (String.length clean <=? 12)%nat)
    || (allChars isIdChar clean && (3 <=? String.length clean)%nat
        && (String.length clean <=? 50)%nat).

End OrderParser.

(** ** Pieces of a text *)

Module Substring.

(** [id] stands in [text], as it is written, somewhere. *)
Definition occursIn (id text : string) : Prop :=
  exists before after, text = (before ++ id ++ after)%string.

End Substring.

(** ** What is said of the order ids *)

Module OrderSpec.
Import Text OrderParser Substring.

(** What every id the parser gives has: it is written in the text, holds
    characters of [[A-Za-z0-9_-]] only, and is not empty. *)
Definition wellFormedIn (text id : string) : Prop :=
  occursIn id text /\ allChars isIdChar id = true /\ (1 <= String.length id)%nat.

(** The head of the list is as long as any element. *)
Definition headLongest (l : list string) : Prop :=
  match l with
  | [] => True
  | h :: _ => forall y, In y l -> (String.length y <= String.length h)%nat
  end.

Definition notLetter (c : ascii) : bool := negb (isLetter c).

(** The separators of a payment reference, [-] and [_]. *)
Definition isSeparator (c : ascii) : bool := ((code c =? 45)%nat || (code c =? 95)%nat)%bool.

(** The three words before an id in a caption, in any case. *)
Definition isCaptionWord (kw : string) : Prop :=
  toLowerCase kw = "rx" \/ toLowerCase kw = "order" \/ toLowerCase kw = "prescription".

End OrderSpec.

(** ** Catalogue handlers: searches, cart and appointments ([src/index.js]) *)

Module Catalog.
Import Text Model Handlers Dispatcher.

Definition decimalDigit (c : ascii) : option Z :=
  if isDigit c then Some (digitValue c) else None.

Definition hexDigit (c : ascii) : option Z :=
  let n := code c in
  if isDigit c then Some (digitValue c)
  else if ((97 <=? n)%nat && (n <=? 102)%nat)%bool then Some (Z.of_nat n - 87)
  else if ((65 <=? n)%nat && (n <=? 70)%nat)%bool then Some (Z.of_nat n - 55)
  else None.

(** The number written by the digits at the start of [s]; [acc] is what has
    been read, [None] when no digit has. *)
Fixpoint readDigits (digit : ascii -> option Z) (radix : Z) (acc : option Z) (s : string)
  : option Z :=
  match s with
  | String c r =>
      match digit c with
      | Some d => readDigits digit radix (Some (radix * default 0 acc + d)) r
      | None => acc
      end
  | EmptyString => acc
  end.

(** [parseInt(s)] with no radix, [None] being [NaN]: white space, a sign,
    [0x] or [0X] for base sixteen, then the digits up to the first
    character that is none. The number is the exact one; the source has
    the nearest double, which is the same up to 2^53. *)
Definition parseInt (s : string) : option Z :=
  let s := trimStart s in
  let '(sign, s) := match s with
                    | String "-" r => (-1, r)
                    | String "+" r => (1, r)
                    | _ => (1, s)
                    end in
  let magnitude := match s with
                   | String "0" (String "x" r) => readDigits hexDigit 16 None r
                   | String "0" (String "X" r) => readDigits hexDigit 16 None r
                   | _ => readDigits decimalDigit 10 None s
                   end in
  (fun n => sign * n) <$> magnitude.

(** [list[index]] for a key of [session.data] under which the source keeps
    an array of items or nothing, [None] being [undefined]: a value of
    another shape holds no item, and neither does an index that is [NaN],
    negative or past the end. *)
Definition itemAt (v : value) (index : option Z) : option string :=
  match v, index with
  | VItems items, Some i => if i <? 0 then None else items !! Z.to_nat i
  | _, _ => None
  end.

(** The messages of these handlers, by the place that sends them. *)
Inductive Notice :=
  | NAuthRequired
  | NProductList (items : list string) (page totalPages : Z)
  | NNoProducts (product : string)
  | NProductMatches (product : string) (shown : list string)
  | NProductSearchError
  | NAddUsage
  | NSearchProductsFirst
  | NAdded (quantity : option Z) (product : string)
  | NAddError
  | NAskSpecialty
  | NNoDoctors (specialty location : string)
  | NDoctorList (specialty location : string) (items : list string) (page totalPages : Z)
  | NDoctorSearchError
  | NBookingUsage
  | NSearchDoctorsFirst
  | NBooked (doctor date time appointmentId : string)
  | NBookingError.

(** The calls made to the domain API and to the support service. *)
Inductive Call :=
  | CAddToCart (userId : value) (product : string) (quantity : option Z)
  | CBookAppointment (userId : value) (doctor date time : string)
  | CNotifySupportTeam (role doctor date time : string).

(** The collaborators of these handlers that [Env] does not hold, none of
    them under [src/]. A call that raises answers [None] (or [false]).
    [bookAppointment] answers [Some None] when it returns no object, else
    the [appointmentId] of its result. [validDateTime date time] tells
    whether [new Date(`${date}T${time}`)] is a valid date. *)
Record Services := mkServices {
  searchProducts : string -> option (list string);
  addToCart : value -> string -> option Z -> bool;
  bookAppointment : value -> string -> string -> string -> option (option string);
  validDateTime : string -> string -> bool
}.

(** What a handler leaves: the session object, the store, the one message
    it sent ([options] is [None] for a message sent as it is, else the flag
    given to [formatResponseWithOptions]) and the calls it made, oldest
    first. The text of these messages is none of [Template]: they are kept
    here and not in the log of the store. *)
Record Outcome := mkOutcome {
  session_after : Session;
  world_after : World;
  sent : Notice;
  options : option bool;
  calls : list Call
}.

(** [await sendAuthRequiredMessage(phoneNumber); return] *)
Definition authRequired (session : Session) (w : World) : Outcome :=
  mkOutcome session w NAuthRequired None [].

(** [sendWhatsAppMessage(phoneNumber, formatResponseWithOptions(msg, flag))]
    then [return]. *)
Definition reply (session : Session) (w : World) (n : Notice) (flag : bool)
  (made : list Call) : Outcome :=
  mkOutcome session w n (Some flag) made.

(** [try { await session.reload() } catch (_) {}]: the session object takes
    the fields of its row; it is left as it is when the row is gone. *)
Definition reload (phoneNumber : string) (session : Session) (w : World) : Session :=
  default session (sessions w !! phoneNumber).

(** Modelled from the spec: [notifySupportTeam] of [services/support] is
    missing from [src/]; a notification goes through the outbound-delivery
    collaborator, whose failures are logged and not raised; it leaves the
    store as it is. *)
Definition notifySupportTeam (phoneNumber role : string) (w : World) : World := w.

(** [products.slice(0, 5)] *)
Definition firstFive (products : list string) : list string := take 5 products.

(** [handleProductSearch] (lines 1783-1837). *)
Definition handleProductSearch (env : Env) (svc : Services) (phoneNumber : string)
  (session : Session) (parameters : gmap string string) (w : World) : Outcome :=
  let isLoggedIn := isAuthenticatedSession (argOf session) in
  let failed := reply session w NProductSearchError (isAuthenticatedSession (argOf session)) [] in
  if negb (given parameters "product") then
    match listAllProductsPaginated env 1 5 with
    | Some pageData =>
        let session := setField "productPageItems" (VItems (pd_items pageData))
                         (setField "productPagination" (VCursor (cursorOf pageData)) session) in
        reply session (saveSession phoneNumber session w)
          (NProductList (pd_items pageData) (pd_page pageData) (pd_totalPages pageData))
          isLoggedIn []
    | None => failed
    end
  else
    match searchProducts svc (param parameters "product") with
    | Some [] => reply session w (NNoProducts (param parameters "product")) isLoggedIn []
    | Some products =>
        let session := setField "searchResults" (VItems (firstFive products)) session in
        reply session (saveSession phoneNumber session w)
          (NProductMatches (param parameters "product") (firstFive products)) isLoggedIn []
    | None => failed
    end.

(** [handleAddToCart] (lines 1840-1884). *)
Definition handleAddToCart (svc : Services) (phoneNumber : string) (session : Session)
  (parameters : gmap string string) (w : World) : Outcome :=
  let isLoggedIn := isAuthenticatedSession (argOf session) in
  if negb isLoggedIn then authRequired session w
  else
    let session := reload phoneNumber session w in
    if negb (truthy (field (data session) "userId")) then authRequired session w
    else if negb (given parameters "productIndex") || negb (given parameters "quantity")
    then reply session w NAddUsage isLoggedIn []
    else
      let productIndex := (fun n => n - 1) <$> parseInt (param parameters "productIndex") in
      let quantity := parseInt (param parameters "quantity") in
      match itemAt (field (data session) "searchResults") productIndex with
      | None => reply session w NSearchProductsFirst isLoggedIn []
      | Some product =>
          let made := [CAddToCart (field (data session) "userId") product quantity] in
          if addToCart svc (field (data session) "userId") product quantity
          then reply session w (NAdded quantity product) isLoggedIn made
          else reply session w NAddError (isAuthenticatedSession (argOf session)) made
      end.

(** [handleDoctorSearch] (lines 2077-2119). *)
Definition handleDoctorSearch (env : Env) (phoneNumber : string) (session : Session)
  (parameters : gmap string string) (w : World) : Outcome :=
  let isLoggedIn := isAuthenticatedSession (argOf session) in
  if negb (given parameters "specialty") then reply session w NAskSpecialty isLoggedIn []
  else
    let specialty := param parameters "specialty" in
    let location := if given parameters "location" then param parameters "location"
                    else "Lagos" in
    match searchDoctorsPaginated env specialty location 1 5 with
    | Some pageData =>
        match pd_items pageData with
        | [] => reply session w (NNoDoctors specialty location) isLoggedIn []
        | _ =>
            let session :=
              setField "lastDoctorSearch" (VSearch specialty location)
                (setField "doctorPageItems" (VItems (pd_items pageData))
                   (setField "doctorPagination" (VCursor (cursorOf pageData)) session)) in
            reply session (saveSession phoneNumber session w)
              (NDoctorList specialty location (pd_items pageData) (pd_page pageData)
                 (pd_totalPages pageData))
              isLoggedIn []
        end
    | None => reply session w NDoctorSearchError (isAuthenticatedSession (argOf session)) []
    end.

(** [handleBookAppointment] (lines 2122-2171). The notification needs
    [dateTime.toISOString()], which raises on a date that is not valid, and
    the last message needs [result.appointmentId]. *)
Definition handleBookAppointment (svc : Services) (phoneNumber : string) (session : Session)
  (parameters : gmap string string) (w : World) : Outcome :=
  let isLoggedIn := isAuthenticatedSession (argOf session) in
  if negb isLoggedIn then authRequired session w
  else
    let session := reload phoneNumber session w in
    if negb (truthy (field (data session) "userId")) then authRequired session w
    else if negb (given parameters "doctorIndex") || negb (given parameters "date")
            || negb (given parameters "time")
    then reply session w NBookingUsage isLoggedIn []
    else
      let doctorIndex := (fun n => n - 1) <$> parseInt (param parameters "doctorIndex") in
      let date := param parameters "date" in
      let time := param parameters "time" in
      match itemAt (field (data session) "doctorSearchResults") doctorIndex with
      | None => reply session w NSearchDoctorsFirst isLoggedIn []
      | Some doctor =>
          let userId := field (data session) "userId" in
          let failed := reply session w NBookingError (isAuthenticatedSession (argOf session)) in
          let booked := CBookAppointment userId doctor date time in
          match bookAppointment svc userId doctor date time with
          | Some result =>
              if validDateTime svc date time then
                let w := notifySupportTeam phoneNumber "medical" w in
                let made := [booked; CNotifySupportTeam "medical" doctor date time] in
                match result with
                | Some appointmentId =>
                    reply session w (NBooked doctor date time appointmentId) isLoggedIn made
                | None => failed made
                end
              else failed [booked]
          | None => failed [booked]
          end
      end.

End Catalog.

(** ** What is said of the catalogue handlers, and a catalogue to run them *)

Module CatalogSpec.
Import Text Model Handlers Dispatcher Catalog.

(** Nothing is kept under the key [k] of the session. *)
Definition holdsNo (k : string) (s : Session) : Prop :=
  truthy (field (data s) k) = false.

(** The session object and its row, if it has one, keep nothing under [k]. *)
Definition nowhere (k phoneNumber : string) (session : Session) (w : World) : Prop :=
  holdsNo k session /\ forall s, sessions w !! phoneNumber = Some s -> holdsNo k s.

(** The answers of [handleBookAppointment] that come before any call. *)
Definition bookingRefused (o : Outcome) : Prop :=
  calls o = []
  /\ (sent o = NAuthRequired \/ sent o = NBookingUsage \/ sent o = NSearchDoctorsFirst).

(** The answers of [handleAddToCart] that come before any call. *)
Definition addRefused (o : Outcome) : Prop :=
  calls o = []
  /\ (sent o = NAuthRequired \/ sent o = NAddUsage \/ sent o = NSearchProductsFirst).

End CatalogSpec.

Module CatalogSample.
Import Text Model Handlers Dispatcher Catalog.

Definition shelf : list string :=
  ["Paracetamol"; "Ibuprofen"; "Amoxicillin"; "Vitamin C"; "Zinc"; "Cough syrup"].

Definition doctors : list string := ["Dr. Obi"; "Dr. Musa"].

(** The collaborators of [Sample.env], with two pages of medicines and one
    page of doctors. *)
Definition env : Env :=
  let e := Sample.env 1000 true true "4821" in
  {| now := now e;
     sessionIdleTimeoutMinutes := sessionIdleTimeoutMinutes e;
     rateLimitAllowed := rateLimitAllowed e;
     generateToken := generateToken e;
     classify := classify e;
     sanitizeInput := sanitizeInput e;
     normalizePhoneNumber := normalizePhoneNumber e;
     isValidRegistrationData := isValidRegistrationData e;
     isValidLoginData := isValidLoginData e;
     findUserByEmail := findUserByEmail e;
     generateOTP := generateOTP e;
     getOTPExpiry := getOTPExpiry e;
     encryptData := encryptData e;
     decryptData := decryptData e;
     sendOTPEmail := sendOTPEmail e;
     registerUser := registerUser e;
     loginUser := loginUser e;
     startSupportChat := startSupportChat e;
     endSupportChat := endSupportChat e;
     sendSupportMessage := sendSupportMessage e;
     savePrescription := savePrescription e;
     listAllProductsPaginated := fun p n => Some (mkPage (take 5 shelf) p 2 n);
     searchDoctorsPaginated := fun _ _ p n => Some (mkPage doctors p 1 n);
     domainHandler := domainHandler e |}.

Definition services : Services :=
  {| searchProducts := fun _ => Some shelf;
     addToCart := fun _ _ _ => true;
     bookAppointment := fun _ _ _ _ => Some (Some "APT-1");
     validDateTime := fun _ _ => true |}.

(** Ada, logged in, with her row in the store. *)
Definition ada : Session := Sample.loggedInSince 1000.
Definition store : World := Sample.worldOf ada [].

Definition cardiologist : gmap string string := list_to_map [("specialty", "Cardiologist")].
Definition firstDoctor : gmap string string :=
  list_to_map [("doctorIndex", "1"); ("date", "2026-06-15"); ("time", "14:00")].
Definition painkiller : gmap string string := list_to_map [("product", "pain")].
Definition twoOfTheSecond : gmap string string :=
  list_to_map [("productIndex", "2"); ("quantity", "2")].

End CatalogSample.

(** ** The administration endpoints of [src/index.js]: the gate and the
    backup codes *)

Module Admin.
Import Text Model Otp OrderParser.

(** [auth.replace(/^Bearer\s+/i, '')] *)
Definition bearerToken (auth : string) : string :=
  match stripPrefixCI "bearer" auth with
  | Some (String c r) => if isSpace c then trimStart r else auth
  | _ => auth
  end.

(** How [adminAuthMiddleware] ends: one of its three refusals (401
    [Unauthorized], 401 [Invalid or expired token], 500 [Auth failed]), or
    [next()] with [req.admin] set. *)
Inductive AdminGate (A : Type) :=
  | GateUnauthorized
  | GateInvalidToken
  | GateFailed
  | GateNext (admin : A).
Arguments GateUnauthorized {A}.
Arguments GateInvalidToken {A}.
Arguments GateFailed {A}.
Arguments GateNext {A} admin.

(** [adminAuthMiddleware] (lines 194-207); [authorization] is the header,
    the empty string when there is none. [verifyAdminToken], of
    [adminService], is not under [src/]: [None] when it raises, [Some None]
    when it answers no administrator. *)
Definition adminAuthMiddleware {A : Type} (verifyAdminToken : string -> option (option A))
  (authorization : string) : AdminGate A :=
  let token := bearerToken authorization in
  if eqs token "" then GateUnauthorized
  else
    match verifyAdminToken token with
    | Some (Some admin) => GateNext admin
    | Some None => GateInvalidToken
    | None => GateFailed
    end.

(** Insertion before the rows that are older, after the rows created at the
    same time. *)
Fixpoint insertNewest (x : OTPRecord) (l : list OTPRecord) : list OTPRecord :=
  match l with
  | [] => [x]
  | y :: l' =>
      if otp_createdAt y <? otp_createdAt x then x :: l else y :: insertNewest x l'
  end.

(** [order: [['createdAt', 'DESC']]], rows created at the same time being
    left in the order of the table. *)
Definition newestFirst (l : list OTPRecord) : list OTPRecord :=
  fold_left (fun acc x => insertNewest x acc) l [].

Definition pendingFor (email : string) (r : OTPRecord) : bool :=
  eqs (otp_email r) email && eqs (otp_purpose r) "registration" && negb (otp_isUsed r).

(** The answers of [/api/admin/backup-otp]. Of the attributes of a listed
    row the code and the two times are kept; the columns [isBackupOTP] and
    [createdByAdmin], which only this listing reads back, are not in the
    table of the model. *)
Inductive BackupResponse :=
  | BackupEmailRequired
  | BackupCreated (otp : string) (expiresAt : Z)
  | BackupPending (pendingOTPs : list (string * Z * Z)) (total : nat)
  | BackupInvalidAction
  | BackupFailed.

Definition listed (r : OTPRecord) : string * Z * Z :=
  (otp_code r, otp_createdAt r, otp_expiresAt r).

(** The handler of [POST /api/admin/backup-otp] (lines 255-315), behind the
    gate; [email] and [action] are the fields of the body, the empty string
    when absent. *)
Definition backupOtp (env : Env) (email action : string) (w : World)
  : BackupResponse * World :=
  if eqs email "" then (BackupEmailRequired, w)
  else if eqs action "create" then
    match generateOTP env with
    | Some backupOtp =>
        (BackupCreated backupOtp (getOTPExpiry env),
         createOtp env (toLowerCase email) backupOtp None w)
    | None => (BackupFailed, w)
    end
  else if eqs action "list" then
    let otps := take 5 (newestFirst (List.filter (pendingFor (toLowerCase email)) (otps w))) in
    (BackupPending (listed <$> otps) (length otps), w)
  else (BackupInvalidAction, w).

End Admin.

(** ** The text of a page of a list: [buildPaginatedListMessage]
    ([src/utils/pagination.js]) *)

Module PaginationMessage.
Import Text Pagination.

Definition quote : string := String (ascii_of_nat 34) EmptyString.
Definition newline : string := String (ascii_of_nat 10) EmptyString.

(** The two symbols of the navigation lines. *)
Definition pin : string := "📍".
Definition bullet : string := "•".

(** [`${n}`] for an integer. *)
Definition showZ (n : Z) : string := pretty n.

(** [`• Type "${command}" to go to page ${target}\n`] *)
Definition hintLine (command : string) (target : Z) : string :=
  bullet ++ " Type " ++ quote ++ command ++ quote ++ " to go to page " ++ showZ target
  ++ newline.

(** [`${title} (Page ${page}/${totalPages})\n\n`] *)
Definition heading (title : string) (page totalPages : Z) : string :=
  title ++ " (Page " ++ showZ page ++ "/" ++ showZ totalPages ++ ")" ++ newline ++ newline.

(** The lines of [items.forEach], [index] being the index of the first
    item; [itemFormatter(item, index) || ''] is the text the formatter
    gives. *)
Fixpoint itemLines {A : Type} (itemFormatter : A -> nat -> string) (index : nat)
  (items : list A) : string :=
  match items with
  | [] => ""
  | item :: rest =>
      showZ (Z.of_nat index + 1) ++ ". " ++ itemFormatter item index ++ newline ++ newline
      ++ itemLines itemFormatter (S index) rest
  end.

Definition navigationTitle : string := pin ++ " *Navigation:*" ++ newline.

(** [`• Type a number (1-${items.length}) to select an item\n`] *)
Definition selectLine (count : nat) : string :=
  bullet ++ " Type a number (1-" ++ showZ (Z.of_nat count) ++ ") to select an item" ++ newline.

(** [buildPaginatedListMessage(items, page, totalPages, title,
    itemFormatter)] *)
Definition buildPaginatedListMessage {A : Type} (items : list A) (page totalPages : Z)
  (title : string) (itemFormatter : A -> nat -> string) : string :=
  heading title page totalPages
  ++ itemLines itemFormatter 0 items
  ++ navigationTitle
  ++ (if 1 <? page then hintLine "Previous" (page - 1) else "")
  ++ (if page <? totalPages then hintLine "Next" (page + 1) else "")
  ++ selectLine (length items).

(** The hint for a command, when [parseNavigationCommand] takes the
    command on this page. *)
Definition hintIfAccepted (command : string) (page totalPages : Z) : string :=
  match parseNavigationCommand command page totalPages with
  | Some target => hintLine command target
  | None => ""
  end.

End PaginationMessage.

(** ** Order tracking: [handleTrackOrder] ([src/index.js]) *)

Module Tracking.
Import Text Model Handlers OrderParser.

(** The messages of [handleTrackOrder], by the place that sends them. *)
Inductive TrackNotice :=
  | TrackUsage
  | TrackInvalid
  | TrackNotFound (orderId : string)
  | TrackStatus (orderDetails : string)
  | TrackError.

(** [parseOrderIdFromText(rawInput) || rawInput], then [sanitizeInput]
    (lines 2023-2025). *)
Definition orderIdOf (env : Env) (rawInput : string) : string :=
  sanitizeInput env (default rawInput (parseOrderIdFromText rawInput)).

(** [handleTrackOrder] (lines 2012-2074): the message sent and the flag
    given to [formatResponseWithOptions]; the session and the store are
    left as they are. [trackOrder], of the domain API, is not under
    [src/]: [None] when it raises, [Some None] when it finds no order,
    else the order, whose fields the last message prints. *)
Definition handleTrackOrder (env : Env) (trackOrder : string -> option (option string))
  (session : Session) (parameters : gmap string string) : TrackNotice * bool :=
  let isLoggedIn := isAuthenticatedSession (argOf session) in
  if negb (given parameters "orderId") then (TrackUsage, isLoggedIn)
  else
    let orderId := orderIdOf env (param parameters "orderId") in
    if negb (isValidOrderId (sanitizeInput env) orderId) then (TrackInvalid, isLoggedIn)
    else
      match trackOrder orderId with
      | Some (Some orderDetails) => (TrackStatus orderDetails, isLoggedIn)
      | Some None => (TrackNotFound orderId, isLoggedIn)
      | None => (TrackError, isAuthenticatedSession (argOf session))
      end.

End Tracking.

(** ** The pagination resolver in the words of the specification *)

Module PaginationSpec.
Import Text Pagination.

(** The capital of a small letter. *)
Definition capital (c : ascii) : ascii := ascii_of_nat (nat_of_ascii c - 32).

(** [m] is the word [w], which is written in small letters, in any case:
    letter by letter, the small letter or its capital. *)
Fixpoint inAnyCase (w m : string) : bool :=
  match w, m with
  | EmptyString, EmptyString => true
  | String l w', String c m' =>
      (Ascii.eqb c l || Ascii.eqb c (capital l)) && inAnyCase w' m'
  | _, _ => false
  end.

(** [resolveTarget(command, currentPage, totalPages)] as the specification
    words it, on the command as it is given: "next" in any case, "previous"
    in any case, a string of digits that names a page of [1, totalPages];
    [null] for every other input. *)
Definition resolveTarget (command : string) (currentPage totalPages : Z) : option Z :=
  if inAnyCase "next" command then
    if currentPage <? totalPages then Some (currentPage + 1) else None
  else if inAnyCase "previous" command then
    if 1 <? currentPage then Some (currentPage - 1) else None
  else if isDigitString command then
    let n := parseInt10 command in
    if (1 <=? n) && (n <=? totalPages) then Some n else None
  else None.

End PaginationSpec.

(** ** Collaborators set otherwise *)

Module Configured.
Import Model.

(** [e] with [SESSION_IDLE_TIMEOUT_MINUTES] set to [minutes] ([None]: not
    set). *)
Definition withIdleTimeout (minutes : option Z) (e : Env) : Env :=
  {| now := now e;
     sessionIdleTimeoutMinutes := minutes;
     rateLimitAllowed := rateLimitAllowed e;
     generateToken := generateToken e;
     classify := classify e;
     sanitizeInput := sanitizeInput e;
     normalizePhoneNumber := normalizePhoneNumber e;
     isValidRegistrationData := isValidRegistrationData e;
     isValidLoginData := isValidLoginData e;
     findUserByEmail := findUserByEmail e;
     generateOTP := generateOTP e;
     getOTPExpiry := getOTPExpiry e;
     encryptData := encryptData e;
     decryptData := decryptData e;
     sendOTPEmail := sendOTPEmail e;
     registerUser := registerUser e;
     loginUser := loginUser e;
     startSupportChat := startSupportChat e;
     endSupportChat := endSupportChat e;
     sendSupportMessage := sendSupportMessage e;
     savePrescription := savePrescription e;
     listAllProductsPaginated := listAllProductsPaginated e;
     searchDoctorsPaginated := searchDoctorsPaginated e;
     domainHandler := domainHandler e |}.

(** [e] with the rate limiter refusing the event. *)
Definition rateLimited (e : Env) : Env :=
  {| now := now e;
     sessionIdleTimeoutMinutes := sessionIdleTimeoutMinutes e;
     rateLimitAllowed := false;
     generateToken := generateToken e;
     classify := classify e;
     sanitizeInput := sanitizeInput e;
     normalizePhoneNumber := normalizePhoneNumber e;
     isValidRegistrationData := isValidRegistrationData e;
     isValidLoginData := isValidLoginData e;
     findUserByEmail := findUserByEmail e;
     generateOTP := generateOTP e;
     getOTPExpiry := getOTPExpiry e;
     encryptData := encryptData e;
     decryptData := decryptData e;
     sendOTPEmail := sendOTPEmail e;
     registerUser := registerUser e;
     loginUser := loginUser e;
     startSupportChat := startSupportChat e;
     endSupportChat := endSupportChat e;
     sendSupportMessage := sendSupportMessage e;
     savePrescription := savePrescription e;
     listAllProductsPaginated := listAllProductsPaginated e;
     searchDoctorsPaginated := searchDoctorsPaginated e;
     domainHandler := domainHandler e |}.

(** [e] with a code generator that raises. *)
Definition withoutCodes (e : Env) : Env :=
  {| now := now e;
     sessionIdleTimeoutMinutes := sessionIdleTimeoutMinutes e;
     rateLimitAllowed := rateLimitAllowed e;
     generateToken := generateToken e;
     classify := classify e;
     sanitizeInput := sanitizeInput e;
     normalizePhoneNumber := normalizePhoneNumber e;
     isValidRegistrationData := isValidRegistrationData e;
     isValidLoginData := isValidLoginData e;
     findUserByEmail := findUserByEmail e;
     generateOTP := None;
     getOTPExpiry := getOTPExpiry e;
     encryptData := encryptData e;
     decryptData := decryptData e;
     sendOTPEmail := sendOTPEmail e;
     registerUser := registerUser e;
     loginUser := loginUser e;
     startSupportChat := startSupportChat e;
     endSupportChat := endSupportChat e;
     sendSupportMessage := sendSupportMessage e;
     savePrescription := savePrescription e;
     listAllProductsPaginated := listAllProductsPaginated e;
     searchDoctorsPaginated := searchDoctorsPaginated e;
     domainHandler := domainHandler e |}.

(** Ada registers at time 1000 while the code generator raises; the
    administrator creates the backup code [7777] for her address at time
    2000. *)
Definition setupFailedThenBackup : World :=
  snd (Admin.backupOtp (Sample.env 2000 true true "7777") "ada@example.com" "create"
         (Dispatcher.handleCustomerMessage (withoutCodes (Sample.env 1000 true true "0000"))
            Sample.phone "register Ada ada@example.com secret1" Sample.emptyWorld)).

End Configured.

(** ** The configured idle timeout *)

Module IdleSpec.
Import Model.

(** [minutes] is the idle timeout that is configured: the number that
    [SESSION_IDLE_TIMEOUT_MINUTES] holds, ten when the variable is not
    set. *)
Definition configuredIdleMinutes (env : Env) (minutes : Z) : Prop :=
  sessionIdleTimeoutMinutes env = Some minutes
  \/ (sessionIdleTimeoutMinutes env = None /\ minutes = 10).

End IdleSpec.

(** ** The session invariant at the commits *)

Module CommitSpec.
Import Text Model Handlers Dispatcher Spec.







End CommitSpec.

(** Closes a goal on concrete data by evaluation. *)
Ltac concrete :=
  first [ reflexivity | vm_compute; reflexivity | cbn; lia | discriminate
        | vm_compute; discriminate ].

(** ** Facts on the text utilities *)

Module TextFacts.
Import Text.

Lemma eqs_true (a b : string) : eqs a b = true <-> a = b.
Proof. unfold eqs. apply String.eqb_eq. Qed.

Lemma eqs_false (a b : string) : eqs a b = false <-> a <> b.
Proof. unfold eqs. apply String.eqb_neq. Qed.

Lemma eqs_refl (a : string) : eqs a a = true.
Proof. by apply eqs_true. Qed.

(** A digit is not a letter: lowering leaves it alone. *)
Lemma lowerChar_digit (c : ascii) : isDigit c = true -> lowerChar c = c.
Proof.
  unfold isDigit, lowerChar. intros H.
  apply andb_true_iff in H as [H1 H2].
  apply Nat.leb_le in H2.
  destruct (Nat.leb_spec 65 (code c)); [lia | reflexivity].
Qed.

(** A string of digits is neither "next" nor "previous", in any case. *)
Lemma digit_string_not_word (s : string) :
  isDigitString s = true ->
  toLowerCase s <> "next" /\ toLowerCase s <> "previous".
Proof.
  destruct s as [|c r]; [discriminate |]. cbn [isDigitString allDigits toLowerCase].
  intros H. apply andb_true_iff in H as [Hc _].
  rewrite (lowerChar_digit c Hc).
  split; intros E; injection E as -> _; discriminate Hc.
Qed.

End TextFacts.

(** ** Pagination *)

Module PaginationFacts.
Import Text Pagination TextFacts.

Lemma no_shape_on_empty (cur tot p : Z) : ~ NavShape cur tot "" p.
Proof. inversion 1; discriminate. Qed.

Lemma trim_empty_message (m : string) : eqs m "" = true -> trim m = "".
Proof. intros H. apply eqs_true in H. by subst. Qed.

(** What the resolver answers is one of the three shapes. *)
Lemma parse_sound (m : string) (cur tot p : Z) :
  parseNavigationCommand m cur tot = Some p -> NavShape cur tot (trim m) p.
Proof.
  unfold parseNavigationCommand.
  destruct (eqs m "") eqn:Em; [discriminate |].
  destruct (eqs (toLowerCase (trim m)) "next" && (cur <? tot)) eqn:En.
  { apply andb_true_iff in En as [En Hlt]. apply eqs_true in En.
    apply Z.ltb_lt in Hlt. intros [= <-]. by apply ShapeNext. }
  destruct (eqs (toLowerCase (trim m)) "previous" && (1 <? cur)) eqn:Ep.
  { apply andb_true_iff in Ep as [Ep Hlt]. apply eqs_true in Ep.
    apply Z.ltb_lt in Hlt. intros [= <-]. apply ShapePrevious; [done | lia]. }
  destruct (isDigitString (trim m)) eqn:Ed; [| discriminate].
  destruct ((1 <=? parseInt10 (trim m)) && (parseInt10 (trim m) <=? tot)) eqn:Er;
    [| discriminate].
  apply andb_true_iff in Er as [H1 H2].
  apply Z.leb_le in H1. apply Z.leb_le in H2.
  intros [= <-]. apply ShapeNumber; [done | done | lia].
Qed.

(** Each of the three shapes is answered with its page. *)
Lemma parse_complete (m : string) (cur tot p : Z) :
  NavShape cur tot (trim m) p -> parseNavigationCommand m cur tot = Some p.
Proof.
  intros H. unfold parseNavigationCommand.
  destruct (eqs m "") eqn:Em.
  { rewrite (trim_empty_message m Em) in H. by apply no_shape_on_empty in H. }
  inversion H as [m' Hw Hlt | m' Hw Hgt | m' n Hd Hn Hr]; subst.
  - rewrite Hw. cbn [eqs String.eqb Ascii.eqb Bool.eqb andb].
    apply Z.ltb_lt in Hlt. by rewrite Hlt.
  - rewrite Hw. cbn [eqs String.eqb Ascii.eqb Bool.eqb andb].
    assert ((1 <? cur) = true) as E by (apply Z.ltb_lt; lia). by rewrite E.
  - destruct (digit_string_not_word _ Hd) as [Hn Hp].
    apply eqs_false in Hn as ->. apply eqs_false in Hp as ->.
    cbn [andb]. rewrite Hd.
    assert ((1 <=? parseInt10 (trim m)) = true) as E1 by (apply Z.leb_le; lia).
    assert ((parseInt10 (trim m) <=? tot) = true) as E2 by (apply Z.leb_le; lia).
    by rewrite E1, E2.
Qed.

(** The letters of the two words. *)
Lemma any_case_letter (l c : ascii) :
  In l (list_ascii_of_string "nextprvious") ->
  (Ascii.eqb c l || Ascii.eqb c (PaginationSpec.capital l))%bool = Ascii.eqb (lowerChar c) l.
Proof.
  intros H.
  repeat (destruct H as [<- | H]; [destruct c as [[] [] [] [] [] [] [] []]; reflexivity |]).
  destruct H.
Qed.

Lemma inAnyCase_lower (w m : string) :
  (forall l, In l (list_ascii_of_string w) -> In l (list_ascii_of_string "nextprvious")) ->
  PaginationSpec.inAnyCase w m = eqs (toLowerCase m) w.
Proof.
  revert m. induction w as [| l w IH]; intros m Hw.
  - destruct m; reflexivity.
  - destruct m as [| c m]; [reflexivity |].
    cbn [PaginationSpec.inAnyCase toLowerCase]. unfold eqs. cbn [String.eqb].
    rewrite (any_case_letter l c) by (apply Hw; left; reflexivity).
    rewrite IH by (intros l' Hl'; apply Hw; right; exact Hl'). reflexivity.
Qed.

Lemma inAnyCase_next (m : string) :
  PaginationSpec.inAnyCase "next" m = eqs (toLowerCase m) "next".
Proof.
  apply inAnyCase_lower. intros l H. cbn in H. cbn. tauto.
Qed.

Lemma inAnyCase_previous (m : string) :
  PaginationSpec.inAnyCase "previous" m = eqs (toLowerCase m) "previous".
Proof.
  apply inAnyCase_lower. intros l H. cbn in H. cbn. tauto.
Qed.

(** The source answers as the specification words it, once the white space
    around the message is taken away. *)
Lemma parse_is_resolveTarget_of_trim (m : string) (cur tot : Z) :
  parseNavigationCommand m cur tot = PaginationSpec.resolveTarget (trim m) cur tot.
Proof.
  unfold parseNavigationCommand, PaginationSpec.resolveTarget.
  rewrite inAnyCase_next, inAnyCase_previous.
  destruct (eqs m "") eqn:Em.
  { rewrite (trim_empty_message m Em). reflexivity. }
  destruct (eqs (toLowerCase (trim m)) "next") eqn:En.
  - apply eqs_true in En. cbn [andb]. destruct (cur <? tot); [reflexivity |].
    rewrite En. change (eqs "next" "previous") with false. cbn [andb].
    destruct (isDigitString (trim m)) eqn:Ed; [| reflexivity].
    destruct (digit_string_not_word _ Ed) as [Hn _]. contradiction.
  - cbn [andb]. destruct (eqs (toLowerCase (trim m)) "previous") eqn:Ep; [| reflexivity].
    apply eqs_true in Ep. cbn [andb]. destruct (1 <? cur); [reflexivity |].
    destruct (isDigitString (trim m)) eqn:Ed; [| reflexivity].
    destruct (digit_string_not_word _ Ed) as [_ Hp]. contradiction.
Qed.

(** C8, as the specification states it: a command with white space around
    it is none of the three shapes, which the specification answers with
    [null], and the source answers it with a page. *)
Lemma surrounding_white_space_is_read :
  PaginationSpec.resolveTarget " next " 2 5 = None
  /\ parseNavigationCommand " next " 2 5 = Some 3
  /\ PaginationSpec.resolveTarget " 3 " 1 5 = None
  /\ parseNavigationCommand " 3 " 1 5 = Some 3.
Proof. repeat split; reflexivity. Qed.

(** C8, as the source has it: the pagination resolver takes the white
    space around the message away and then answers a page exactly for the
    three command shapes: "next" in any case when
    [currentPage < totalPages], "previous" in any case when
    [currentPage > 1], and a string of digits whose value lies in
    [1, totalPages]; every other input yields [null]. The six values of the
    specification hold, capitals are read as small letters, and so are
    commands with white space around them. *)
Theorem parseNavigationCommand_three_shapes :
  (forall m cur tot,
      parseNavigationCommand m cur tot = PaginationSpec.resolveTarget (trim m) cur tot)
  /\ (forall m cur tot p,
      parseNavigationCommand m cur tot = Some p <-> NavShape cur tot (trim m) p)
  /\ (forall m cur tot,
      parseNavigationCommand m cur tot = None <-> forall p, ~ NavShape cur tot (trim m) p)
  /\ parseNavigationCommand "next" 2 5 = Some 3
  /\ parseNavigationCommand "next" 5 5 = None
  /\ parseNavigationCommand "previous" 1 5 = None
  /\ parseNavigationCommand "3" 1 5 = Some 3
  /\ parseNavigationCommand "9" 1 5 = None
  /\ parseNavigationCommand "hello" 1 5 = None
  /\ parseNavigationCommand "NEXT" 2 5 = Some 3
  /\ parseNavigationCommand "nExT" 2 5 = Some 3
  /\ parseNavigationCommand "Previous" 2 5 = Some 1
  /\ parseNavigationCommand "PREVIOUS" 1 5 = None
  /\ parseNavigationCommand "12" 1 20 = Some 12
  /\ parseNavigationCommand "0" 1 5 = None
  /\ parseNavigationCommand "next page" 2 5 = None
  /\ parseNavigationCommand "-1" 2 5 = None.
Proof.
  split; [exact parse_is_resolveTarget_of_trim |].
  split; [| split].
  - intros m cur tot p. split; [apply parse_sound | apply parse_complete].
  - intros m cur tot. split.
    + intros Hnone p Hs. apply parse_complete in Hs. congruence.
    + intros Hno. destruct (parseNavigationCommand m cur tot) as [p |] eqn:E; [| done].
      apply parse_sound in E. by apply Hno in E.
  - repeat split; reflexivity.
Qed.

End PaginationFacts.

(** ** The authentication gate and the order of the dispatcher *)

Module DispatcherFacts.
Import Text Model Otp Handlers Pagination Dispatcher Spec.

Lemma isAuthenticatedSession_object (st : option SessionState)
  (d : option (gmap string value)) :
  isAuthenticatedSession (ArgObject st d) = true <->
  st = Some LOGGED_IN \/ exists m, d = Some m /\ truthy (field m "userId") = true.
Proof.
  unfold isAuthenticatedSession, isAuthenticatedSession_try.
  destruct (decide (st = Some LOGGED_IN)) as [-> | Hst]; cbn.
  - split; [by left | done].
  - destruct d as [m |]; cbn.
    + destruct (truthy (field m "userId")) eqn:E; cbn.
      * split; [| done]. intros _. right. by exists m.
      * split; [done |]. intros [? | (m' & [= <-] & Hm)]; congruence.
    + split; [done |]. intros [? | (m' & ? & _)]; congruence.
Qed.

(** C10: the authentication gate takes a session as authenticated exactly
    when its state is [LOGGED_IN] or its data holds a truthy [userId]; so an
    authenticated-only intent is served to a session that is not
    [LOGGED_IN] when its data carries a [userId]; and the gate answers
    [false], without an exception, on a [null] session, on one whose
    properties cannot be read, and on one without state and data. *)
Theorem isAuthenticatedSession_gate :
  (forall s : Session,
      isAuthenticatedSession (argOf s) = true <->
      state s = LOGGED_IN \/ truthy (field (data s) "userId") = true)
  /\ (forall env phoneNumber (s : Session) messageText,
      authenticatedOnly (intent (classify env messageText phoneNumber s)) = true ->
      state s <> LOGGED_IN ->
      truthy (field (data s) "userId") = true ->
      routeIntent env phoneNumber s messageText
      = RHandler (classify env messageText phoneNumber s) true)
  /\ (forall env phoneNumber (s : Session) messageText,
      authenticatedOnly (intent (classify env messageText phoneNumber s)) = true ->
      state s <> LOGGED_IN ->
      truthy (field (data s) "userId") = false ->
      routeIntent env phoneNumber s messageText
      = RAuthRequired (intent (classify env messageText phoneNumber s)))
  /\ isAuthenticatedSession ArgNull = false
  /\ isAuthenticatedSession ArgThrowing = false
  /\ isAuthenticatedSession (ArgObject None None) = false.
Proof.
  assert (Hrow : forall s : Session,
             isAuthenticatedSession (argOf s) = true <->
             state s = LOGGED_IN \/ truthy (field (data s) "userId") = true).
  { intros s. unfold argOf. rewrite isAuthenticatedSession_object. split.
    - intros [[= ->] | (m & [= <-] & Hm)]; [by left | by right].
    - intros [-> | Hm]; [by left |]. right. by exists (data s). }
  split; [exact Hrow |]. split; [| split].
  - intros env ph s m Hi _ Hu. unfold routeIntent.
    assert (isAuthenticatedSession (argOf s) = true) as -> by (apply Hrow; by right).
    by rewrite Hi.
  - intros env ph s m Hi Hs Hu. unfold routeIntent.
    destruct (isAuthenticatedSession (argOf s)) eqn:E.
    + apply Hrow in E as [? | ?]; congruence.
    + by rewrite Hi.
  - repeat split; reflexivity.
Qed.

Lemma find_claims_support (s : Session) (m : string) (rest : list Gate) :
  state s = SUPPORT_CHAT -> List.find (claims s m) (GSupport :: rest) = Some GSupport.
Proof. intros H. cbn. by rewrite bool_decide_eq_true_2. Qed.

(** C5, as the source has it: a message is served by the first gate that
    claims it in the order support chat, quick attach, pagination cursor,
    one-time code, and by the classifier when none does; the one-time-code
    check comes after the quick-attach and pagination checks. *)
Theorem route_follows_source_order (env : Env) (phoneNumber : string) (s : Session)
  (messageText : string) :
  gateOf (route env phoneNumber s messageText) = firstGate sourceOrder s messageText.
Proof.
  unfold firstGate, sourceOrder, route.
  destruct (decide (state s = SUPPORT_CHAT)) as [Hs | Hs].
  { rewrite find_claims_support by done. by destruct (closeMatch messageText). }
  cbn [List.find claims]. rewrite (bool_decide_eq_false_2 _ Hs).
  destruct (attachMatch messageText) as [orderId |] eqn:Ea.
  { rewrite bool_decide_eq_true_2 by eauto.
    by destruct (truthy (field (data s) "pendingPrescriptionUrl")). }
  rewrite (bool_decide_eq_false_2 (is_Some None)) by (by intros [? ?]).
  destruct (navigationTarget s "productPagination" messageText) as [[t c] |] eqn:Ep.
  { by rewrite bool_decide_eq_true_2 by eauto. }
  rewrite (bool_decide_eq_false_2 (is_Some None)) by (by intros [? ?]).
  destruct (navigationTarget s "doctorPagination" messageText) as [[t c] |] eqn:Ed.
  { by rewrite bool_decide_eq_true_2 by eauto. }
  rewrite (bool_decide_eq_false_2 (is_Some None)) by (by intros [? ?]).
  cbn [orb].
  destruct (bool_decide (state s = REGISTERING) || waitingForOTP s) eqn:Eg; cbn [andb];
    [| by unfold routeIntent; destruct (_ && _)].
  destruct (otpMatch messageText); [done |].
  destruct (resendMatch messageText); [done |].
  cbn [orb].
  destruct (bool_decide (state s = REGISTERING) && waitingForOTP s); [done |].
  unfold routeIntent. by destruct (_ && _).
Qed.

Import Sample.

Lemma isAuthenticatedSession_gate_witness :
  routeIntent (env 2000 true true "1111") phone anonymousWithUserId "cart"
  = RHandler (classify (env 2000 true true "1111") "cart" phone anonymousWithUserId) true.
Proof.
  apply (proj1 (proj2 isAuthenticatedSession_gate)); [reflexivity | discriminate | reflexivity].
Defined.

(** C5, as the specification orders the gates: a session that waits for
    its code and sends a quick-attach command, or a navigation command for
    an open list, is served by the attach gate, or by the pagination gate,
    where the specified order gives it to the one-time-code gate. *)
Lemma otp_check_after_attach_and_pagination :
  gateOf (route (env 2000 true true "1111") phone registeringWithUpload "rx 12345") = GAttach
  /\ firstGate specifiedOrder registeringWithUpload "rx 12345" = GOtp
  /\ gateOf (route (env 2000 true true "1111") phone registeringWithCursor "next") = GPagination
  /\ firstGate specifiedOrder registeringWithCursor "next" = GOtp
  /\ lastSent (handleCustomerMessage (env 2000 true true "1111") phone "rx 12345"
                 (worldOf registeringWithUpload [adaCode]))
     = Some (TAttachOk "12345")
  /\ lastSent (handleCustomerMessage (env 2000 true true "1111") phone "next"
                 (worldOf registeringWithCursor [adaCode]))
     = Some (TProductPage 2 5).
Proof. repeat split; vm_compute; reflexivity. Qed.

End DispatcherFacts.

(** ** The one-time-code gate *)

Module OtpFacts.
Import Text Model Otp Handlers Spec TextFacts.

(** The lookup answers a row of the table that matches. *)
Lemma findLatest_Some (p : OTPRecord -> bool) (l : list OTPRecord) (i : nat) (r : OTPRecord) :
  findLatest p l = Some (i, r) -> l !! i = Some r /\ p r = true.
Proof.
  revert i r. induction l as [| r0 l IH]; intros i r; cbn [findLatest]; [discriminate |].
  destruct (findLatest p l) as [[j x] |] eqn:E; cbn.
  - destruct (IH j x eq_refl) as [Hj Hp].
    destruct (p r0) eqn:E0.
    + destruct (otp_createdAt r0 <? otp_createdAt x); intros [= <- <-]; auto.
    + intros [= <- <-]; auto.
  - destruct (p r0) eqn:E0; [| discriminate]. intros [= <- <-]; auto.
Qed.

(** Saving the row that was found, with its code, purpose, address and
    creation time unchanged, does not change which row the lookup finds. *)
Lemma findLatest_insert (p : OTPRecord -> bool) (l : list OTPRecord) (i : nat)
  (r r' : OTPRecord) :
  findLatest p l = Some (i, r) ->
  p r' = true ->
  otp_createdAt r' = otp_createdAt r ->
  findLatest p (<[i := r']> l) = Some (i, r').
Proof.
  intros Hf Hp Hc. revert i Hf.
  induction l as [| r0 l IH]; intros i; cbn [findLatest]; [discriminate |].
  destruct (findLatest p l) as [[j x] |] eqn:E; cbn.
  - destruct (p r0) eqn:E0.
    + destruct (otp_createdAt r0 <? otp_createdAt x) eqn:Elt; intros [= <- <-].
      * change (<[S j := r']> (r0 :: l)) with (r0 :: <[j := r']> l).
        cbn [findLatest]. rewrite (IH j eq_refl), E0. cbn. by rewrite Hc, Elt.
      * change (<[0%nat := r']> (r0 :: l)) with (r' :: l).
        cbn [findLatest]. rewrite E, Hp. cbn. by rewrite Hc, Elt.
    + intros [= <- <-]. change (<[S j := r']> (r0 :: l)) with (r0 :: <[j := r']> l).
      cbn [findLatest]. by rewrite (IH j eq_refl), E0.
  - destruct (p r0) eqn:E0; [| discriminate]. intros [= <- <-].
    change (<[0%nat := r']> (r0 :: l)) with (r' :: l).
    cbn [findLatest]. by rewrite E, Hp.
Qed.

Lemma findLatest_withUsed (p : OTPRecord -> bool) (l : list OTPRecord) (i : nat)
  (r : OTPRecord) (u : bool) (t : option Z) :
  (forall x, p (withUsed u t x) = p x) ->
  findLatest p l = Some (i, r) ->
  findLatest p (<[i := withUsed u t r]> l) = Some (i, withUsed u t r).
Proof.
  intros Hp Hf. apply findLatest_insert with (r := r); [exact Hf | | reflexivity].
  rewrite Hp. apply findLatest_Some in Hf. tauto.
Qed.

Lemma not_expired_ltb (env : Env) (r : OTPRecord) :
  now env <= otp_expiresAt r -> (otp_expiresAt r <? now env) = false.
Proof. intros H. apply Z.ltb_ge. lia. Qed.

(** *** The four outcomes of the gate proper *)

Lemma gate_used env ph cur rd i r w :
  otp_isUsed r = true ->
  verifyAndRegister env ph cur rd i r w
  = sendWhatsAppMessage ph (WithOptions TOtpAlreadyUsed false) w.
Proof. intros H. unfold verifyAndRegister. by rewrite H. Qed.

Lemma gate_expired env ph cur rd i r w :
  otp_isUsed r = false ->
  otp_expiresAt r < now env ->
  verifyAndRegister env ph cur rd i r w
  = sendWhatsAppMessage ph (WithOptions TOtpExpired false) w.
Proof.
  intros H Hlt. unfold verifyAndRegister. rewrite H.
  apply Z.ltb_lt in Hlt. by rewrite Hlt.
Qed.

Lemma gate_success env ph cur rd i r w res :
  otp_isUsed r = false ->
  now env <= otp_expiresAt r ->
  registerUser env (<[i := withUsed true (Some (now env)) r]> (otps w)) rd = Some res ->
  verifyAndRegister env ph cur rd i r w
  = mkWorld (<[ph := registeredSession env res cur]> (sessions w))
            (<[i := withUsed true (Some (now env)) r]> (otps w))
            (outbox w ++ [mkOut ph (WithOptions (TRegistrationSuccess (reg_name rd)) true)]).
Proof.
  intros H Hle Hreg. unfold verifyAndRegister.
  rewrite H, (not_expired_ltb env r Hle). cbn [saveOtp withOtps otps].
  by rewrite Hreg.
Qed.

Lemma gate_failure env ph cur rd i r w :
  otp_isUsed r = false ->
  now env <= otp_expiresAt r ->
  registerUser env (<[i := withUsed true (Some (now env)) r]> (otps w)) rd = None ->
  verifyAndRegister env ph cur rd i r w
  = mkWorld (<[ph := setField "waitingForOTPVerification" (VBool true) cur]> (sessions w))
            (<[i := withUsed false None r]> (otps w))
            (outbox w ++ [mkOut ph (WithOptions TRegistrationFailed false)]).
Proof.
  intros H Hle Hreg. unfold verifyAndRegister.
  rewrite H, (not_expired_ltb env r Hle). cbn [saveOtp withOtps otps].
  rewrite Hreg. unfold saveSession, sendWhatsAppMessage, saveOtp, withOtps, withSessions.
  cbn. by rewrite list_insert_insert_eq.
Qed.

(** A well-formed code for an address whose payload is resolved and whose
    row is the one found for the code goes to the gate proper. *)
Lemma verification_reaches_gate env ph s code w rd i r :
  isFourDigits (trim code) = true ->
  findLatest (byCode (trim code) "registration") (otps w) = Some (i, r) ->
  resolveRegistration env ph (sessions w !! ph) s (Some (i, r)) = Some rd ->
  reg_email rd = otp_email r ->
  handleRegistrationOTPVerification env ph s code w
  = verifyAndRegister env ph (default s (sessions w !! ph)) rd i r w.
Proof.
  intros Hd Hf Hr He. unfold handleRegistrationOTPVerification.
  rewrite Hd, Hf. cbn [negb]. rewrite Hr, He. by rewrite eqs_refl.
Qed.

Lemma lastSent_send ph b w : lastSent (sendWhatsAppMessage ph b w) = Some (template b).
Proof. unfold lastSent, sendWhatsAppMessage. cbn. by rewrite last_snoc. Qed.

Lemma lastSent_snoc s o l b ph : lastSent (mkWorld s o (l ++ [mkOut ph b])) = Some (template b).
Proof. unfold lastSent. cbn. by rewrite last_snoc. Qed.

End OtpFacts.

(** ** The registration flow guarded by the one-time code *)

Module RegistrationFacts.
Import Text Model Otp Handlers Dispatcher Spec TextFacts OtpFacts.

Lemma registeredSession_state env res cur : state (registeredSession env res cur) = LOGGED_IN.
Proof. reflexivity. Qed.

Lemma registeredSession_fields env res cur :
  field (data (registeredSession env res cur)) "userId" = VNum (res_userId res)
  /\ field (data (registeredSession env res cur)) "token" = VStr (tokenOf env res)
  /\ field (data (registeredSession env res cur)) "registrationData" = VNull
  /\ waitingForOTP (registeredSession env res cur) = false.
Proof.
  unfold waitingForOTP, registeredSession, field, assign. cbn [data withData foldl fst snd].
  repeat split; by simplify_map_eq.
Qed.

Lemma awaiting_after_failure (cur : Session) :
  state (setField "waitingForOTPVerification" (VBool true) cur) = state cur
  /\ waitingForOTP (setField "waitingForOTPVerification" (VBool true) cur) = true.
Proof.
  split; [reflexivity |].
  unfold waitingForOTP, setField, field. cbn [data withData]. by simplify_map_eq.
Qed.

(** C2: a code is used once. A good code is marked used in the table that
    the creation of the user is run on (the call is made on the table with
    the row already used), the verification then succeeds, and a second
    verification of the same code for the same address is turned away as
    already used and changes neither table. *)
Theorem otp_single_use env1 env2 ph s1 s2 code w rd1 rd2 i r res :
  isFourDigits (trim code) = true ->
  findLatest (byCode (trim code) "registration") (otps w) = Some (i, r) ->
  otp_isUsed r = false ->
  now env1 <= otp_expiresAt r ->
  resolveRegistration env1 ph (sessions w !! ph) s1 (Some (i, r)) = Some rd1 ->
  reg_email rd1 = otp_email r ->
  registerUser env1 (<[i := withUsed true (Some (now env1)) r]> (otps w)) rd1 = Some res ->
  let w1 := handleRegistrationOTPVerification env1 ph s1 code w in
  resolveRegistration env2 ph (sessions w1 !! ph) s2
    (Some (i, withUsed true (Some (now env1)) r)) = Some rd2 ->
  reg_email rd2 = otp_email r ->
  let w2 := handleRegistrationOTPVerification env2 ph s2 code w1 in
  otps w1 !! i = Some (withUsed true (Some (now env1)) r)
  /\ lastSent w1 = Some (TRegistrationSuccess (reg_name rd1))
  /\ state <$> sessions w1 !! ph = Some LOGGED_IN
  /\ lastSent w2 = Some TOtpAlreadyUsed
  /\ otps w2 = otps w1
  /\ sessions w2 = sessions w1.
Proof.
  intros Hd Hf Hu Hle Hr1 He1 Hreg.
  pose proof (verification_reaches_gate env1 ph s1 code w rd1 i r Hd Hf Hr1 He1) as Hw1.
  rewrite (gate_success env1 ph _ rd1 i r w res Hu Hle Hreg) in Hw1.
  intros w1 Hr2 He2 w2. subst w2 w1. rewrite Hw1 in Hr2 |- *.
  assert (Hf2 : findLatest (byCode (trim code) "registration")
                  (<[i := withUsed true (Some (now env1)) r]> (otps w))
                = Some (i, withUsed true (Some (now env1)) r))
    by (by apply findLatest_withUsed).
  set (w1 := mkWorld _ (<[i := withUsed true (Some (now env1)) r]> (otps w)) _) in *.
  rewrite (verification_reaches_gate env2 ph s2 code w1 rd2 i _ Hd Hf2 Hr2 He2).
  rewrite gate_used by reflexivity. subst w1. cbn [otps sessions].
  repeat split.
  - apply list_lookup_insert_eq. apply findLatest_Some in Hf as [Hi _].
    by apply lookup_lt_Some in Hi.
  - apply lastSent_snoc.
  - by rewrite lookup_insert_eq.
  - apply lastSent_send.
Qed.

(** C1: when the creation of the user fails after the code was marked
    used, the code is put back to unused and the session keeps its
    [REGISTERING] state and waits for the code; a next verification of the
    same code then succeeds, and the one after it is turned away as already
    used. *)
Theorem otp_unconsumed_on_failure env1 env2 env3 ph s1 s2 s3 code w rd1 rd2 rd3 i r res :
  isFourDigits (trim code) = true ->
  findLatest (byCode (trim code) "registration") (otps w) = Some (i, r) ->
  otp_isUsed r = false ->
  now env1 <= otp_expiresAt r ->
  resolveRegistration env1 ph (sessions w !! ph) s1 (Some (i, r)) = Some rd1 ->
  reg_email rd1 = otp_email r ->
  state (default s1 (sessions w !! ph)) = REGISTERING ->
  registerUser env1 (<[i := withUsed true (Some (now env1)) r]> (otps w)) rd1 = None ->
  let w1 := handleRegistrationOTPVerification env1 ph s1 code w in
  now env2 <= otp_expiresAt r ->
  resolveRegistration env2 ph (sessions w1 !! ph) s2
    (Some (i, withUsed false None r)) = Some rd2 ->
  reg_email rd2 = otp_email r ->
  registerUser env2 (<[i := withUsed true (Some (now env2)) r]> (otps w)) rd2 = Some res ->
  let w2 := handleRegistrationOTPVerification env2 ph s2 code w1 in
  resolveRegistration env3 ph (sessions w2 !! ph) s3
    (Some (i, withUsed true (Some (now env2)) r)) = Some rd3 ->
  reg_email rd3 = otp_email r ->
  let w3 := handleRegistrationOTPVerification env3 ph s3 code w2 in
  otps w1 = <[i := withUsed false None r]> (otps w)
  /\ (exists f1, sessions w1 !! ph = Some f1 /\ state f1 = REGISTERING
                 /\ waitingForOTP f1 = true)
  /\ lastSent w1 = Some TRegistrationFailed
  /\ lastSent w2 = Some (TRegistrationSuccess (reg_name rd2))
  /\ state <$> sessions w2 !! ph = Some LOGGED_IN
  /\ otps w2 !! i = Some (withUsed true (Some (now env2)) r)
  /\ lastSent w3 = Some TOtpAlreadyUsed
  /\ otps w3 = otps w2
  /\ sessions w3 = sessions w2.
Proof.
  intros Hd Hf Hu Hle1 Hr1 He1 Hst Hfail.
  pose proof (verification_reaches_gate env1 ph s1 code w rd1 i r Hd Hf Hr1 He1) as Hw1.
  rewrite (gate_failure env1 ph _ rd1 i r w Hu Hle1 Hfail) in Hw1.
  intros w1 Hle2 Hr2 He2 Hreg w2 Hr3 He3 w3. subst w3 w2 w1.
  rewrite Hw1 in Hr2, Hr3 |- *.
  assert (Hf2 : findLatest (byCode (trim code) "registration")
                  (<[i := withUsed false None r]> (otps w))
                = Some (i, withUsed false None r))
    by (by apply findLatest_withUsed).
  set (w1 := mkWorld _ (<[i := withUsed false None r]> (otps w)) _) in *.
  pose proof (verification_reaches_gate env2 ph s2 code w1 rd2 i _ Hd Hf2 Hr2 He2) as Hw2.
  rewrite (gate_success env2 ph _ rd2 i (withUsed false None r) w1 res) in Hw2;
    [| reflexivity | exact Hle2
     | subst w1; cbn [otps]; rewrite list_insert_insert_eq; exact Hreg].
  change (withUsed true (Some (now env2)) (withUsed false None r))
    with (withUsed true (Some (now env2)) r) in Hw2.
  assert (Ho : otps w1 = <[i := withUsed false None r]> (otps w)) by reflexivity.
  rewrite Ho, list_insert_insert_eq in Hw2.
  rewrite Hw2 in Hr3 |- *.
  assert (Hf3 : findLatest (byCode (trim code) "registration")
                  (<[i := withUsed true (Some (now env2)) r]> (otps w))
                = Some (i, withUsed true (Some (now env2)) r))
    by (by apply findLatest_withUsed).
  set (w2 := mkWorld _ (<[i := withUsed true (Some (now env2)) r]> (otps w)) _) in *.
  rewrite (verification_reaches_gate env3 ph s3 code w2 rd3 i _ Hd Hf3 Hr3 He3).
  rewrite gate_used by reflexivity. subst w2 w1. cbn [otps sessions outbox].
  split; [reflexivity |]. split.
  { eexists. split; [by rewrite lookup_insert_eq |].
    destruct (awaiting_after_failure (default s1 (sessions w !! ph))) as [H1 H2].
    split; [by rewrite H1 | exact H2]. }
  repeat split.
  - apply lastSent_snoc.
  - apply lastSent_snoc.
  - by rewrite lookup_insert_eq.
  - apply list_lookup_insert_eq. apply findLatest_Some in Hf as [Hi _].
    by apply lookup_lt_Some in Hi.
  - apply lastSent_send.
Qed.

(** C9, as the source has it: when neither the stored session nor the one
    at hand holds a usable registration payload, and the row found for the
    code is unused, not expired and carries the snapshot of the payload it
    was issued for (a snapshot that is decrypted to a payload for the
    address of the row), the payload is recovered from the snapshot and the
    registration completes: the user is created with the recovered payload
    and the session is [LOGGED_IN]. *)
Theorem payload_recovered_from_snapshot env ph s code w i r c d res :
  isFourDigits (trim code) = true ->
  usableRegistration (sessionRegistration (sessions w !! ph) s) = None ->
  findLatest (byCode (trim code) "registration") (otps w) = Some (i, r) ->
  otp_isUsed r = false ->
  now env <= otp_expiresAt r ->
  otp_meta r = Some c ->
  c <> "" ->
  decryptData env c = Some d ->
  reg_email d = otp_email r ->
  reg_email d <> "" ->
  let rd := mkReg (reg_name d) (reg_email d) (reg_password d)
              (if eqs (reg_phoneNumber d) "" then normalizePhoneNumber env ph
               else reg_phoneNumber d) in
  registerUser env (<[i := withUsed true (Some (now env)) r]> (otps w)) rd = Some res ->
  let w1 := handleRegistrationOTPVerification env ph s code w in
  lastSent w1 = Some (TRegistrationSuccess (reg_name d))
  /\ (exists f1, sessions w1 !! ph = Some f1 /\ state f1 = LOGGED_IN
                 /\ field (data f1) "userId" = VNum (res_userId res)
                 /\ field (data f1) "registrationData" = VNull
                 /\ waitingForOTP f1 = false)
  /\ otps w1 !! i = Some (withUsed true (Some (now env)) r).
Proof.
  intros Hd Hlost Hf Hu Hle Hm Hc Hdec He Hne rd Hreg w1.
  assert (Hr : resolveRegistration env ph (sessions w !! ph) s (Some (i, r)) = Some rd).
  { unfold resolveRegistration, recoverRegistration. rewrite Hlost, Hm.
    apply eqs_false in Hc as ->. rewrite Hdec. by apply eqs_false in Hne as ->. }
  subst w1.
  rewrite (verification_reaches_gate env ph s code w rd i r Hd Hf Hr He).
  rewrite (gate_success env ph _ rd i r w res Hu Hle Hreg). cbn [sessions otps].
  split; [apply lastSent_snoc |]. split.
  - eexists. split; [by rewrite lookup_insert_eq |].
    destruct (registeredSession_fields env res (default s (sessions w !! ph)))
      as (H1 & _ & H3 & H4).
    by rewrite registeredSession_state.
  - apply list_lookup_insert_eq. apply findLatest_Some in Hf as [Hi _].
    by apply lookup_lt_Some in Hi.
Qed.

Import Sample.

Lemma otp_single_use_witness :
  otps (verifyAt 2000 true registering (worldOf registering [adaCode])) !! 0%nat
  = Some (withUsed true (Some 2000) adaCode)
  /\ lastSent (verifyAt 2000 true registering (worldOf registering [adaCode]))
     = Some (TRegistrationSuccess "Ada")
  /\ state <$> sessions (verifyAt 2000 true registering (worldOf registering [adaCode])) !! phone
     = Some LOGGED_IN
  /\ lastSent (verifyAt 3000 true registering
                 (verifyAt 2000 true registering (worldOf registering [adaCode])))
     = Some TOtpAlreadyUsed
  /\ otps (verifyAt 3000 true registering
             (verifyAt 2000 true registering (worldOf registering [adaCode])))
     = otps (verifyAt 2000 true registering (worldOf registering [adaCode]))
  /\ sessions (verifyAt 3000 true registering
                 (verifyAt 2000 true registering (worldOf registering [adaCode])))
     = sessions (verifyAt 2000 true registering (worldOf registering [adaCode])).
Proof.
  apply (otp_single_use (env 2000 true true "1111") (env 3000 true true "1111") phone
           registering registering "4821" (worldOf registering [adaCode])
           ada ada 0%nat adaCode (mkAuth 7 "")); concrete.
Defined.

Lemma otp_unconsumed_on_failure_witness :
  otps (verifyAt 2000 false registering (worldOf registering [adaCode]))
  = <[0%nat := withUsed false None adaCode]> [adaCode]
  /\ (exists f1,
         sessions (verifyAt 2000 false registering (worldOf registering [adaCode])) !! phone
         = Some f1
         /\ state f1 = REGISTERING /\ waitingForOTP f1 = true)
  /\ lastSent (verifyAt 2000 false registering (worldOf registering [adaCode]))
     = Some TRegistrationFailed
  /\ lastSent (verifyAt 3000 true registering
                 (verifyAt 2000 false registering (worldOf registering [adaCode])))
     = Some (TRegistrationSuccess "Ada")
  /\ state <$> sessions (verifyAt 3000 true registering
                 (verifyAt 2000 false registering (worldOf registering [adaCode]))) !! phone
     = Some LOGGED_IN
  /\ otps (verifyAt 3000 true registering
             (verifyAt 2000 false registering (worldOf registering [adaCode]))) !! 0%nat
     = Some (withUsed true (Some 3000) adaCode)
  /\ lastSent (verifyAt 4000 true registering
                 (verifyAt 3000 true registering
                    (verifyAt 2000 false registering (worldOf registering [adaCode]))))
     = Some TOtpAlreadyUsed
  /\ otps (verifyAt 4000 true registering
             (verifyAt 3000 true registering
                (verifyAt 2000 false registering (worldOf registering [adaCode]))))
     = otps (verifyAt 3000 true registering
               (verifyAt 2000 false registering (worldOf registering [adaCode])))
  /\ sessions (verifyAt 4000 true registering
                 (verifyAt 3000 true registering
                    (verifyAt 2000 false registering (worldOf registering [adaCode]))))
     = sessions (verifyAt 3000 true registering
                   (verifyAt 2000 false registering (worldOf registering [adaCode]))).
Proof.
  apply (otp_unconsumed_on_failure (env 2000 false true "1111") (env 3000 true true "1111")
           (env 4000 true true "1111") phone registering registering registering "4821"
           (worldOf registering [adaCode]) ada ada ada 0%nat adaCode (mkAuth 7 ""));
    concrete.
Defined.

Lemma payload_recovered_from_snapshot_witness :
  lastSent (verifyAt 2000 true registeringWithoutPayload
              (worldOf registeringWithoutPayload [adaCode]))
  = Some (TRegistrationSuccess "Ada")
  /\ (exists f1,
         sessions (verifyAt 2000 true registeringWithoutPayload
                     (worldOf registeringWithoutPayload [adaCode])) !! phone = Some f1
         /\ state f1 = LOGGED_IN
         /\ field (data f1) "userId" = VNum 7
         /\ field (data f1) "registrationData" = VNull
         /\ waitingForOTP f1 = false)
  /\ otps (verifyAt 2000 true registeringWithoutPayload
             (worldOf registeringWithoutPayload [adaCode])) !! 0%nat
     = Some (withUsed true (Some 2000) adaCode).
Proof.
  apply (payload_recovered_from_snapshot (env 2000 true true "1111") phone
           registeringWithoutPayload "4821" (worldOf registeringWithoutPayload [adaCode])
           0%nat adaCode "ada@example.com" ada (mkAuth 7 "")); concrete.
Defined.

End RegistrationFacts.

(** ** Idle timeout *)

Module IdleFacts.
Import Text Model Otp Handlers Dispatcher Spec TextFacts OtpFacts.

Lemma idle_expired_iff (env : Env) (s : Session) :
  state s = LOGGED_IN ->
  (exists s', sessionIdleCheck env s = IdleExpired s') <->
  (exists t, tokenLastUsed s = Some t /\ now env - t > idleMs env).
Proof.
  intros Hs. unfold sessionIdleCheck, tokenLastUsed.
  destruct (decide (state s = LOGGED_IN)); [| done].
  destruct (truthy (field (data s) "tokenLastUsed")); cbn [andb].
  - destruct (dateMs (field (data s) "tokenLastUsed")) as [t |].
    + destruct (Z.ltb_spec (idleMs env) (now env - t)).
      * split; [| eauto]. intros _. exists t. split; [done | lia].
      * split; [by intros [? ?] |]. intros (t' & [= <-] & ?). lia.
    + split; [by intros [? ?] | by intros (? & ? & ?)].
  - split; [by intros [? ?] | by intros (? & ? & ?)].
Qed.

Lemma idle_expired_resets (env : Env) (s s' : Session) :
  sessionIdleCheck env s = IdleExpired s' ->
  state s = LOGGED_IN /\ s' = withData ∅ (withState NEW s).
Proof.
  unfold sessionIdleCheck. destruct (decide (state s = LOGGED_IN)); [| done].
  destruct (_ && _); [| done]. by intros [= <-].
Qed.

Lemma idle_active_keeps (env : Env) (s s' : Session) :
  sessionIdleCheck env s = IdleActive s' ->
  state s' = state s
  /\ (state s = LOGGED_IN -> field (data s') "tokenLastUsed" = VTime (now env))
  /\ (forall k, k <> "token" -> k <> "tokenLastUsed" -> data s' !! k = data s !! k).
Proof.
  unfold sessionIdleCheck. destruct (decide (state s = LOGGED_IN)) as [Hs | Hs].
  - destruct (_ && _); [done |]. intros [= <-].
    destruct (truthy (field (data s) "token")); unfold setField, field;
      cbn [state data withData]; (split; [done |]); (split; [by simplify_map_eq |]);
      intros k H1 H2; by simplify_map_eq.
  - intros [= <-]. split; [done |]. split; [done | done].
Qed.

Lemma idle_noop (env : Env) (s : Session) :
  state s <> LOGGED_IN -> sessionIdleCheck env s = IdleActive s.
Proof. intros Hs. unfold sessionIdleCheck. by destruct (decide (state s = LOGGED_IN)). Qed.

Lemma tokenLastUsed_time (s : Session) (t : Z) :
  data s !! "tokenLastUsed" = Some (VTime t) -> tokenLastUsed s = Some t.
Proof. intros H. unfold tokenLastUsed, field. by rewrite H. Qed.

Lemma tokenLastUsed_withLastActivity (a : option Z) (s : Session) :
  tokenLastUsed (withLastActivity a s) = tokenLastUsed s.
Proof. reflexivity. Qed.

Lemma idle_event_logs_out (env : Env) (ph m : string) (w : World) (s : Session) (t : Z) :
  rateLimitAllowed env = true ->
  sessions w !! ph = Some s ->
  state s = LOGGED_IN ->
  tokenLastUsed s = Some t ->
  now env - t > idleMs env ->
  sessions (handleCustomerMessage env ph m w) !! ph
  = Some (mkSession NEW ∅ (Some (now env)) (supportTeamId s))
  /\ outbox (handleCustomerMessage env ph m w)
     = (outbox w ++ [mkOut ph (Plain TIdleLogout)])%list
  /\ otps (handleCustomerMessage env ph m w) = otps w.
Proof.
  intros Hr Hs Hst Ht Hgt. unfold handleCustomerMessage.
  rewrite Hr, Hs. cbn [negb from_option id].
  destruct (proj2 (idle_expired_iff env (withLastActivity (Some (now env)) s) Hst)) as [s' Hi].
  { exists t. by rewrite tokenLastUsed_withLastActivity. }
  rewrite Hi. apply idle_expired_resets in Hi as [_ ->].
  unfold sendWhatsAppMessage, saveSession, withSessions. cbn.
  by rewrite lookup_insert_eq.
Qed.

Lemma idleMs_configured (env : Env) (minutes : Z) :
  IdleSpec.configuredIdleMinutes env minutes -> idleMs env = minutes * 60 * 1000.
Proof. unfold idleMs. by intros [-> | [-> ->]]. Qed.

(** An event that the rate limiter refuses is answered before the session
    is loaded. *)
Lemma rate_limited_event (env : Env) (ph m : string) (w : World) :
  rateLimitAllowed env = false ->
  sessions (handleCustomerMessage env ph m w) = sessions w
  /\ otps (handleCustomerMessage env ph m w) = otps w
  /\ lastSent (handleCustomerMessage env ph m w) = Some TRateLimited.
Proof.
  intros Hr. unfold handleCustomerMessage. rewrite Hr. cbn [negb].
  repeat split. apply lastSent_send.
Qed.

Import Sample.

(** C4, as the specification states it: the session has been idle for
    longer than the timeout, and the next inbound event, which the rate
    limiter refuses, leaves it [LOGGED_IN] with its data. *)
Lemma rate_limited_event_keeps_expired_session :
  state (loggedInSince 0) = LOGGED_IN
  /\ tokenLastUsed (loggedInSince 0) = Some 0
  /\ IdleSpec.configuredIdleMinutes (Configured.rateLimited (env 700000 true true "1111")) 10
  /\ now (Configured.rateLimited (env 700000 true true "1111")) - 0 > 10 * 60 * 1000
  /\ sessions (handleCustomerMessage (Configured.rateLimited (env 700000 true true "1111"))
                 phone "cart" (worldOf (loggedInSince 0) [])) !! phone
     = Some (loggedInSince 0)
  /\ lastSent (handleCustomerMessage (Configured.rateLimited (env 700000 true true "1111"))
                 phone "cart" (worldOf (loggedInSince 0) []))
     = Some TRateLimited.
Proof.
  split; [reflexivity |]. split; [reflexivity |].
  split; [right; split; reflexivity |]. split; [reflexivity |].
  split; vm_compute; reflexivity.
Qed.

(** C4, as the source has it: a [LOGGED_IN] session is expired exactly when
    [now - tokenLastUsed] exceeds the configured idle timeout, the minutes
    of [SESSION_IDLE_TIMEOUT_MINUTES] or ten when it is not set (a session
    without [tokenLastUsed] is not expired); the check then leaves the
    session [NEW] with empty data, and the inbound event that passes the
    rate limiter and finds it expired stores that session, sends the logout
    notice and does nothing else; an event that the rate limiter refuses
    leaves the sessions as they are; a check that does not find the session
    expired keeps its state and its data (it only touches the token and its
    time); and on a session that is not [LOGGED_IN] the check does
    nothing. *)
Theorem idle_timeout_expiry :
  (forall env s t minutes, state s = LOGGED_IN ->
     data s !! "tokenLastUsed" = Some (VTime t) ->
     IdleSpec.configuredIdleMinutes env minutes ->
     ((exists s', sessionIdleCheck env s = IdleExpired s')
      <-> now env - t > minutes * 60 * 1000))
  /\ (forall env s minutes, state s = LOGGED_IN ->
     IdleSpec.configuredIdleMinutes env minutes ->
     ((exists s', sessionIdleCheck env s = IdleExpired s') <->
      (exists t, tokenLastUsed s = Some t /\ now env - t > minutes * 60 * 1000)))
  /\ (forall env s s', sessionIdleCheck env s = IdleExpired s' ->
        state s = LOGGED_IN /\ state s' = NEW /\ data s' = ∅)
  /\ (forall env ph m w s t minutes,
        rateLimitAllowed env = true ->
        sessions w !! ph = Some s ->
        state s = LOGGED_IN ->
        tokenLastUsed s = Some t ->
        IdleSpec.configuredIdleMinutes env minutes ->
        now env - t > minutes * 60 * 1000 ->
        sessions (handleCustomerMessage env ph m w) !! ph
        = Some (mkSession NEW ∅ (Some (now env)) (supportTeamId s))
        /\ outbox (handleCustomerMessage env ph m w)
           = (outbox w ++ [mkOut ph (Plain TIdleLogout)])%list
        /\ otps (handleCustomerMessage env ph m w) = otps w)
  /\ (forall env ph m w,
        rateLimitAllowed env = false ->
        sessions (handleCustomerMessage env ph m w) = sessions w
        /\ otps (handleCustomerMessage env ph m w) = otps w
        /\ lastSent (handleCustomerMessage env ph m w) = Some TRateLimited)
  /\ (forall env s s', sessionIdleCheck env s = IdleActive s' ->
        state s' = state s
        /\ (state s = LOGGED_IN -> field (data s') "tokenLastUsed" = VTime (now env))
        /\ (forall k, k <> "token" -> k <> "tokenLastUsed" -> data s' !! k = data s !! k))
  /\ (forall env s, state s <> LOGGED_IN -> sessionIdleCheck env s = IdleActive s).
Proof.
  split.
  { intros env s t minutes Hs Ht Hm. rewrite (idle_expired_iff env s Hs).
    rewrite (tokenLastUsed_time s t Ht), (idleMs_configured env minutes Hm).
    split; [| eauto]. by intros (t' & [= <-] & ?). }
  split.
  { intros env s minutes Hs Hm. rewrite (idle_expired_iff env s Hs).
    by rewrite (idleMs_configured env minutes Hm). }
  split.
  { intros env s s' H. by apply idle_expired_resets in H as [? ->]. }
  split.
  { intros env ph m w s t minutes Hr Hs Hst Ht Hm Hgt.
    apply (idle_event_logs_out env ph m w s t Hr Hs Hst Ht).
    by rewrite (idleMs_configured env minutes Hm). }
  split; [exact rate_limited_event |].
  split; [exact idle_active_keeps | exact idle_noop].
Qed.

(** The timeout is set to three minutes: a session idle for 200 seconds is
    logged out. *)
Lemma idle_timeout_expiry_witness :
  sessions (handleCustomerMessage
              (Configured.withIdleTimeout (Some 3) (env 200000 true true "1111")) phone "cart"
              (worldOf (loggedInSince 0) [])) !! phone
  = Some (mkSession NEW ∅ (Some 200000) None)
  /\ outbox (handleCustomerMessage
               (Configured.withIdleTimeout (Some 3) (env 200000 true true "1111")) phone "cart"
               (worldOf (loggedInSince 0) []))
     = (outbox (worldOf (loggedInSince 0) []) ++ [mkOut phone (Plain TIdleLogout)])%list
  /\ otps (handleCustomerMessage
             (Configured.withIdleTimeout (Some 3) (env 200000 true true "1111")) phone "cart"
             (worldOf (loggedInSince 0) []))
     = otps (worldOf (loggedInSince 0) []).
Proof.
  apply (proj1 (proj2 (proj2 (proj2 idle_timeout_expiry)))
           (Configured.withIdleTimeout (Some 3) (env 200000 true true "1111")) phone "cart"
           (worldOf (loggedInSince 0) []) (loggedInSince 0) 0 3); try concrete.
  left. reflexivity.
Defined.

End IdleFacts.

(** ** Issuing codes: resend and registration re-submission *)

Module IssueFacts.
Import Text Model Otp Handlers Dispatcher Spec TextFacts OtpFacts.

Lemma markAllUsed_lookup (email purpose : string) (l : list OTPRecord) (j : nat)
  (r : OTPRecord) :
  l !! j = Some r ->
  otp_email r = email ->
  otp_purpose r = purpose ->
  exists r', markAllUsed email purpose l !! j = Some r' /\ otp_isUsed r' = true
             /\ otp_code r' = otp_code r.
Proof.
  intros Hj He Hp. unfold markAllUsed. rewrite list_lookup_fmap, Hj. cbn.
  rewrite He, Hp, !eqs_refl. cbn [andb].
  destruct (otp_isUsed r) eqn:Hu; cbn; eauto.
Qed.

(** On a resend every earlier row of the address is marked used before the
    new row is added. *)
Lemma resend_supersedes env ph s w rd newOtp j r :
  usableRegistration (sessionRegistration (sessions w !! ph) s) = Some rd ->
  generateOTP env = Some newOtp ->
  otps w !! j = Some r ->
  otp_email r = reg_email rd ->
  otp_purpose r = "registration" ->
  exists r', otps (handleResendOTP env ph s w) !! j = Some r' /\ otp_isUsed r' = true
             /\ otp_code r' = otp_code r.
Proof.
  intros Hr Hg Hj He Hp. unfold handleResendOTP. rewrite Hr, Hg.
  destruct (markAllUsed_lookup (reg_email rd) "registration" (otps w) j r Hj He Hp)
    as (r' & Hr' & Hu & Hc).
  exists r'. split; [| done].
  destruct (sendOTPEmail env (reg_email rd) newOtp); cbn;
    by rewrite lookup_app_l by (by apply lookup_lt_Some in Hr').
Qed.

(** A registration, first or repeated, leaves every earlier row of the
    table as it is. *)
Lemma registration_keeps_rows env ph s params w :
  exists added, otps (handleRegistration env ph s params w) = (otps w ++ added)%list.
Proof.
  unfold handleRegistration.
  repeat match goal with
         | |- context [if ?b then _ else _] => destruct b
         | |- context [match generateOTP env with _ => _ end] => destruct (generateOTP env)
         end; cbn; (by exists []; rewrite app_nil_r) || eauto.
Qed.

Import Sample.

(** C3, on the source: a registration of an address that already has an
    unused code (from a second telephone, or sent again to the handler)
    adds a new code and leaves the earlier one unused, so the earlier code
    still completes the registration; the resend path marks the earlier
    code used, and it is turned away. *)
Theorem resubmission_leaves_old_code_valid :
  usedFlags registeredTwice = [false; false]
  /\ otp_email <$> otps registeredTwice = ["ada@example.com"; "ada@example.com"]
  /\ otp_code <$> otps registeredTwice = ["4821"; "9999"]
  /\ lastSent (handleCustomerMessage (env 3000 true true "0000") phone "4821" registeredTwice)
     = Some (TRegistrationSuccess "Ada")
  /\ stateOf (handleCustomerMessage (env 3000 true true "0000") phone "4821" registeredTwice)
     = Some LOGGED_IN
  /\ usedFlags registeredThenResent = [true; false]
  /\ lastSent (handleCustomerMessage (env 3000 true true "0000") phone "4821"
                 registeredThenResent)
     = Some TOtpAlreadyUsed
  /\ usedFlags (handleRegistration (env 5000 true true "9999") phone registering
               registrationParameters (worldOf registering [adaCode]))
  = [false; false]
  /\ otp_code <$> otps (handleRegistration (env 5000 true true "9999") phone registering
                          registrationParameters (worldOf registering [adaCode]))
     = ["4821"; "9999"]
  /\ lastSent (verifyAt 6000 true registering
                 (handleRegistration (env 5000 true true "9999") phone registering
                    registrationParameters (worldOf registering [adaCode])))
     = Some (TRegistrationSuccess "Ada")
  /\ usedFlags (handleResendOTP (env 5000 true true "9999") phone registering
                  (worldOf registering [adaCode]))
     = [true; false]
  /\ lastSent (verifyAt 6000 true registering
                 (handleResendOTP (env 5000 true true "9999") phone registering
                    (worldOf registering [adaCode])))
     = Some TOtpAlreadyUsed.
Proof. repeat split; vm_compute; reflexivity. Qed.

(** The flow from the first message to the logged-in session: the
    registration issues a code and waits for it; an expired code is turned
    away and the session stays [REGISTERING]; the right code in time logs
    the user in and clears the breadcrumbs of the flow. *)
Example registration_end_to_end :
  stateOf (handleCustomerMessage (env 1000 true true "4821") phone
             "register Ada ada@example.com secret1" emptyWorld)
  = Some REGISTERING
  /\ lastSent (handleCustomerMessage (env 1000 true true "4821") phone
                 "register Ada ada@example.com secret1" emptyWorld)
     = Some (TOtpSent "ada@example.com")
  /\ lastSent (handleCustomerMessage (env 400000 true true "0000") phone "4821"
                 (handleCustomerMessage (env 1000 true true "4821") phone
                    "register Ada ada@example.com secret1" emptyWorld))
     = Some TOtpExpired
  /\ stateOf (handleCustomerMessage (env 400000 true true "0000") phone "4821"
                (handleCustomerMessage (env 1000 true true "4821") phone
                   "register Ada ada@example.com secret1" emptyWorld))
     = Some REGISTERING
  /\ stateOf (handleCustomerMessage (env 3000 true true "0000") phone "4821"
                (handleCustomerMessage (env 1000 true true "4821") phone
                   "register Ada ada@example.com secret1" emptyWorld))
     = Some LOGGED_IN
  /\ (fun s => (waitingForOTP s, field (data s) "registrationData"))
       <$> sessions (handleCustomerMessage (env 3000 true true "0000") phone "4821"
                       (handleCustomerMessage (env 1000 true true "4821") phone
                          "register Ada ada@example.com secret1" emptyWorld)) !! phone
     = Some (false, VNull).
Proof. repeat split; vm_compute; reflexivity. Qed.

End IssueFacts.

(** ** Failures inside handlers *)

Module FailureFacts.
Import Text Model Otp Handlers Dispatcher Spec TextFacts OtpFacts.

(** When the support handoff fails, the session is stored as [LOGGED_IN],
    whatever its state was. *)
Lemma support_failure_state env ph s params w :
  startSupportChat env ph (supportRoleOf params) = false ->
  sessions (handleSupportRequest env ph s params w) !! ph
  = Some (withSupportTeamId None (withState LOGGED_IN s))
  /\ outbox (handleSupportRequest env ph s params w)
     = (outbox w ++ [mkOut ph (WithOptions TSupportFailed true)])%list.
Proof.
  intros H. unfold handleSupportRequest. rewrite H. cbn.
  by rewrite lookup_insert_eq.
Qed.

(** When the login call fails, the session stays [LOGGING_IN], the state
    committed before the call, and one message is sent. *)
Lemma login_failure_state env ph s params w :
  state s = NEW \/ state s = LOGGING_IN ->
  given params "email" && given params "password" = true ->
  isValidLoginData env (toLowerCase (sanitizeInput env (param params "email")))
    (sanitizeInput env (param params "password")) = true ->
  loginUser env (toLowerCase (sanitizeInput env (param params "email")))
    (sanitizeInput env (param params "password")) = None ->
  sessions (handleLogin env ph s params w) !! ph = Some (withState LOGGING_IN s)
  /\ outbox (handleLogin env ph s params w)
     = (outbox w ++ [mkOut ph (WithOptions TLoginFailed false)])%list.
Proof.
  intros Hs Hg Hv Hl. unfold handleLogin.
  destruct (decide _) as [_ | Hn]; [| done].
  rewrite Hg, Hv, Hl. cbn. by rewrite lookup_insert_eq.
Qed.

Import Sample.

(** C6, on the source: a session that was never logged in and asks for
    support while the handoff fails is stored as [LOGGED_IN], with empty
    data; the same happens to the first message of an unknown number. *)
Theorem support_failure_logs_in_new_session :
  stateOf (handleSupportRequest (env 5000 true false "1111") phone (sessionOf NEW []) ∅
             (worldOf (sessionOf NEW []) []))
  = Some LOGGED_IN
  /\ stateOf (handleCustomerMessage (env 5000 true false "1111") phone "support" emptyWorld)
     = Some LOGGED_IN
  /\ data <$> sessions (handleCustomerMessage (env 5000 true false "1111") phone "support"
                          emptyWorld) !! phone
     = Some ∅
  /\ lastSent (handleCustomerMessage (env 5000 true false "1111") phone "support" emptyWorld)
     = Some TSupportFailed
  /\ (fun s => isAuthenticatedSession (argOf s))
       <$> sessions (handleCustomerMessage (env 5000 true false "1111") phone "support"
                       emptyWorld) !! phone
     = Some true.
Proof. repeat split; vm_compute; reflexivity. Qed.

End FailureFacts.

(** ** The session invariant at the commit points *)

Module InvariantFacts.
Import Text Model Otp Handlers Dispatcher Spec TextFacts OtpFacts.






(** Logout stores the session as [NEW] with empty data. *)
Lemma logout_commit ph s w :
  sessions (handleLogout ph s w) !! ph = Some (withData ∅ (withState NEW s)).
Proof. unfold handleLogout. cbn. by rewrite lookup_insert_eq. Qed.


Import Sample.


End InvariantFacts.

(** ** Issuing a code, then verifying it *)

Module IssueVerifyFacts.
Import Text Model Otp Handlers Dispatcher Spec Steps TextFacts OtpFacts RegistrationFacts.

Lemma digit_not_space (c : ascii) : isDigit c = true -> isSpace c = false.
Proof.
  unfold isDigit, isSpace. intros H. apply andb_true_iff in H as [H1 H2].
  apply Nat.leb_le in H1. apply Nat.leb_le in H2.
  apply orb_false_iff. split.
  - apply andb_false_iff. right. apply Nat.leb_gt. lia.
  - apply Nat.eqb_neq. lia.
Qed.

Lemma trimEnd_digits (s : string) : allDigits s = true -> trimEnd s = s.
Proof.
  induction s as [| c r IH]; [done |]. cbn [allDigits trimEnd].
  intros H. apply andb_true_iff in H as [Hc Hr].
  rewrite (IH Hr), (digit_not_space c Hc). by destruct r.
Qed.

(** [trim] leaves a string of digits as it is. *)
Lemma trim_digits (s : string) : allDigits s = true -> trim s = s.
Proof.
  intros H. unfold trim.
  assert (trimStart s = s) as ->.
  { destruct s as [| c r]; [done |]. cbn [allDigits trimStart] in *.
    apply andb_true_iff in H as [Hc _]. by rewrite (digit_not_space c Hc). }
  by apply trimEnd_digits.
Qed.

Lemma fourDigits_allDigits (s : string) : isFourDigits s = true -> allDigits s = true.
Proof. unfold isFourDigits. intros H. by apply andb_true_iff in H as [_ ?]. Qed.

Lemma fourDigits_trim (s : string) :
  isFourDigits s = true -> trim s = s /\ isFourDigits (trim s) = true.
Proof.
  intros H. rewrite (trim_digits s (fourDigits_allDigits s H)). by split.
Qed.

(** A row added at the end of the table is the one the lookup finds, when
    the matching rows before it are older. *)
Lemma findLatest_app_new (p : OTPRecord -> bool) (l : list OTPRecord) (x : OTPRecord) :
  p x = true ->
  (forall r, r ∈ l -> p r = true -> otp_createdAt r < otp_createdAt x) ->
  findLatest p (l ++ [x]) = Some (length l, x).
Proof.
  intros Hx. induction l as [| r l IH]; intros Hold; cbn [app findLatest length].
  - by rewrite Hx.
  - rewrite IH by (intros r' Hr'; apply Hold; by right). cbn.
    destruct (p r) eqn:Hp; [| done].
    assert ((otp_createdAt r <? otp_createdAt x) = true) as E
      by (apply Z.ltb_lt, Hold; [by left | done]).
    by rewrite E.
Qed.

Lemma byCode_spec (code purpose : string) (r : OTPRecord) :
  byCode code purpose r = true <-> otp_code r = code /\ otp_purpose r = purpose.
Proof. unfold byCode. rewrite andb_true_iff, !eqs_true. done. Qed.

Lemma byEmailCode_spec (email code purpose : string) (r : OTPRecord) :
  byEmailCode email code purpose r = true <->
  otp_email r = email /\ otp_code r = code /\ otp_purpose r = purpose.
Proof. unfold byEmailCode. rewrite !andb_true_iff, !eqs_true. tauto. Qed.

(** What a registration with complete, valid parameters leaves behind. *)
Lemma registration_issues env ph s params w otp :
  state s = NEW \/ state s = REGISTERING ->
  given params "name" && given params "email" && given params "password" = true ->
  isValidRegistrationData env (userDataOf env ph params) = true ->
  default false (findUserByEmail env (reg_email (userDataOf env ph params))) = false ->
  generateOTP env = Some otp ->
  otps (handleRegistration env ph s params w)
  = (otps w ++ [issuedRow env (reg_email (userDataOf env ph params)) otp
                  (snapshot env (userDataOf env ph params))])%list
  /\ exists f, sessions (handleRegistration env ph s params w) !! ph = Some f
       /\ state f = REGISTERING
       /\ data f !! "registrationData" = Some (VReg (userDataOf env ph params))
       /\ waitingForOTP f = true.
Proof.
  unfold userDataOf, issuedRow. intros Hs Hg Hv Hu Ho. unfold handleRegistration.
  destruct (decide _) as [_ | Hn]; [| done].
  rewrite Hg, Hv, Hu, Ho. cbn [negb]. split; [reflexivity |].
  eexists. split; [cbn; by rewrite lookup_insert_eq |].
  split; [reflexivity |].
  unfold waitingForOTP, setField, field. cbn [data withData withState].
  split; by simplify_map_eq.
Qed.

(** X1: the registration round trip. A registration with complete, valid
    parameters for an address that is not taken issues a 4-digit code; when
    the rows that already hold this code are older, verifying the code
    before it expires, with the creation of the user succeeding, logs the
    session in with the payload of the registration, and marks the code
    used. *)
Theorem registration_then_verification env0 env1 ph s s' params w otp res :
  state s = NEW \/ state s = REGISTERING ->
  given params "name" && given params "email" && given params "password" = true ->
  isValidRegistrationData env0 (userDataOf env0 ph params) = true ->
  default false (findUserByEmail env0 (reg_email (userDataOf env0 ph params))) = false ->
  reg_email (userDataOf env0 ph params) <> "" ->
  generateOTP env0 = Some otp ->
  isFourDigits otp = true ->
  (forall r, r ∈ otps w -> otp_code r = otp -> otp_purpose r = "registration" ->
             otp_createdAt r < now env0) ->
  now env1 <= getOTPExpiry env0 ->
  (forall table, registerUser env1 table (userDataOf env0 ph params) = Some res) ->
  let w1 := handleRegistration env0 ph s params w in
  let w2 := handleRegistrationOTPVerification env1 ph s' otp w1 in
  lastSent w2 = Some (TRegistrationSuccess (sanitizeInput env0 (param params "name")))
  /\ (exists f, sessions w2 !! ph = Some f /\ state f = LOGGED_IN
                /\ field (data f) "userId" = VNum (res_userId res)
                /\ field (data f) "registrationData" = VNull
                /\ waitingForOTP f = false)
  /\ (exists r, otps w2 !! length (otps w) = Some r /\ otp_code r = otp
                /\ otp_isUsed r = true /\ otp_usedAt r = Some (now env1)).
Proof.
  intros Hs Hg Hv Hu Hne Ho Hd Hold Hle Hreg w1 w2.
  destruct (registration_issues env0 ph s params w otp Hs Hg Hv Hu Ho)
    as (Hotps & f & Hf & Hst & Hrd & Hwait).
  fold w1 in Hotps, Hf.
  set (ud := userDataOf env0 ph params) in *.
  set (row := issuedRow env0 (reg_email ud) otp (snapshot env0 ud)) in *.
  destruct (fourDigits_trim otp Hd) as [Ht Hd'].
  assert (Hfind : findLatest (byCode (trim otp) "registration") (otps w1)
                  = Some (length (otps w), row)).
  { rewrite Hotps, Ht. apply findLatest_app_new.
    - apply byCode_spec. by split.
    - intros r Hr Hp. apply byCode_spec in Hp as [Hc Hp]. by apply Hold. }
  assert (Hres : resolveRegistration env1 ph (sessions w1 !! ph) s'
                   (Some (length (otps w), row)) = Some ud).
  { unfold resolveRegistration, sessionRegistration, orElse, field.
    rewrite Hf, Hrd. cbn [from_option id truthy usableRegistration].
    apply eqs_false in Hne. fold ud in Hne. by rewrite Hne. }
  subst w2.
  rewrite (verification_reaches_gate env1 ph s' otp w1 ud _ row Hd' Hfind Hres eq_refl).
  rewrite (gate_success env1 ph _ ud _ row w1 res eq_refl Hle (Hreg _)).
  cbn [sessions otps]. split; [apply lastSent_snoc |]. split.
  - eexists. split; [by rewrite lookup_insert_eq |].
    destruct (registeredSession_fields env1 res (default s' (sessions w1 !! ph)))
      as (H1 & _ & H3 & H4).
    by rewrite registeredSession_state.
  - eexists. split.
    + rewrite Hotps. apply list_lookup_insert_eq. rewrite length_app. cbn. lia.
    + done.
Qed.

End IssueVerifyFacts.

(** ** The resend path, and what no run of the handlers undoes *)

Module ResendFacts.
Import Text Model Otp Handlers Dispatcher Spec Steps TextFacts OtpFacts RegistrationFacts
  IssueVerifyFacts.
Import Sample.

Lemma registration_then_verification_witness :
  lastSent (handleRegistrationOTPVerification (env 3000 true true "0000") phone
              (sessionOf NEW []) "4821"
              (handleRegistration (env 1000 true true "4821") phone (sessionOf NEW [])
                 registrationParameters emptyWorld))
  = Some (TRegistrationSuccess
            (sanitizeInput (env 1000 true true "4821") (param registrationParameters "name"))).
Proof.
  refine (proj1 (registration_then_verification (env 1000 true true "4821")
                   (env 3000 true true "0000") phone (sessionOf NEW []) (sessionOf NEW [])
                   registrationParameters emptyWorld "4821" (mkAuth 7 "")
                   _ _ _ _ _ _ _ _ _ _)); try concrete.
  - by left.
  - intros r Hr. by apply elem_of_nil in Hr.
Defined.

Lemma markAllUsed_elem (email purpose : string) (l : list OTPRecord) (r : OTPRecord) :
  r ∈ markAllUsed email purpose l ->
  exists r0, r0 ∈ l /\ sameCode r0 r
             /\ (otp_email r = email -> otp_purpose r = purpose -> otp_isUsed r = true).
Proof.
  unfold markAllUsed. intros H. apply list_elem_of_fmap in H as (r0 & -> & Hr0).
  exists r0. split; [done |].
  destruct (eqs (otp_email r0) email && eqs (otp_purpose r0) purpose && negb (otp_isUsed r0))
    eqn:E.
  - split; [by repeat split | done].
  - split; [by repeat split |]. intros He Hp.
    rewrite He, Hp, !eqs_refl in E. cbn in E. by destruct (otp_isUsed r0).
Qed.

(** What a resend leaves behind when the stored session holds the
    payload. *)
Lemma resend_issues env ph s w f rd newOtp :
  sessions w !! ph = Some f ->
  usableRegistration (field (data f) "registrationData") = Some rd ->
  generateOTP env = Some newOtp ->
  otps (handleResendOTP env ph s w)
  = (markAllUsed (reg_email rd) "registration" (otps w)
     ++ [issuedRow env (reg_email rd) newOtp (snapshot env rd)])%list
  /\ exists f', sessions (handleResendOTP env ph s w) !! ph = Some f'
       /\ state f' = state f
       /\ field (data f') "registrationData" = field (data f) "registrationData"
       /\ waitingForOTP f' = true.
Proof.
  intros Hf Hrd Ho. unfold handleResendOTP. rewrite Hf.
  assert (sessionRegistration (Some f) s = field (data f) "registrationData") as ->.
  { unfold sessionRegistration, orElse.
    destruct (field (data f) "registrationData"); try discriminate Hrd. done. }
  rewrite Hrd, Ho. cbn [from_option id].
  destruct (sendOTPEmail env (reg_email rd) newOtp); (split; [reflexivity |]);
    eexists; (split; [cbn; by rewrite lookup_insert_eq |]);
    unfold waitingForOTP, setField, field; cbn [state data withData];
    (split; [done |]); split; by simplify_map_eq.
Qed.

(** X2: the resend round trip. When the stored session holds the
    registration payload, a resend issues a new 4-digit code; when the rows
    that already hold this code are older, verifying the new code before it
    expires, with the creation of the user succeeding, logs the session
    in. *)
Theorem resend_then_verification env0 env1 ph s s' w f rd newOtp res :
  sessions w !! ph = Some f ->
  usableRegistration (field (data f) "registrationData") = Some rd ->
  generateOTP env0 = Some newOtp ->
  isFourDigits newOtp = true ->
  (forall r, r ∈ otps w -> otp_code r = newOtp -> otp_purpose r = "registration" ->
             otp_createdAt r < now env0) ->
  now env1 <= getOTPExpiry env0 ->
  (forall table, registerUser env1 table rd = Some res) ->
  let w1 := handleResendOTP env0 ph s w in
  let w2 := handleRegistrationOTPVerification env1 ph s' newOtp w1 in
  lastSent w2 = Some (TRegistrationSuccess (reg_name rd))
  /\ (exists f2, sessions w2 !! ph = Some f2 /\ state f2 = LOGGED_IN
                 /\ field (data f2) "userId" = VNum (res_userId res)
                 /\ waitingForOTP f2 = false)
  /\ (exists r, otps w2 !! length (otps w) = Some r /\ otp_code r = newOtp
                /\ otp_isUsed r = true).
Proof.
  intros Hf Hrd Ho Hd Hold Hle Hreg w1 w2.
  destruct (resend_issues env0 ph s w f rd newOtp Hf Hrd Ho)
    as (Hotps & f' & Hf' & _ & Hsame & _).
  fold w1 in Hotps, Hf'.
  set (row := issuedRow env0 (reg_email rd) newOtp (snapshot env0 rd)) in *.
  set (old := markAllUsed (reg_email rd) "registration" (otps w)) in *.
  assert (Hlen : length old = length (otps w)) by (unfold old, markAllUsed; apply length_map).
  destruct (fourDigits_trim newOtp Hd) as [Ht Hd'].
  assert (Hfind : findLatest (byCode (trim newOtp) "registration") (otps w1)
                  = Some (length old, row)).
  { rewrite Hotps, Ht. apply findLatest_app_new.
    - apply byCode_spec. by split.
    - intros r Hr Hp. apply byCode_spec in Hp as [Hc Hp].
      apply markAllUsed_elem in Hr as (r0 & Hr0 & (_ & Hc0 & Hp0 & _ & Hcr & _) & _).
      rewrite Hcr. apply Hold; [done | congruence | congruence]. }
  assert (Hres : resolveRegistration env1 ph (sessions w1 !! ph) s'
                   (Some (length old, row)) = Some rd).
  { unfold resolveRegistration, sessionRegistration, orElse. rewrite Hf', Hsame.
    destruct (field (data f) "registrationData"); try discriminate Hrd.
    cbn [truthy]. by rewrite Hrd. }
  subst w2.
  rewrite (verification_reaches_gate env1 ph s' newOtp w1 rd _ row Hd' Hfind Hres eq_refl).
  rewrite (gate_success env1 ph _ rd _ row w1 res eq_refl Hle (Hreg _)).
  cbn [sessions otps]. split; [apply lastSent_snoc |]. split.
  - eexists. split; [by rewrite lookup_insert_eq |].
    destruct (registeredSession_fields env1 res (default s' (sessions w1 !! ph)))
      as (H1 & _ & _ & H4).
    by rewrite registeredSession_state.
  - eexists. split.
    + rewrite Hotps, <- Hlen. apply list_lookup_insert_eq. rewrite length_app. cbn. lia.
    + done.
Qed.

Lemma resend_then_verification_witness :
  lastSent (handleRegistrationOTPVerification (env 3000 true true "0000") phone
              registering "9999"
              (handleResendOTP (env 2000 true true "9999") phone registering
                 (worldOf registering [adaCode])))
  = Some (TRegistrationSuccess (reg_name ada)).
Proof.
  refine (proj1 (resend_then_verification (env 2000 true true "9999")
                   (env 3000 true true "0000") phone registering registering
                   (worldOf registering [adaCode]) registering ada "9999" (mkAuth 7 "")
                   _ _ _ _ _ _ _)); try concrete.
  intros r Hr Hc. apply list_elem_of_singleton in Hr. subst r. discriminate Hc.
Defined.

Lemma findLatest_None (p : OTPRecord -> bool) (l : list OTPRecord) (r : OTPRecord) :
  findLatest p l = None -> r ∈ l -> p r = false.
Proof.
  induction l as [| r0 l IH]; cbn [findLatest]; intros Hn Hr.
  - by apply elem_of_nil in Hr.
  - destruct (p r0) eqn:E0.
    + destruct (findLatest p l) as [[j x] |]; cbn in Hn;
        [destruct (otp_createdAt r0 <? otp_createdAt x) |]; discriminate Hn.
    + destruct (findLatest p l) as [[j x] |] eqn:E; [discriminate Hn |].
      apply elem_of_cons in Hr as [-> | Hr]; [exact E0 | by apply IH].
Qed.

(** Marking rows used keeps every row, with its address, code and
    purpose. *)
Lemma markAllUsed_keeps (email purpose : string) (l : list OTPRecord) (r : OTPRecord) :
  r ∈ l ->
  exists r', r' ∈ markAllUsed email purpose l /\ otp_email r' = otp_email r
             /\ otp_code r' = otp_code r /\ otp_purpose r' = otp_purpose r.
Proof.
  intros Hr. unfold markAllUsed.
  eexists. split; [apply (list_elem_of_fmap_2 _ _ _ Hr) |]. cbv beta.
  destruct (eqs (otp_email r) email && eqs (otp_purpose r) purpose && negb (otp_isUsed r));
    repeat split; reflexivity.
Qed.

(** X3: after a resend, the new code is the only one that can complete the
    registration of the address. An old code of the address, one that a row
    of the address held before the resend, is turned away as already used;
    any other 4-digit code is turned away as already used or as matching no
    row; and the verification changes neither table. *)
Theorem resend_kills_other_codes env0 env1 ph s s' w f rd newOtp code :
  sessions w !! ph = Some f ->
  usableRegistration (field (data f) "registrationData") = Some rd ->
  generateOTP env0 = Some newOtp ->
  isFourDigits (trim code) = true ->
  trim code <> newOtp ->
  let w1 := handleResendOTP env0 ph s w in
  let w2 := handleRegistrationOTPVerification env1 ph s' code w1 in
  sessions w2 = sessions w1 /\ otps w2 = otps w1
  /\ (lastSent w2 = Some TOtpAlreadyUsed \/ lastSent w2 = Some TOtpNoMatch)
  /\ ((exists r, r ∈ otps w /\ otp_email r = reg_email rd /\ otp_code r = trim code
                 /\ otp_purpose r = "registration") ->
      lastSent w2 = Some TOtpAlreadyUsed).
Proof.
  intros Hf Hrd Ho Hd Hne w1 w2.
  destruct (resend_issues env0 ph s w f rd newOtp Hf Hrd Ho)
    as (Hotps & f' & Hf' & _ & Hsame & _).
  fold w1 in Hotps, Hf'.
  (* every row of the address with this code is used *)
  assert (Hused : forall r, r ∈ otps w1 -> otp_email r = reg_email rd ->
                            otp_code r = trim code -> otp_purpose r = "registration" ->
                            otp_isUsed r = true).
  { intros r Hr He Hc Hp. rewrite Hotps in Hr. apply elem_of_app in Hr as [Hr | Hr].
    - apply markAllUsed_elem in Hr as (_ & _ & _ & Hu). by apply Hu.
    - apply list_elem_of_singleton in Hr. subst r. cbn in Hc. congruence. }
  assert (Hres : forall o, resolveRegistration env1 ph (sessions w1 !! ph) s' o = Some rd).
  { intros o. unfold resolveRegistration, sessionRegistration, orElse. rewrite Hf', Hsame.
    destruct (field (data f) "registrationData"); try discriminate Hrd.
    cbn [truthy]. rewrite Hrd. by destruct o as [[? ?] |]. }
  assert (Hgate : forall i r,
             r ∈ otps w1 -> otp_email r = reg_email rd -> otp_code r = trim code ->
             otp_purpose r = "registration" ->
             verifyAndRegister env1 ph (default s' (sessions w1 !! ph)) rd i r w1
             = sendWhatsAppMessage ph (WithOptions TOtpAlreadyUsed false) w1).
  { intros i r Hr He Hc Hp. apply gate_used. by apply Hused. }
  subst w2. unfold handleRegistrationOTPVerification.
  rewrite Hd, Hres. cbn [negb].
  set (byC := findLatest (byCode (trim code) "registration") (otps w1)).
  set (byE := findLatest (byEmailCode (reg_email rd) (trim code) "registration") (otps w1)).
  set (answer o := match o with
                   | Some (i, r) =>
                       verifyAndRegister env1 ph (default s' (sessions w1 !! ph)) rd i r w1
                   | None => sendWhatsAppMessage ph (WithOptions TOtpNoMatch false) w1
                   end).
  set (found := match byC with
                | Some (i, r) => if eqs (otp_email r) (reg_email rd) then Some (i, r) else byE
                | None => byE
                end).
  change (let w2 := answer found in
          sessions w2 = sessions w1 /\ otps w2 = otps w1
          /\ (lastSent w2 = Some TOtpAlreadyUsed \/ lastSent w2 = Some TOtpNoMatch)
          /\ ((exists r, r ∈ otps w /\ otp_email r = reg_email rd /\ otp_code r = trim code
                         /\ otp_purpose r = "registration") ->
              lastSent w2 = Some TOtpAlreadyUsed)).
  assert (HE : answer byE = sendWhatsAppMessage ph (WithOptions TOtpAlreadyUsed false) w1
               \/ (byE = None
                   /\ answer byE = sendWhatsAppMessage ph (WithOptions TOtpNoMatch false) w1)).
  { destruct byE as [[i r] |] eqn:E; [left | by right].
    apply findLatest_Some in E as [Hi Hp]. apply byEmailCode_spec in Hp as (He & Hc & Hp).
    apply Hgate; [by eapply list_elem_of_lookup_2 | done ..]. }
  assert (HC : answer found = sendWhatsAppMessage ph (WithOptions TOtpAlreadyUsed false) w1
               \/ (byE = None
                   /\ answer found
                      = sendWhatsAppMessage ph (WithOptions TOtpNoMatch false) w1)).
  { subst found. destruct byC as [[i r] |] eqn:E; [| exact HE].
    destruct (eqs (otp_email r) (reg_email rd)) eqn:Ee; [| exact HE]. left.
    apply findLatest_Some in E as [Hi Hp]. apply byCode_spec in Hp as (Hc & Hp).
    apply eqs_true in Ee. apply Hgate; [by eapply list_elem_of_lookup_2 | done ..]. }
  cbv zeta.
  destruct HC as [-> | [Hnone ->]]; rewrite lastSent_send; cbn [template].
  - repeat split; auto.
  - split; [reflexivity |]. split; [reflexivity |]. split; [by right |].
    intros (r & Hr & He & Hc & Hp). exfalso.
    destruct (markAllUsed_keeps (reg_email rd) "registration" (otps w) r Hr)
      as (r' & Hr' & He' & Hc' & Hp').
    assert (Hin : r' ∈ otps w1) by (rewrite Hotps; apply elem_of_app; by left).
    pose proof (findLatest_None _ _ r' Hnone Hin) as Hfalse.
    assert (Htrue : byEmailCode (reg_email rd) (trim code) "registration" r' = true).
    { apply byEmailCode_spec. repeat split; congruence. }
    congruence.
Qed.

Lemma resend_kills_other_codes_witness :
  lastSent (handleRegistrationOTPVerification (env 3000 true true "0000") phone registering
              "4821" (handleResendOTP (env 2000 true true "9999") phone registering
                        (worldOf registering [adaCode])))
  = Some TOtpAlreadyUsed.
Proof.
  refine (proj2 (proj2 (proj2
            (resend_kills_other_codes (env 2000 true true "9999") (env 3000 true true "0000")
               phone registering registering (worldOf registering [adaCode]) registering ada
               "9999" "4821" _ _ _ _ _))) _); try concrete.
  exists adaCode. split; [apply list_elem_of_singleton; reflexivity |].
  repeat split; reflexivity.
Defined.

End ResendFacts.

(** ** What no run of the issuing and verifying handlers does *)

Module StepFacts.
Import Text Model Otp Handlers Dispatcher Spec Steps TextFacts OtpFacts RegistrationFacts
  IssueVerifyFacts ResendFacts.

Lemma sameCode_refl (r : OTPRecord) : sameCode r r.
Proof. by repeat split. Qed.

Lemma sameCode_trans (a b c : OTPRecord) : sameCode a b -> sameCode b c -> sameCode a c.
Proof. unfold sameCode. intros (?&?&?&?&?&?) (?&?&?&?&?&?). repeat split; congruence. Qed.

Lemma rowsKept_refl (l : list OTPRecord) : rowsKept l l.
Proof. intros j r H. exists r. split; [done |]. split; [apply sameCode_refl | done]. Qed.

Lemma rowsKept_trans (l1 l2 l3 : list OTPRecord) :
  rowsKept l1 l2 -> rowsKept l2 l3 -> rowsKept l1 l3.
Proof.
  intros H12 H23 j r Hj.
  destruct (H12 j r Hj) as (r2 & Hj2 & Hs2 & Hu2).
  destruct (H23 j r2 Hj2) as (r3 & Hj3 & Hs3 & Hu3).
  exists r3. split; [done |]. split; [exact (sameCode_trans _ _ _ Hs2 Hs3) |].
  intros Hu. pose proof (Hu2 Hu) as ->. by apply Hu3.
Qed.

Lemma rowsKept_app (l added : list OTPRecord) : rowsKept l (l ++ added).
Proof.
  intros j r H. exists r. split; [by apply lookup_app_l_Some |].
  split; [apply sameCode_refl | done].
Qed.

Lemma rowsKept_markAllUsed (email purpose : string) (l : list OTPRecord) :
  rowsKept l (markAllUsed email purpose l).
Proof.
  intros j r H. unfold markAllUsed. rewrite list_lookup_fmap, H. cbn.
  eexists. split; [reflexivity |].
  destruct (otp_isUsed r) eqn:Hu.
  - rewrite andb_false_r. split; [apply sameCode_refl | done].
  - destruct (_ && _); (split; [by repeat split | done]).
Qed.

(** Saving the used flag of an unused row keeps the rows. *)
Lemma rowsKept_flag (l : list OTPRecord) (i : nat) (r : OTPRecord) (u : bool) (t : option Z) :
  l !! i = Some r -> otp_isUsed r = false -> rowsKept l (<[i := withUsed u t r]> l).
Proof.
  intros Hi Hu j x Hj. destruct (decide (i = j)) as [<- | Hne].
  - rewrite Hi in Hj. injection Hj as <-.
    exists (withUsed u t r). split.
    + apply list_lookup_insert_eq. by apply lookup_lt_Some in Hi.
    + split; [by repeat split | congruence].
  - exists x. rewrite list_lookup_insert_ne by done.
    split; [done |]. split; [apply sameCode_refl | done].
Qed.

Lemma gate_rowsKept env ph cur rd i r w :
  otps w !! i = Some r ->
  rowsKept (otps w) (otps (verifyAndRegister env ph cur rd i r w)).
Proof.
  intros Hi. unfold verifyAndRegister.
  destruct (otp_isUsed r) eqn:Hu; [apply rowsKept_refl |].
  destruct (_ <? _); [apply rowsKept_refl |].
  destruct (registerUser env _ rd); cbn.
  - by apply rowsKept_flag.
  - rewrite list_insert_insert_eq. by apply rowsKept_flag.
Qed.

Lemma verification_rowsKept env ph s code w :
  rowsKept (otps w) (otps (handleRegistrationOTPVerification env ph s code w)).
Proof.
  unfold handleRegistrationOTPVerification.
  destruct (negb _); [apply rowsKept_refl |].
  destruct (resolveRegistration _ _ _ _ _) as [rd |];
    [| destruct (sessions w !! ph); apply rowsKept_refl].
  set (byE := findLatest (byEmailCode _ _ _) _).
  assert (HE : forall i r, byE = Some (i, r) -> otps w !! i = Some r)
    by (intros i r E; by apply findLatest_Some in E as [? _]).
  destruct (findLatest (byCode _ _) _) as [[i r] |] eqn:EC.
  - apply findLatest_Some in EC as [Hi _].
    destruct (eqs _ _); [by apply gate_rowsKept |].
    destruct byE as [[i' r'] |]; [apply gate_rowsKept; by apply HE | apply rowsKept_refl].
  - destruct byE as [[i' r'] |]; [apply gate_rowsKept; by apply HE | apply rowsKept_refl].
Qed.

Lemma resend_rowsKept env ph s w :
  rowsKept (otps w) (otps (handleResendOTP env ph s w)).
Proof.
  unfold handleResendOTP.
  destruct (usableRegistration _) as [rd |];
    [| destruct (sessions w !! ph); apply rowsKept_refl].
  destruct (generateOTP env); [| apply rowsKept_refl].
  destruct (sendOTPEmail env _ _); cbn;
    (eapply rowsKept_trans; [apply rowsKept_markAllUsed | apply rowsKept_app]).
Qed.

Lemma registration_rowsKept env ph s params w :
  rowsKept (otps w) (otps (handleRegistration env ph s params w)).
Proof.
  destruct (IssueFacts.registration_keeps_rows env ph s params w) as [added ->].
  apply rowsKept_app.
Qed.

(** X4: no sequence of registrations, resends and verifications removes a
    code, moves it, or changes its address, code, purpose, expiry, creation
    time or snapshot; and a code that is used (consumed or superseded) is
    never put back to unused: the revert of a failed registration only
    touches the code that the same verification has just consumed. *)
Theorem used_codes_stay_used (w w' : World) :
  rtc OtpStep w w' -> rowsKept (otps w) (otps w').
Proof.
  induction 1 as [w | w w1 w2 Hstep _ IH]; [apply rowsKept_refl |].
  eapply rowsKept_trans; [| exact IH].
  destruct Hstep;
    [apply registration_rowsKept | apply resend_rowsKept | apply verification_rowsKept].
Qed.

Import Sample.

Lemma used_codes_stay_used_witness :
  rowsKept (otps (worldOf registering [adaCode]))
    (otps (handleRegistrationOTPVerification (env 3000 false true "0000") phone registering
             "4821" (handleResendOTP (env 2000 true true "9999") phone registering
                       (worldOf registering [adaCode])))).
Proof.
  apply used_codes_stay_used.
  eapply rtc_l; [apply StepResend |]. eapply rtc_l; [apply StepVerification |].
  apply rtc_refl.
Defined.

End StepFacts.

(** ** More on the dispatcher *)

Module GateFacts.
Import Text Model Otp Handlers Pagination Dispatcher Spec Steps TextFacts OtpFacts
  PaginationFacts IssueVerifyFacts.

(** A message that starts with a digit is no quick-attach command. *)
Lemma attachMatch_digits (m : string) : isDigitString (trim m) = true -> attachMatch m = None.
Proof.
  unfold attachMatch. destruct (trim m) as [| c r]; [discriminate |].
  cbn [isDigitString allDigits toLowerCase]. intros H.
  apply andb_true_iff in H as [Hc _]. rewrite (lowerChar_digit c Hc).
  cbn [stripPrefix].
  assert (forall k : ascii, isDigit k = false -> Ascii.eqb k c = false) as Hk.
  { intros k Hk. apply Ascii.eqb_neq. intros ->. congruence. }
  rewrite !Hk by reflexivity. reflexivity.
Qed.

Lemma fourDigits_digitString (s : string) : isFourDigits s = true -> isDigitString s = true.
Proof.
  unfold isFourDigits. intros H. apply andb_true_iff in H as [Hl Ha].
  destruct s; [discriminate | exact Ha].
Qed.

Lemma digitString_nonempty (m : string) : isDigitString (trim m) = true -> eqs m "" = false.
Proof. intros H. apply eqs_false. intros ->. discriminate H. Qed.

(** X5: a bare number sent while a product list is open is read as a page
    of the list whenever it lies in [1, totalPages], in every state but the
    support chat: also for a session that waits for its 4-digit code. *)
Theorem number_with_open_list_is_a_page env ph (s : Session) (m : string) (c : Cursor) :
  state s <> SUPPORT_CHAT ->
  data s !! "productPagination" = Some (VCursor c) ->
  isDigitString (trim m) = true ->
  1 <= parseInt10 (trim m) <= totalPages c ->
  route env ph s m = RProductPage (parseInt10 (trim m)) c.
Proof.
  intros Hs Hc Hd Hr. unfold route.
  destruct (decide (state s = SUPPORT_CHAT)); [done |].
  rewrite (attachMatch_digits m Hd).
  unfold navigationTarget, field. rewrite Hc. cbn [from_option id].
  rewrite (parse_complete m (currentPage c) (totalPages c) (parseInt10 (trim m)))
    by (by apply ShapeNumber).
  destruct (Z.eqb_spec (parseInt10 (trim m)) 0); [lia | done].
Qed.

(** X6: without a list that has as many pages as the number typed, a
    4-digit message from a session that is [REGISTERING] or waits for its
    code goes to the verification of the code, with the digits as the
    code. *)
Theorem code_reaches_verification env ph (s : Session) (m : string) :
  state s = REGISTERING \/ (state s <> SUPPORT_CHAT /\ waitingForOTP s = true) ->
  otpMatch m = true ->
  navigationTarget s "productPagination" m = None ->
  navigationTarget s "doctorPagination" m = None ->
  route env ph s m = ROtpVerify (trim m).
Proof.
  intros Hs Hd Hp Hdoc. unfold route.
  destruct (decide (state s = SUPPORT_CHAT)) as [Hsup | _].
  { destruct Hs as [Hs | [Hs _]]; congruence. }
  rewrite (attachMatch_digits m (fourDigits_digitString _ Hd)), Hp, Hdoc, Hd.
  destruct Hs as [-> | [_ ->]]; [done |]. by rewrite orb_true_r.
Qed.

Lemma verification_state env ph s code w f :
  sessions w !! ph = Some f ->
  exists f', sessions (handleRegistrationOTPVerification env ph s code w) !! ph = Some f'
             /\ (state f' = state f \/ state f' = LOGGED_IN).
Proof.
  intros Hf. unfold handleRegistrationOTPVerification. rewrite Hf. cbn [from_option id].
  destruct (negb _); [exists f; cbn; auto |].
  destruct (resolveRegistration _ _ _ _ _) as [rd |];
    [| eexists; cbn; rewrite lookup_insert_eq; auto].
  match goal with
  | |- context [match ?o with Some _ => _ | None => sendWhatsAppMessage _ _ _ end] =>
      destruct o as [[i r] |]
  end; [| exists f; cbn; auto].
  unfold verifyAndRegister.
  destruct (otp_isUsed r); [exists f; cbn; auto |].
  destruct (_ <? _); [exists f; cbn; auto |].
  destruct (registerUser env _ rd); eexists; cbn; rewrite lookup_insert_eq; auto.
Qed.

Lemma resend_state env ph s w f :
  sessions w !! ph = Some f ->
  exists f', sessions (handleResendOTP env ph s w) !! ph = Some f' /\ state f' = state f.
Proof.
  intros Hf. unfold handleResendOTP. rewrite Hf. cbn [from_option id].
  destruct (usableRegistration _); [| eexists; cbn; rewrite lookup_insert_eq; auto].
  destruct (generateOTP env); [| exists f; cbn; auto].
  destruct (sendOTPEmail env _ _); eexists; cbn; rewrite lookup_insert_eq; auto.
Qed.

Lemma waiting_never_classified env ph (s : Session) (m : string) :
  state s = REGISTERING -> waitingForOTP s = true ->
  gateOf (route env ph s m) <> GIntent.
Proof.
  intros Hs Hw. unfold route. rewrite Hs, Hw.
  destruct (decide _); [done |].
  destruct (attachMatch m); [by destruct (truthy _) |].
  destruct (navigationTarget _ "productPagination" m) as [[? ?] |]; [done |].
  destruct (navigationTarget _ "doctorPagination" m) as [[? ?] |]; [done |].
  cbn. destruct (otpMatch m); [done |]. by destruct (resendMatch m).
Qed.

Lemma support_route_in_support_chat env ph (s : Session) (m : string) :
  gateOf (route env ph s m) = GSupport -> state s = SUPPORT_CHAT.
Proof.
  unfold route. destruct (decide _); [done |].
  destruct (attachMatch m); [by destruct (truthy _) |].
  destruct (navigationTarget _ "productPagination" m) as [[? ?] |]; [done |].
  destruct (navigationTarget _ "doctorPagination" m) as [[? ?] |]; [done |].
  unfold routeIntent.
  repeat match goal with
         | |- context [if ?b then _ else _] => destruct b
         end; done.
Qed.

(** X7: a session that is [REGISTERING] and waits for its code is locked
    to the code: whatever the message, the classifier is not asked, and
    after the event the session is still [REGISTERING] or, the code
    verified, [LOGGED_IN]; it cannot log in, log out, register again or
    enter the support chat. *)
Theorem waiting_session_is_locked env ph (m : string) (w : World) (s : Session) :
  sessions w !! ph = Some s ->
  state s = REGISTERING ->
  waitingForOTP s = true ->
  gateOf (route env ph s m) <> GIntent
  /\ exists s', sessions (handleCustomerMessage env ph m w) !! ph = Some s'
                /\ (state s' = REGISTERING \/ state s' = LOGGED_IN).
Proof.
  intros Hf Hs Hw. split; [by apply waiting_never_classified |].
  unfold handleCustomerMessage.
  destruct (rateLimitAllowed env); cbn [negb]; [| exists s; cbn; auto].
  rewrite Hf. cbn [from_option id].
  set (s0 := withLastActivity (Some (now env)) s).
  assert (Hs0 : state s0 = REGISTERING) by done.
  assert (Hw0 : waitingForOTP s0 = true) by done.
  rewrite IdleFacts.idle_noop by (rewrite Hs0; discriminate).
  rewrite bool_decide_eq_false_2 by (rewrite Hs0; discriminate).
  set (w0 := saveSession ph s0 w).
  assert (Hf0 : sessions w0 !! ph = Some s0) by (cbn; by rewrite lookup_insert_eq).
  pose proof (waiting_never_classified env ph s0 m Hs0 Hw0) as Hg.
  assert (Hsup : gateOf (route env ph s0 m) <> GSupport).
  { intros Hsup. apply support_route_in_support_chat in Hsup. congruence. }
  destruct (route env ph s0 m) eqn:Er; cbn [gateOf] in Hg, Hsup; try done;
    cbn [runRoute].
  - destruct (savePrescription env _ _ _).
    + eexists. cbn. rewrite lookup_insert_eq. split; [done | by left].
    + exists s0. cbn. rewrite lookup_insert_eq. split; [done | by left].
  - exists s0. cbn. rewrite lookup_insert_eq. split; [done | by left].
  - destruct (listAllProductsPaginated env _ _).
    + eexists. cbn. rewrite lookup_insert_eq. split; [done | by left].
    + exists s0. cbn. rewrite lookup_insert_eq. split; [done | by left].
  - destruct (searchDoctorsPaginated env _ _ _ _).
    + eexists. cbn. rewrite lookup_insert_eq. split; [done | by left].
    + exists s0. cbn. rewrite lookup_insert_eq. split; [done | by left].
  - destruct (verification_state env ph s0 code0 w0 s0 Hf0) as (f' & Hf' & Hst).
    exists f'. split; [done |]. rewrite Hs0 in Hst. exact Hst.
  - destruct (resend_state env ph s0 w0 s0 Hf0) as (f' & Hf' & Hst).
    exists f'. split; [done |]. left. by rewrite Hst.
  - exists s0. cbn. rewrite lookup_insert_eq. split; [done | by left].
Qed.

Import Sample.

Lemma number_with_open_list_is_a_page_witness :
  route (env 2000 true true "0000") phone registeringWithCursor "0003"
  = RProductPage (parseInt10 (trim "0003")) (mkCursor 1 5 5).
Proof.
  apply number_with_open_list_is_a_page; try concrete. vm_compute. by split.
Defined.

Lemma code_reaches_verification_witness :
  route (env 2000 true true "0000") phone registering " 4821 " = ROtpVerify (trim " 4821 ").
Proof. apply code_reaches_verification; try concrete. by left. Defined.

Lemma waiting_session_is_locked_witness :
  gateOf (route (env 2000 true true "0000") phone registering "logout") <> GIntent
  /\ exists s', sessions (handleCustomerMessage (env 2000 true true "0000") phone "logout"
                            (worldOf registering [adaCode])) !! phone = Some s'
                /\ (state s' = REGISTERING \/ state s' = LOGGED_IN).
Proof. apply waiting_session_is_locked; concrete. Defined.

End GateFacts.

(** ** The idle clock, logout, and the pending upload *)

Module SessionFacts.
Import Text Model Otp Handlers Pagination Dispatcher Spec Steps TextFacts OtpFacts
  IssueVerifyFacts GateFacts.

Lemma field_Some (d : gmap string value) (k : string) (v : value) :
  field d k = v -> v <> VNull -> d !! k = Some v.
Proof. unfold field. destruct (d !! k); cbn; intros; congruence. Qed.

(** X8: every event of a logged-in session restarts its idle clock: after
    a check that kept the session, the next check logs it out exactly when
    the time between the two events exceeds the timeout. *)
Theorem idle_clock_restarts env1 env2 (s s1 : Session) :
  state s = LOGGED_IN ->
  sessionIdleCheck env1 s = IdleActive s1 ->
  (exists s2, sessionIdleCheck env2 s1 = IdleExpired s2) <->
  now env2 - now env1 > idleMs env2.
Proof.
  intros Hs Hi.
  destruct (IdleFacts.idle_active_keeps env1 s s1 Hi) as (Hst & Ht & _).
  specialize (Ht Hs). apply field_Some in Ht; [| discriminate].
  rewrite (IdleFacts.idle_expired_iff env2 s1) by congruence.
  rewrite (IdleFacts.tokenLastUsed_time s1 _ Ht). split; [| eauto].
  by intros (t & [= <-] & ?).
Qed.

Lemma route_of_blank env ph (s : Session) (m : string) :
  state s = NEW -> data s = ∅ -> attachMatch m = None ->
  route env ph s m = routeIntent env ph s m.
Proof.
  intros Hs Hd Ha. unfold route, navigationTarget, waitingForOTP, field.
  rewrite Hs, Hd, Ha, !lookup_empty. cbn [from_option truthy].
  destruct (decide _); [done |]. by rewrite bool_decide_eq_false_2.
Qed.

(** X9: logout is total. After a logout, the next message that is no
    quick-attach command and that the classifier reads as an
    authenticated-only intent is answered with the authentication notice
    alone: no handler runs and nothing but the time of the last activity is
    stored. *)
Theorem logout_then_gated_intent env ph (s : Session) (w : World) (m : string) :
  rateLimitAllowed env = true ->
  attachMatch m = None ->
  authenticatedOnly
    (intent (classify env m ph (mkSession NEW ∅ (Some (now env)) (supportTeamId s)))) = true ->
  handleCustomerMessage env ph m (handleLogout ph s w)
  = sendWhatsAppMessage ph (Plain TAuthRequired)
      (saveSession ph (mkSession NEW ∅ (Some (now env)) (supportTeamId s))
         (handleLogout ph s w)).
Proof.
  intros Hr Ha Hi. unfold handleCustomerMessage. rewrite Hr. cbn [negb].
  rewrite InvariantFacts.logout_commit. cbn [from_option id].
  set (s0 := withLastActivity _ _).
  change s0 with (mkSession NEW ∅ (Some (now env)) (supportTeamId s)) in *.
  clear s0. set (s0 := mkSession NEW ∅ (Some (now env)) (supportTeamId s)) in *.
  rewrite IdleFacts.idle_noop by discriminate.
  rewrite bool_decide_eq_false_2 by discriminate.
  rewrite (route_of_blank env ph s0 m) by done.
  unfold routeIntent. rewrite Hi.
  assert (isAuthenticatedSession (argOf s0) = false) as -> by reflexivity.
  reflexivity.
Qed.

(** X10: an upload kept pending is linked by the next quick-attach
    command. After the media branch stored the file of [url], a command
    [rx N], [attach N] or [link N] is served by the attach gate; the file
    is saved for order [N] with the stored address, the pending fields are
    then cleared, and the same command answers that nothing is pending. An
    upload without recognised text leaves the text of an earlier pending
    upload in place. *)
Theorem pending_upload_then_attach env ph (url text : string) (w : World) (m orderId : string) :
  url <> "" ->
  state (priorSession ph w) <> SUPPORT_CHAT ->
  attachMatch m = Some orderId ->
  exists s1,
    sessions (webhookPendingPrescription ph url text w) !! ph = Some s1
    /\ route env ph s1 m = RAttach orderId
    /\ field (data s1) "pendingPrescriptionUrl" = VStr url
    /\ field (data s1) "pendingPrescriptionExtractedText"
       = (if eqs text "" then field (data (priorSession ph w)) "pendingPrescriptionExtractedText"
          else VStr text)
    /\ forall w1,
        savePrescription env orderId (VStr url)
          (orNull (field (data s1) "pendingPrescriptionExtractedText")) = true ->
        exists w2 s2,
          runRoute env ph s1 (RAttach orderId) w1 = Done w2
          /\ sessions w2 !! ph = Some s2
          /\ lastSent w2 = Some (TAttachOk orderId)
          /\ field (data s2) "pendingPrescriptionUrl" = VNull
          /\ field (data s2) "pendingPrescriptionExtractedText" = VNull
          /\ route env ph s2 m = RAttachNothingPending.
Proof.
  intros Hu Hst Ha.
  unfold webhookPendingPrescription. fold (priorSession ph w).
  set (p := priorSession ph w) in *.
  set (s1 := if eqs text "" then setField "pendingPrescriptionUrl" (VStr url) p
             else setField "pendingPrescriptionExtractedText" (VStr text)
                    (setField "pendingPrescriptionUrl" (VStr url) p)).
  assert (Hs1 : state s1 = state p) by (unfold s1; by destruct (eqs text "")).
  assert (Hurl : field (data s1) "pendingPrescriptionUrl" = VStr url).
  { unfold s1, setField, field. destruct (eqs text ""); cbn [data withData]; by simplify_map_eq. }
  assert (Htext : field (data s1) "pendingPrescriptionExtractedText"
                  = (if eqs text "" then field (data p) "pendingPrescriptionExtractedText"
                     else VStr text)).
  { unfold s1, setField, field. destruct (eqs text ""); cbn [data withData]; by simplify_map_eq. }
  assert (Hroute : forall s : Session, state s = state p -> route env ph s m
                     = if truthy (field (data s) "pendingPrescriptionUrl")
                       then RAttach orderId else RAttachNothingPending).
  { intros s Hs. unfold route. rewrite Ha. destruct (decide _); [congruence | done]. }
  exists s1. split; [cbn; by rewrite lookup_insert_eq |].
  split.
  { rewrite (Hroute s1 Hs1), Hurl. cbn. by apply eqs_false in Hu as ->. }
  split; [exact Hurl |]. split; [exact Htext |].
  intros w1 Hsave. cbn [runRoute]. rewrite Hurl, Hsave.
  eexists _, _. split; [reflexivity |].
  split; [cbn; by rewrite lookup_insert_eq |].
  split; [apply lastSent_send |].
  assert (Hnull : forall k, k = "pendingPrescriptionUrl" \/ k = "pendingPrescriptionExtractedText" ->
            field (data (setField "pendingPrescriptionExtractedText" VNull
                           (setField "pendingPrescriptionUrl" VNull s1))) k = VNull).
  { intros k [-> | ->]; unfold setField, field; cbn [data withData]; by simplify_map_eq. }
  split; [apply Hnull; by left |]. split; [apply Hnull; by right |].
  rewrite Hroute by done. rewrite Hnull by (by left). reflexivity.
Qed.

Import Sample.

Lemma idle_clock_restarts_witness :
  (exists s2, sessionIdleCheck (env 700000 true true "0000")
                (setField "tokenLastUsed" (VTime 1000) (loggedInSince 0)) = IdleExpired s2) <->
  now (env 700000 true true "0000") - now (env 1000 true true "0000")
  > idleMs (env 700000 true true "0000").
Proof.
  apply (idle_clock_restarts (env 1000 true true "0000") (env 700000 true true "0000")
           (loggedInSince 0)); concrete.
Defined.

Lemma logout_then_gated_intent_witness :
  handleCustomerMessage (env 2000 true true "0000") phone "cart"
    (handleLogout phone (loggedInSince 0) (worldOf (loggedInSince 0) []))
  = sendWhatsAppMessage phone (Plain TAuthRequired)
      (saveSession phone (mkSession NEW ∅ (Some (now (env 2000 true true "0000")))
                            (supportTeamId (loggedInSince 0)))
         (handleLogout phone (loggedInSince 0) (worldOf (loggedInSince 0) []))).
Proof. apply logout_then_gated_intent; concrete. Defined.

Lemma pending_upload_then_attach_witness :
  exists s1,
    sessions (webhookPendingPrescription phone "https://files.example/rx.png" "" emptyWorld)
      !! phone = Some s1
    /\ route (env 2000 true true "0000") phone s1 "rx 12345" = RAttach "12345"
    /\ field (data s1) "pendingPrescriptionUrl" = VStr "https://files.example/rx.png"
    /\ field (data s1) "pendingPrescriptionExtractedText"
       = (if eqs "" "" then field (data (priorSession phone emptyWorld))
                             "pendingPrescriptionExtractedText"
          else VStr "")
    /\ forall w1,
        savePrescription (env 2000 true true "0000") "12345"
          (VStr "https://files.example/rx.png")
          (orNull (field (data s1) "pendingPrescriptionExtractedText")) = true ->
        exists w2 s2,
          runRoute (env 2000 true true "0000") phone s1 (RAttach "12345") w1 = Done w2
          /\ sessions w2 !! phone = Some s2
          /\ lastSent w2 = Some (TAttachOk "12345")
          /\ field (data s2) "pendingPrescriptionUrl" = VNull
          /\ field (data s2) "pendingPrescriptionExtractedText" = VNull
          /\ route (env 2000 true true "0000") phone s2 "rx 12345" = RAttachNothingPending.
Proof. apply pending_upload_then_attach; concrete. Defined.

End SessionFacts.


(** * The landing page link *)

Module LandingFacts.
Import Text Landing.

Lemma digitsOf_allDigits (s : string) : allDigits (digitsOf s) = true.
Proof.
  induction s as [|c r IH]; [reflexivity|].
  cbn [digitsOf]. destruct (isDigit c) eqn:Hc; [|exact IH].
  cbn [allDigits]. rewrite Hc. exact IH.
Qed.

Lemma dropLeadingZeros_allDigits (s : string) :
  allDigits s = true -> allDigits (dropLeadingZeros s) = true.
Proof.
  induction s as [|c r IH]; [reflexivity|].
  intros H. pose proof H as H'. cbn [allDigits] in H'.
  apply andb_true_iff in H' as [_ Hr].
  cbn [dropLeadingZeros].
  destruct c as [[] [] [] [] [] [] [] []]; try exact H. exact (IH Hr).
Qed.

Lemma dropLeadingZeros_start (s : string) : startsWithZero (dropLeadingZeros s) = false.
Proof.
  induction s as [|c r IH]; [reflexivity|].
  cbn [dropLeadingZeros].
  destruct c as [[] [] [] [] [] [] [] []]; try reflexivity. exact IH.
Qed.

Lemma digitsOf_id (s : string) : allDigits s = true -> digitsOf s = s.
Proof.
  induction s as [|c r IH]; [reflexivity|].
  cbn [allDigits digitsOf]. intros [Hc Hr]%andb_true_iff.
  rewrite Hc, (IH Hr). reflexivity.
Qed.

Lemma formatPhoneForWa_allDigits (raw : string) : allDigits (formatPhoneForWa raw) = true.
Proof.
  unfold formatPhoneForWa. destruct (eqs raw ""); [reflexivity|]. cbn zeta.
  destruct (startsWithZero (digitsOf raw)).
  - apply dropLeadingZeros_allDigits, digitsOf_allDigits.
  - apply digitsOf_allDigits.
Qed.

Lemma formatPhoneForWa_start (raw : string) : startsWithZero (formatPhoneForWa raw) = false.
Proof.
  unfold formatPhoneForWa. destruct (eqs raw ""); [reflexivity|]. cbn zeta.
  destruct (startsWithZero (digitsOf raw)) eqn:Hz; [apply dropLeadingZeros_start | exact Hz].
Qed.

Lemma formatPhoneForWa_fixed (s : string) :
  allDigits s = true -> startsWithZero s = false -> formatPhoneForWa s = s.
Proof.
  intros Hd Hz. unfold formatPhoneForWa.
  destruct (eqs s "") eqn:He; [apply String.eqb_eq in He; congruence|]. cbn zeta.
  rewrite (digitsOf_id _ Hd), Hz. reflexivity.
Qed.

Lemma dropPlus_digits (s : string) : allDigits s = true -> dropPlus s = s.
Proof.
  destruct s as [|c r]; [reflexivity|].
  cbn [allDigits]. intros [Hc _]%andb_true_iff.
  destruct c as [[] [] [] [] [] [] [] []]; try reflexivity; discriminate Hc.
Qed.

(** The zeros in front of a string of digits, and what follows them. *)
Lemma dropLeadingZeros_split (s : string) :
  exists zeros, s = (zeros ++ dropLeadingZeros s)%string /\ digitsOf zeros = zeros
                /\ dropLeadingZeros zeros = "".
Proof.
  induction s as [|c r (zeros & Hs & Hd & Hz)].
  - exists "". repeat split.
  - destruct (Ascii.eqb c "0") eqn:Hc.
    + apply Ascii.eqb_eq in Hc. subst c. exists (String "0" zeros).
      cbn [dropLeadingZeros append digitsOf]. repeat split.
      * exact (f_equal (String "0") Hs).
      * change (isDigit "0") with true. cbv iota. exact (f_equal (String "0") Hd).
      * exact Hz.
    + exists "". repeat split.
      destruct c as [[] [] [] [] [] [] [] []]; try reflexivity; discriminate Hc.
Qed.

(** X11: whatever the configured text, the number [formatPhoneForWa] gives
    holds digits only and does not start with a zero; it is the digits of
    the text in their order, less the zeros in front — nothing, no country
    code, is put before them — and formatting an already formatted number
    changes nothing. *)
Theorem formatPhoneForWa_normal_form (raw : string) :
  allDigits (formatPhoneForWa raw) = true
  /\ startsWithZero (formatPhoneForWa raw) = false
  /\ (exists zeros, digitsOf raw = (zeros ++ formatPhoneForWa raw)%string
                    /\ dropLeadingZeros zeros = "")
  /\ formatPhoneForWa (formatPhoneForWa raw) = formatPhoneForWa raw.
Proof.
  split; [apply formatPhoneForWa_allDigits|].
  split; [apply formatPhoneForWa_start|].
  split.
  - unfold formatPhoneForWa. destruct (eqs raw "") eqn:He.
    + apply String.eqb_eq in He. subst raw. exists "". split; reflexivity.
    + cbn zeta. destruct (startsWithZero (digitsOf raw)) eqn:Hz.
      * destruct (dropLeadingZeros_split (digitsOf raw)) as (zeros & Hs & _ & Hz').
        exists zeros. split; [exact Hs | exact Hz'].
      * exists "". split; reflexivity.
  - apply formatPhoneForWa_fixed;
      [apply formatPhoneForWa_allDigits | apply formatPhoneForWa_start].
Qed.

Lemma dropLeadingZeros_fixed (s : string) : startsWithZero s = false -> dropLeadingZeros s = s.
Proof.
  destruct s as [|c r]; [reflexivity|].
  destruct c as [[] [] [] [] [] [] [] []]; try reflexivity; discriminate.
Qed.

Lemma formatPhoneForWa_drop (raw : string) :
  formatPhoneForWa raw = dropLeadingZeros (digitsOf raw).
Proof.
  unfold formatPhoneForWa. destruct (eqs raw "") eqn:He.
  - apply String.eqb_eq in He. subst raw. reflexivity.
  - cbn zeta. destruct (startsWithZero (digitsOf raw)) eqn:Hz; [reflexivity|].
    symmetry. apply dropLeadingZeros_fixed, Hz.
Qed.

(** X12: on the landing page the removal of a leading [+] never changes the
    number, [formatPhoneForWa] having left digits only; a variable that is
    not set, or is empty, gives the link to the default number
    [15551751458]; and the page shows the dead link [#] exactly when the
    variable is set to a text that is not empty and holds no digit other
    than zero, the link to the formatted number otherwise. *)
Theorem waHref_link (configured : option string) :
  phoneDigits configured = formatPhoneForWa (rawPhone configured)
  /\ waHref None = "https://wa.me/15551751458?text=Hello"
  /\ waHref (Some "") = "https://wa.me/15551751458?text=Hello"
  /\ (waHref configured = "#"
      <-> exists p, configured = Some p /\ p <> ""
                    /\ dropLeadingZeros (digitsOf p) = "")
  /\ (waHref configured = "#"
      \/ waHref configured
         = ("https://wa.me/" ++ dropLeadingZeros (digitsOf (rawPhone configured))
            ++ "?text=Hello")%string).
Proof.
  assert (Hp : phoneDigits configured = formatPhoneForWa (rawPhone configured))
    by (apply dropPlus_digits, formatPhoneForWa_allDigits).
  split; [exact Hp|]. split; [reflexivity|]. split; [reflexivity|].
  unfold waHref. cbn zeta. rewrite Hp, formatPhoneForWa_drop.
  destruct (eqs (dropLeadingZeros (digitsOf (rawPhone configured))) "") eqn:He.
  - apply String.eqb_eq in He. split; [|left; reflexivity].
    split; [intros _|reflexivity].
    destruct configured as [p|]; [|discriminate He].
    unfold rawPhone in He. destruct (eqs p "") eqn:Hp0; [discriminate He|].
    apply String.eqb_neq in Hp0. exists p. repeat split; assumption.
  - apply String.eqb_neq in He. split; [|right; reflexivity].
    split; [discriminate|].
    intros (p & -> & Hne & Hz). exfalso. apply He.
    unfold rawPhone. apply String.eqb_neq in Hne. unfold eqs. rewrite Hne. exact Hz.
Qed.

End LandingFacts.


(** * Order ids read from free text *)

Module StringFacts.
Import Text OrderParser Substring.

Lemma str_app_nil_r (s : string) : (s ++ "")%string = s.
Proof. induction s as [|c r IH]; [reflexivity|]. exact (f_equal (String c) IH). Qed.

Lemma str_app_assoc (a b c : string) : ((a ++ b) ++ c)%string = (a ++ (b ++ c))%string.
Proof. induction a as [|x r IH]; [reflexivity|]. exact (f_equal (String x) IH). Qed.

Lemma str_length_app (a b : string) :
  String.length (a ++ b) = (String.length a + String.length b)%nat.
Proof. induction a as [|x r IH]; [reflexivity|]. exact (f_equal S IH). Qed.

Lemma occursIn_refl (s : string) : occursIn s s.
Proof. exists "", "". symmetry. exact (str_app_nil_r s). Qed.

Lemma occursIn_trans (a b c : string) : occursIn a b -> occursIn b c -> occursIn a c.
Proof.
  intros (x & y & ->) (x' & y' & ->).
  exists (x' ++ x)%string, (y ++ y')%string.
  rewrite !str_app_assoc. reflexivity.
Qed.

Lemma occursIn_prefix (a b : string) : occursIn a (a ++ b).
Proof. exists "", b. reflexivity. Qed.

Lemma occursIn_suffix (a b : string) : occursIn b (a ++ b).
Proof. exists a, "". rewrite str_app_nil_r. reflexivity. Qed.

Lemma occursIn_cons (c : ascii) (a s : string) : occursIn a s -> occursIn a (String c s).
Proof.
  intros H. apply (occursIn_trans _ s); [exact H|].
  exact (occursIn_suffix (String c "") s).
Qed.

Lemma allChars_app (p : ascii -> bool) (a b : string) :
  allChars p (a ++ b) = allChars p a && allChars p b.
Proof.
  induction a as [|x r IH]; [reflexivity|].
  change (allChars p (String x (r ++ b)) = p x && allChars p r && allChars p b).
  cbn [allChars]. rewrite IH. apply andb_assoc.
Qed.

Lemma allChars_occursIn (p : ascii -> bool) (a s : string) :
  occursIn a s -> allChars p s = true -> allChars p a = true.
Proof.
  intros (x & y & ->). rewrite !allChars_app.
  intros [_ [H _]%andb_true_iff]%andb_true_iff. exact H.
Qed.

Lemma allChars_impl (p q : ascii -> bool) (s : string) :
  (forall c, p c = true -> q c = true) -> allChars p s = true -> allChars q s = true.
Proof.
  intros Hpq. induction s as [|c r IH]; [reflexivity|].
  cbn [allChars]. intros [Hc Hr]%andb_true_iff. rewrite (Hpq _ Hc). exact (IH Hr).
Qed.

Lemma allChars_digits (s : string) : allChars isDigit s = allDigits s.
Proof.
  induction s as [|c r IH]; [reflexivity|]. cbn [allChars allDigits]. rewrite IH. reflexivity.
Qed.

Lemma digit_idChar (c : ascii) : isDigit c = true -> isIdChar c = true.
Proof. unfold isIdChar, isWord. intros ->. rewrite orb_true_r. reflexivity. Qed.

Lemma trimStart_suffix (s : string) : exists a, s = (a ++ trimStart s)%string.
Proof.
  induction s as [|c r (a & IH)]; [exists ""; reflexivity|].
  cbn [trimStart]. destruct (isSpace c).
  - exists (String c a). exact (f_equal (String c) IH).
  - exists "". reflexivity.
Qed.

Lemma trimEnd_prefix (s : string) : exists b, s = (trimEnd s ++ b)%string.
Proof.
  induction s as [|c r (b & IH)]; [exists ""; reflexivity|].
  cbn [trimEnd]. destruct (trimEnd r) as [|c' r'] eqn:Hr.
  - destruct (isSpace c).
    + exists (String c r). reflexivity.
    + exists r. reflexivity.
  - exists b. exact (f_equal (String c) IH).
Qed.

Lemma trim_occursIn (s : string) : occursIn (trim s) s.
Proof.
  unfold trim. destruct (trimStart_suffix s) as (a & Ha).
  destruct (trimEnd_prefix (trimStart s)) as (b & Hb).
  exists a, b. rewrite <- Hb. exact Ha.
Qed.

Lemma spanWhile_spec (p : ascii -> bool) (s : string) :
  s = (fst (spanWhile p s) ++ snd (spanWhile p s))%string
  /\ allChars p (fst (spanWhile p s)) = true.
Proof.
  induction s as [|c r [IH1 IH2]]; [split; reflexivity|].
  cbn [spanWhile]. destruct (p c) eqn:Hc; [|split; reflexivity].
  destruct (spanWhile p r) as [a b]. cbn [fst snd] in *. split.
  - exact (f_equal (String c) IH1).
  - cbn [allChars]. rewrite Hc. exact IH2.
Qed.

Lemma spanWhile_all (p : ascii -> bool) (s : string) :
  allChars p s = true -> spanWhile p s = (s, "").
Proof.
  induction s as [|c r IH]; [reflexivity|].
  cbn [allChars spanWhile]. intros [Hc Hr]%andb_true_iff.
  rewrite Hc, (IH Hr). reflexivity.
Qed.

Lemma spanWhile_app (p : ascii -> bool) (a b : string) :
  allChars p a = true -> fst (spanWhile p (a ++ b)) = (a ++ fst (spanWhile p b))%string.
Proof.
  induction a as [|c r IH]; [reflexivity|].
  cbn [allChars]. intros [Hc Hr]%andb_true_iff.
  change (fst (spanWhile p (String c (r ++ b))) = String c (r ++ fst (spanWhile p b))).
  cbn [spanWhile]. rewrite Hc. specialize (IH Hr).
  destruct (spanWhile p (r ++ b)) as [x y]. cbn [fst] in *. rewrite IH. reflexivity.
Qed.

Lemma takeStr_prefix (n : nat) (s : string) : exists b, s = (takeStr n s ++ b)%string.
Proof.
  revert s. induction n as [|n IH]; intros s.
  - exists s. destruct s; reflexivity.
  - destruct s as [|c r]; [exists ""; reflexivity|].
    destruct (IH r) as (b & Hb). exists b. exact (f_equal (String c) Hb).
Qed.

Lemma takeStr_length (n : nat) (s : string) :
  String.length (takeStr n s) = Nat.min n (String.length s).
Proof.
  revert s. induction n as [|n IH]; intros s; [destruct s; reflexivity|].
  destruct s as [|c r]; [reflexivity|]. cbn [takeStr String.length]. rewrite IH. reflexivity.
Qed.

Lemma takeStr_all (n : nat) (s : string) : (String.length s <= n)%nat -> takeStr n s = s.
Proof.
  revert s. induction n as [|n IH]; intros s Hn.
  - destruct s; [reflexivity | cbn in Hn; lia].
  - destruct s as [|c r]; [reflexivity|]. cbn [takeStr]. rewrite IH; [reflexivity|].
    cbn in Hn. lia.
Qed.

Lemma takeStr_occursIn (n : nat) (s : string) : occursIn (takeStr n s) s.
Proof.
  destruct (takeStr_prefix n s) as (b & Hb). exists "", b. exact Hb.
Qed.

Lemma stripPrefixCI_suffix (kw s rest : string) :
  stripPrefixCI kw s = Some rest -> exists a, s = (a ++ rest)%string.
Proof.
  revert s. induction kw as [|k kw IH]; intros s.
  - cbn. intros [= ->]. exists "". reflexivity.
  - destruct s as [|c r]; [discriminate|]. cbn [stripPrefixCI].
    destruct (Ascii.eqb k (lowerChar c)); [|discriminate].
    intros (a & Ha)%IH. exists (String c a). exact (f_equal (String c) Ha).
Qed.

Lemma stripPrefixCI_lower (kw rest : string) :
  stripPrefixCI (toLowerCase kw) (kw ++ rest) = Some rest.
Proof.
  induction kw as [|c r IH]; [destruct rest; reflexivity|].
  change (stripPrefixCI (String (lowerChar c) (toLowerCase r)) (String c (r ++ rest))
          = Some rest).
  cbn [stripPrefixCI]. rewrite Ascii.eqb_refl. exact IH.
Qed.

End StringFacts.


Module OrderParserFacts.
Import Text OrderParser Substring OrderSpec StringFacts.

Lemma captionAt_wellFormed (prev : option ascii) (s id : string) :
  captionAt prev s = Some id ->
  wellFormedIn s id /\ (2 <= String.length id <= 50)%nat.
Proof.
  unfold captionAt. destruct (wordBefore prev); [discriminate|].
  destruct (orElseStr _ _) as [rest|] eqn:Hkw; [|discriminate].
  destruct (wordAt rest); [discriminate|]. cbn zeta.
  set (idAt := match trimStart rest with String "#" r => r | _ => trimStart rest end).
  destruct (2 <=? String.length (fst (spanWhile isIdChar idAt)))%nat eqn:Hlen; [|discriminate].
  intros Hid.
  assert (id = takeStr 50 (fst (spanWhile isIdChar idAt))) as -> by congruence. clear Hid.
  apply Nat.leb_le in Hlen.
  destruct (spanWhile_spec isIdChar idAt) as [Hsplit Hall].
  assert (Hrest : occursIn rest s).
  { assert (exists a, s = (a ++ rest)%string) as (a & ->).
    { unfold orElseStr in Hkw.
      destruct (stripPrefixCI "rx" s) eqn:H1;
        [injection Hkw as ->; exact (stripPrefixCI_suffix _ _ _ H1)|].
      destruct (stripPrefixCI "order" s) eqn:H2;
        [injection Hkw as ->; exact (stripPrefixCI_suffix _ _ _ H2)|].
      exact (stripPrefixCI_suffix _ _ _ Hkw). }
    apply occursIn_suffix. }
  assert (HidAt : occursIn idAt rest).
  { destruct (trimStart_suffix rest) as (a & Ha).
    apply (occursIn_trans _ (trimStart rest)); [|rewrite Ha at 2; apply occursIn_suffix].
    subst idAt. destruct (trimStart rest) as [|c r]; [apply occursIn_refl|].
    destruct (Ascii.eqb c "#") eqn:Hc.
    - apply Ascii.eqb_eq in Hc. subst c. apply occursIn_cons, occursIn_refl.
    - destruct c as [[] [] [] [] [] [] [] []]; try apply occursIn_refl; discriminate Hc. }
  assert (Hrun : occursIn (fst (spanWhile isIdChar idAt)) idAt)
    by (rewrite Hsplit at 2; apply occursIn_prefix).
  pose proof (takeStr_length 50 (fst (spanWhile isIdChar idAt))) as Hl.
  repeat split.
  - exact (occursIn_trans _ _ _ (takeStr_occursIn 50 _)
             (occursIn_trans _ _ _ Hrun (occursIn_trans _ _ _ HidAt Hrest))).
  - exact (allChars_occursIn _ _ _ (takeStr_occursIn 50 _) Hall).
  - lia.
  - lia.
  - lia.
Qed.

Lemma searchCaption_wellFormed (s : string) (prev : option ascii) (id : string) :
  searchCaption prev s = Some id ->
  wellFormedIn s id /\ (2 <= String.length id <= 50)%nat.
Proof.
  revert prev. induction s as [|c r IH]; intros prev; cbn [searchCaption].
  - destruct (captionAt prev "") eqn:Hc; [|discriminate].
    intros [= ->]. exact (captionAt_wellFormed _ _ _ Hc).
  - destruct (captionAt prev (String c r)) eqn:Hc.
    + intros [= ->]. exact (captionAt_wellFormed _ _ _ Hc).
    + intros [(Ho & Ha & Hl) Hb]%IH. repeat split; try assumption; try lia.
      apply occursIn_cons, Ho.
Qed.

Lemma txRefAt_wellFormed (s id : string) :
  txRefAt s = Some id -> wellFormedIn s id /\ allDigits id = true.
Proof.
  unfold txRefAt. destruct (stripPrefixCI "drugsng" s) as [[|c r]|] eqn:Hp; try discriminate.
  destruct (_ || _)%bool; [|discriminate]. cbn zeta.
  destruct (eqs (fst (spanWhile isDigit r)) "") eqn:He; [discriminate|].
  intros [= <-]. apply String.eqb_neq in He.
  destruct (spanWhile_spec isDigit r) as [Hsplit Hall].
  destruct (stripPrefixCI_suffix _ _ _ Hp) as (a & ->).
  repeat split.
  - apply (occursIn_trans _ r); [rewrite Hsplit at 2; apply occursIn_prefix|].
    apply (occursIn_trans _ (String c r)); [apply occursIn_cons, occursIn_refl|].
    apply occursIn_suffix.
  - exact (allChars_impl _ _ _ digit_idChar Hall).
  - destruct (fst (spanWhile isDigit r)); [congruence | cbn; lia].
  - rewrite <- allChars_digits. exact Hall.
Qed.

Lemma searchTxRef_wellFormed (s id : string) :
  searchTxRef s = Some id -> wellFormedIn s id /\ allDigits id = true.
Proof.
  induction s as [|c r IH]; cbn [searchTxRef].
  - destruct (txRefAt "") eqn:Hc; [|discriminate].
    intros [= ->]. exact (txRefAt_wellFormed _ _ Hc).
  - destruct (txRefAt (String c r)) eqn:Hc.
    + intros [= ->]. exact (txRefAt_wellFormed _ _ Hc).
    + intros [(Ho & Ha & Hl) Hb]%IH. repeat split; try assumption.
      apply occursIn_cons, Ho.
Qed.

(** The runs of a class: each one is written in the text, holds characters
    of the class only and is not empty. *)
Lemma runsFrom_spec (p : ascii -> bool) (s run x : string) :
  allChars p run = true -> In x (runsFrom p run s) ->
  occursIn x (run ++ s) /\ allChars p x = true /\ (1 <= String.length x)%nat.
Proof.
  revert run. induction s as [|c r IH]; intros run Hrun; cbn [runsFrom].
  - unfold closeRun. destruct (eqs run "") eqn:He; [intros []|].
    intros [<-|[]]. apply String.eqb_neq in He. rewrite str_app_nil_r.
    repeat split; [apply occursIn_refl | exact Hrun |].
    destruct run; [congruence | cbn; lia].
  - destruct (p c) eqn:Hc.
    + intros Hx. apply IH in Hx.
      * rewrite str_app_assoc in Hx. exact Hx.
      * rewrite allChars_app, Hrun. cbn [allChars]. rewrite Hc. reflexivity.
    + intros [Hx|Hx]%in_app_or.
      * unfold closeRun in Hx. destruct (eqs run "") eqn:He; [destruct Hx|].
        destruct Hx as [<-|[]]. apply String.eqb_neq in He.
        repeat split; [apply occursIn_prefix | exact Hrun |].
        destruct run; [congruence | cbn; lia].
      * apply (IH "" eq_refl) in Hx. destruct Hx as (Ho & Ha & Hl).
        repeat split; try assumption.
        apply (occursIn_trans _ (String c r)); [apply occursIn_cons, Ho|].
        apply occursIn_suffix.
Qed.

Lemma runsOf_spec (p : ascii -> bool) (s x : string) :
  In x (runsOf p s) ->
  occursIn x s /\ allChars p x = true /\ (1 <= String.length x)%nat.
Proof. exact (runsFrom_spec p s "" x eq_refl). Qed.

Lemma insertByLength_In (x y : string) (l : list string) :
  In y (insertByLength x l) <-> y = x \/ In y l.
Proof.
  induction l as [|z l IH]; cbn [insertByLength].
  - cbn. intuition.
  - destruct (String.length z <? String.length x)%nat; cbn [In] in *; intuition.
Qed.

Lemma sort_fold_In (l acc : list string) (y : string) :
  In y (fold_left (fun acc x => insertByLength x acc) l acc) <-> In y l \/ In y acc.
Proof.
  revert acc. induction l as [|x l IH]; intros acc; cbn [fold_left].
  - cbn. intuition.
  - rewrite IH, insertByLength_In. cbn [In]. intuition.
Qed.

Lemma sortByLengthDesc_In (l : list string) (y : string) :
  In y (sortByLengthDesc l) <-> In y l.
Proof. unfold sortByLengthDesc. rewrite sort_fold_In. cbn. intuition. Qed.

Lemma insertByLength_head (x : string) (l : list string) :
  headLongest l -> headLongest (insertByLength x l).
Proof.
  destruct l as [|h l]; cbn [insertByLength headLongest].
  - intros _ y [<-|[]]. lia.
  - intros H. destruct (String.length h <? String.length x)%nat eqn:Hlt.
    + apply Nat.ltb_lt in Hlt. intros y [<-|Hy]; [lia|]. specialize (H y Hy). lia.
    + apply Nat.ltb_ge in Hlt. intros y [<-|Hy]; [lia|].
      apply insertByLength_In in Hy as [->|Hy]; [lia|]. apply H. right. exact Hy.
Qed.

Lemma sort_fold_head (l acc : list string) :
  headLongest acc -> headLongest (fold_left (fun acc x => insertByLength x acc) l acc).
Proof.
  revert acc. induction l as [|x l IH]; intros acc H; [exact H|].
  cbn [fold_left]. apply IH, insertByLength_head, H.
Qed.

Lemma sortByLengthDesc_head (l : list string) : headLongest (sortByLengthDesc l).
Proof. apply sort_fold_head. exact I. Qed.

Lemma numberMatches_In (s x : string) :
  In x (numberMatches s) <-> In x (runsOf isDigit s) /\ (3 <= String.length x)%nat.
Proof.
  unfold numberMatches. rewrite filter_In. unfold atLeast.
  rewrite Nat.leb_le. reflexivity.
Qed.

(** The id is read in the text less the white space at its ends. *)
Lemma parsed_wellFormed (text id : string) :
  parseOrderIdFromText text = Some id -> wellFormedIn (trim text) id.
Proof.
  unfold parseOrderIdFromText. destruct (eqs text ""); [discriminate|]. cbn zeta.
  destruct (searchCaption None (trim text)) as [c|] eqn:Hc.
  { intros [= ->]. exact (proj1 (searchCaption_wellFormed _ _ _ Hc)). }
  destruct (searchTxRef (trim text)) as [t|] eqn:Ht.
  { intros [= ->]. exact (proj1 (searchTxRef_wellFormed _ _ Ht)). }
  destruct (sortByLengthDesc (numberMatches (trim text))) as [|n l] eqn:Hn.
  - unfold firstToken.
    destruct (List.filter (atLeast 3) (runsOf isIdChar (trim text))) as [|run l] eqn:Hf;
      [discriminate|].
    intros Hid. assert (id = takeStr 50 run) as -> by congruence. clear Hid.
    assert (Hin : In run (List.filter (atLeast 3) (runsOf isIdChar (trim text))))
      by (rewrite Hf; left; reflexivity).
    apply filter_In in Hin as [Hin Hlen]. unfold atLeast in Hlen. apply Nat.leb_le in Hlen.
    destruct (runsOf_spec _ _ _ Hin) as (Ho & Ha & _).
    pose proof (takeStr_length 50 run) as Hl.
    repeat split.
    + exact (occursIn_trans _ _ _ (takeStr_occursIn 50 run) Ho).
    + exact (allChars_occursIn _ _ _ (takeStr_occursIn 50 run) Ha).
    + lia.
  - intros [= <-].
    assert (Hin : In n (sortByLengthDesc (numberMatches (trim text))))
      by (rewrite Hn; left; reflexivity).
    apply sortByLengthDesc_In, numberMatches_In in Hin as [Hin Hlen].
    destruct (runsOf_spec _ _ _ Hin) as (Ho & Ha & _).
    repeat split; [exact Ho | exact (allChars_impl _ _ _ digit_idChar Ha) | lia].
Qed.

(** X13: an id that [parseOrderIdFromText] gives is a piece of the text as
    it was written, it holds characters of [[A-Za-z0-9_-]] only, and it is
    not empty. *)
Theorem parseOrderIdFromText_wellFormed (text id : string) :
  parseOrderIdFromText text = Some id -> wellFormedIn text id.
Proof.
  intros Hparse. destruct (parsed_wellFormed text id Hparse) as (Ho & Ha & Hl).
  split; [|split; [exact Ha | exact Hl]].
  exact (occursIn_trans _ _ _ Ho (trim_occursIn text)).
Qed.

End OrderParserFacts.


Module OrderRoundTrips.
Import Text OrderParser Substring OrderSpec StringFacts OrderParserFacts.

Lemma parseOrderIdFromText_wellFormed_witness :
  wellFormedIn "track my order #ORD-77 please" "ORD-77".
Proof.
  apply (parseOrderIdFromText_wellFormed "track my order #ORD-77 please" "ORD-77").
  vm_compute. reflexivity.
Defined.

Ltac each_char c := destruct c as [[] [] [] [] [] [] [] []].

Lemma lowerChar_space (c : ascii) : isSpace (lowerChar c) = isSpace c.
Proof. each_char c; reflexivity. Qed.

Lemma lowerChar_letter (c : ascii) : isLetter (lowerChar c) = isLetter c.
Proof. each_char c; reflexivity. Qed.

Lemma letter_word (c : ascii) : isLetter c = true -> isWord c = true.
Proof. unfold isWord. intros ->. reflexivity. Qed.

Lemma space_not_word (c : ascii) : isSpace c = true -> isWord c = false.
Proof. each_char c; (reflexivity || discriminate). Qed.

Lemma idChar_not_space (c : ascii) : isIdChar c = true -> isSpace c = false.
Proof. each_char c; (reflexivity || discriminate). Qed.

Lemma idChar_not_hash (c : ascii) (r : string) :
  isIdChar c = true ->
  match String c r with String "#" r' => r' | _ => String c r end = String c r.
Proof. each_char c; (reflexivity || discriminate). Qed.

Lemma trimStart_fixed (c : ascii) (r : string) :
  isSpace c = false -> trimStart (String c r) = String c r.
Proof. cbn [trimStart]. intros ->. reflexivity. Qed.

Lemma trimStart_spaces (sp s : string) :
  allChars isSpace sp = true -> trimStart (sp ++ s) = trimStart s.
Proof.
  induction sp as [|c r IH]; [reflexivity|].
  cbn [allChars]. intros [Hc Hr]%andb_true_iff.
  change (trimStart (String c (r ++ s)) = trimStart s).
  cbn [trimStart]. rewrite Hc. exact (IH Hr).
Qed.

Lemma trimEnd_fixed (s : string) :
  allChars (fun c => negb (isSpace c)) s = true -> trimEnd s = s.
Proof.
  induction s as [|c r IH]; [reflexivity|].
  cbn [allChars trimEnd]. intros [Hc Hr]%andb_true_iff. rewrite (IH Hr).
  destruct r; [|reflexivity]. apply negb_true_iff in Hc. rewrite Hc. reflexivity.
Qed.

Lemma trimEnd_app (a s : string) :
  s <> "" -> allChars (fun c => negb (isSpace c)) s = true -> trimEnd (a ++ s) = (a ++ s)%string.
Proof.
  intros Hne Hs. induction a as [|c r IH]; [exact (trimEnd_fixed s Hs)|].
  change (trimEnd (String c (r ++ s)) = String c (r ++ s)).
  cbn [trimEnd]. rewrite IH.
  destruct (r ++ s)%string eqn:He; [|reflexivity].
  destruct r; [change (s = "") in He; congruence | discriminate He].
Qed.

Lemma idChars_not_space (s : string) :
  allChars isIdChar s = true -> allChars (fun c => negb (isSpace c)) s = true.
Proof.
  apply allChars_impl. intros c Hc. rewrite (idChar_not_space c Hc). reflexivity.
Qed.

Lemma length_nonempty (s : string) : (1 <= String.length s)%nat -> s <> "".
Proof. destruct s; [cbn; lia | discriminate]. Qed.

(** A text that starts with a character that is no space and ends with an
    id is left as it is by [trim]. *)
Lemma trim_fixed (c : ascii) (a id : string) :
  isSpace c = false -> allChars isIdChar id = true -> id <> "" ->
  trim (String c (a ++ id)) = String c (a ++ id).
Proof.
  intros Hc Hid Hne. unfold trim. rewrite (trimStart_fixed c _ Hc).
  exact (trimEnd_app (String c a) id Hne (idChars_not_space id Hid)).
Qed.

Lemma stripPrefixCI_other (a b : ascii) (k k' kw rest : string) :
  toLowerCase kw = String b k -> a <> b -> stripPrefixCI (String a k') (kw ++ rest) = None.
Proof.
  destruct kw as [|c r]; [discriminate|]. cbn [toLowerCase]. intros [= Hc _] Hab.
  change (stripPrefixCI (String a k') (String c (r ++ rest)) = None).
  cbn [stripPrefixCI]. rewrite Hc.
  destruct (Ascii.eqb a b) eqn:He; [apply Ascii.eqb_eq in He; contradiction | reflexivity].
Qed.

(** The keyword of a caption, read at the start of the text. *)
Lemma caption_keyword (kw rest : string) :
  isCaptionWord kw ->
  orElseStr (stripPrefixCI "rx" (kw ++ rest))
    (orElseStr (stripPrefixCI "order" (kw ++ rest))
       (stripPrefixCI "prescription" (kw ++ rest))) = Some rest.
Proof.
  intros [H|[H|H]].
  - rewrite <- H at 1. rewrite stripPrefixCI_lower. reflexivity.
  - rewrite (stripPrefixCI_other "r" "o" "rder" "x" kw rest H) by discriminate.
    rewrite <- H at 1. rewrite stripPrefixCI_lower. reflexivity.
  - rewrite (stripPrefixCI_other "r" "p" "rescription" "x" kw rest H) by discriminate.
    rewrite (stripPrefixCI_other "o" "p" "rescription" "rder" kw rest H) by discriminate.
    rewrite <- H. rewrite stripPrefixCI_lower. reflexivity.
Qed.

Lemma caption_word_head (kw : string) :
  isCaptionWord kw -> exists c r, kw = String c r /\ isSpace c = false.
Proof.
  intros H. destruct kw as [|c r]; [destruct H as [H|[H|H]]; discriminate H|].
  exists c, r. split; [reflexivity|].
  rewrite <- lowerChar_space.
  destruct H as [H|[H|H]]; cbn [toLowerCase] in H; injection H as -> _; reflexivity.
Qed.

(** X14: a caption made of one of the words [rx], [order] and
    [prescription], in any case, then white space or a [#] or both, then an
    id of two to fifty characters of [[A-Za-z0-9_-]], is read as that id. *)
Theorem caption_round_trip (kw sp hash id : string) :
  isCaptionWord kw ->
  allChars isSpace sp = true ->
  hash = "" \/ hash = "#" ->
  sp <> "" \/ hash = "#" ->
  allChars isIdChar id = true ->
  (2 <= String.length id <= 50)%nat ->
  parseOrderIdFromText (kw ++ sp ++ hash ++ id) = Some id.
Proof.
  intros Hkw Hsp Hhash Hsep Hid Hlen.
  assert (Hne : id <> "") by (apply length_nonempty; lia).
  destruct (caption_word_head kw Hkw) as (c & r & -> & Hc).
  assert (Htrim : trim (String c r ++ sp ++ hash ++ id)
                  = (String c r ++ sp ++ hash ++ id)%string).
  { rewrite <- !str_app_assoc. rewrite (str_app_assoc (String c r)).
    exact (trim_fixed c _ id Hc Hid Hne). }
  unfold parseOrderIdFromText.
  change (eqs (String c r ++ sp ++ hash ++ id) "") with false. cbv iota zeta.
  rewrite Htrim.
  assert (Hcap : captionAt None (String c r ++ sp ++ hash ++ id) = Some id).
  { unfold captionAt. cbn [wordBefore]. rewrite (caption_keyword _ _ Hkw).
    assert (Hw : wordAt (sp ++ hash ++ id) = false).
    { destruct sp as [|x sp'].
      - destruct Hsep as [Hsep| ->]; [congruence | reflexivity].
      - cbn [allChars] in Hsp. apply andb_true_iff in Hsp as [Hx _].
        exact (space_not_word x Hx). }
    rewrite Hw. cbv zeta. rewrite (trimStart_spaces sp _ Hsp).
    destruct id as [|y id']; [congruence|].
    pose proof Hid as Hy. cbn [allChars] in Hy. apply andb_true_iff in Hy as [Hy _].
    assert (HidAt : match trimStart (hash ++ String y id') with
                    | String "#" r' => r'
                    | _ => trimStart (hash ++ String y id')
                    end = String y id').
    { destruct Hhash as [-> | ->].
      - change ("" ++ String y id')%string with (String y id').
        rewrite (trimStart_fixed y id' (idChar_not_space y Hy)).
        exact (idChar_not_hash y id' Hy).
      - reflexivity. }
    rewrite HidAt, (spanWhile_all isIdChar _ Hid). cbn [fst].
    destruct (2 <=? String.length (String y id'))%nat eqn:Hl;
      [|apply Nat.leb_gt in Hl; lia].
    rewrite takeStr_all by lia. reflexivity. }
  destruct (String c r ++ sp ++ hash ++ id)%string; cbn [searchCaption]; rewrite Hcap;
    reflexivity.
Qed.

Lemma caption_round_trip_witness :
  parseOrderIdFromText ("Prescription" ++ "  " ++ "#" ++ "A7-22") = Some "A7-22".
Proof.
  apply (caption_round_trip "Prescription" "  " "#" "A7-22").
  - right. right. reflexivity.
  - reflexivity.
  - right. reflexivity.
  - right. reflexivity.
  - reflexivity.
  - cbn. lia.
Defined.

End OrderRoundTrips.


Module OrderNumberFacts.
Import Text OrderParser Substring OrderSpec StringFacts OrderParserFacts OrderRoundTrips.

(** The characters a caption word can start with. *)
Lemma captionAt_head (prev : option ascii) (c : ascii) (r : string) :
  lowerChar c <> "r"%char -> lowerChar c <> "o"%char -> lowerChar c <> "p"%char ->
  captionAt prev (String c r) = None.
Proof.
  intros Hr Ho Hp. unfold captionAt. destruct (wordBefore prev); [reflexivity|].
  cbn [stripPrefixCI orElseStr].
  destruct (Ascii.eqb "r" (lowerChar c)) eqn:H1;
    [apply Ascii.eqb_eq in H1; congruence|].
  destruct (Ascii.eqb "o" (lowerChar c)) eqn:H2;
    [apply Ascii.eqb_eq in H2; congruence|].
  destruct (Ascii.eqb "p" (lowerChar c)) eqn:H3;
    [apply Ascii.eqb_eq in H3; congruence|].
  reflexivity.
Qed.

Lemma captionAt_empty (prev : option ascii) : captionAt prev "" = None.
Proof. unfold captionAt. destruct (wordBefore prev); reflexivity. Qed.

Lemma captionAt_after_word (prev : option ascii) (s : string) :
  wordBefore prev = true -> captionAt prev s = None.
Proof. unfold captionAt. intros ->. reflexivity. Qed.

Lemma notLetter_head (c : ascii) :
  notLetter c = true ->
  lowerChar c <> "r"%char /\ lowerChar c <> "o"%char /\ lowerChar c <> "p"%char
  /\ lowerChar c <> "d"%char.
Proof.
  unfold notLetter. rewrite <- lowerChar_letter. intros H.
  repeat split; intros He; rewrite He in H; discriminate H.
Qed.

Lemma searchCaption_notLetter (s : string) (prev : option ascii) :
  allChars notLetter s = true -> searchCaption prev s = None.
Proof.
  revert prev. induction s as [|c r IH]; intros prev; cbn [searchCaption allChars].
  - rewrite captionAt_empty. reflexivity.
  - intros [Hc Hr]%andb_true_iff.
    destruct (notLetter_head c Hc) as (H1 & H2 & H3 & _).
    rewrite (captionAt_head prev c r H1 H2 H3). exact (IH _ Hr).
Qed.

Lemma txRefAt_head (c : ascii) (r : string) :
  lowerChar c <> "d"%char -> txRefAt (String c r) = None.
Proof.
  intros Hd. unfold txRefAt. cbn [stripPrefixCI].
  destruct (Ascii.eqb "d" (lowerChar c)) eqn:H1;
    [apply Ascii.eqb_eq in H1; congruence | reflexivity].
Qed.

Lemma searchTxRef_notLetter (s : string) :
  allChars notLetter s = true -> searchTxRef s = None.
Proof.
  induction s as [|c r IH]; cbn [searchTxRef allChars]; [reflexivity|].
  intros [Hc Hr]%andb_true_iff.
  destruct (notLetter_head c Hc) as (_ & _ & _ & H4).
  rewrite (txRefAt_head c r H4). exact (IH Hr).
Qed.

(** White space at either end of a text is in no run of a class that holds
    no white space. *)
Lemma runsFrom_cons (p : ascii -> bool) (run : string) (c : ascii) (r : string) :
  runsFrom p run (String c r)
  = if p c then runsFrom p (run ++ String c EmptyString) r
    else (closeRun run ++ runsFrom p EmptyString r)%list.
Proof. reflexivity. Qed.

Lemma runsFrom_trimEnd (p : ascii -> bool) (s run : string) :
  (forall c, isSpace c = true -> p c = false) ->
  runsFrom p run (trimEnd s) = runsFrom p run s.
Proof.
  intros Hp. revert run. induction s as [|c r IH]; intros run; [reflexivity|].
  cbn [trimEnd]. destruct (trimEnd r) as [|c' r'] eqn:Hr.
  - destruct (isSpace c) eqn:Hc.
    + rewrite runsFrom_cons, (Hp c Hc), <- IH. cbn [runsFrom].
      change (closeRun "") with (@nil string). rewrite app_nil_r. reflexivity.
    + rewrite !runsFrom_cons. destruct (p c); rewrite <- IH; reflexivity.
  - rewrite (runsFrom_cons p run c (String c' r')), (runsFrom_cons p run c r).
    destruct (p c); rewrite IH; reflexivity.
Qed.

Lemma runsFrom_trimStart (p : ascii -> bool) (s : string) :
  (forall c, isSpace c = true -> p c = false) ->
  runsFrom p "" (trimStart s) = runsFrom p "" s.
Proof.
  intros Hp. induction s as [|c r IH]; [reflexivity|].
  cbn [trimStart]. destruct (isSpace c) eqn:Hc; [|reflexivity].
  cbn [runsFrom]. rewrite (Hp c Hc). exact IH.
Qed.

Lemma runsOf_trim (p : ascii -> bool) (s : string) :
  (forall c, isSpace c = true -> p c = false) -> runsOf p (trim s) = runsOf p s.
Proof.
  intros Hp. unfold runsOf, trim.
  rewrite (runsFrom_trimEnd p _ "" Hp). exact (runsFrom_trimStart p s Hp).
Qed.

Lemma space_not_digit (c : ascii) : isSpace c = true -> isDigit c = false.
Proof. each_char c; (reflexivity || discriminate). Qed.

(** X15: in a text without letters that holds a number of three digits or
    more, the id read is a number of the text, and no number of the text is
    longer. *)
Theorem longest_number_is_read (text x : string) :
  allChars notLetter text = true ->
  In x (runsOf isDigit text) -> (3 <= String.length x)%nat ->
  exists n, parseOrderIdFromText text = Some n
            /\ In n (runsOf isDigit text)
            /\ (3 <= String.length n)%nat
            /\ forall m, In m (runsOf isDigit text) -> (String.length m <= String.length n)%nat.
Proof.
  intros Hnl Hx Hlen. unfold parseOrderIdFromText.
  destruct (eqs text "") eqn:He.
  { apply String.eqb_eq in He. subst text. destruct Hx. }
  cbn zeta.
  assert (Hnl' : allChars notLetter (trim text) = true)
    by exact (allChars_occursIn _ _ _ (trim_occursIn text) Hnl).
  rewrite (searchCaption_notLetter _ None Hnl'), (searchTxRef_notLetter _ Hnl').
  pose proof (sortByLengthDesc_head (numberMatches (trim text))) as Hhead.
  assert (Hxs : In x (sortByLengthDesc (numberMatches (trim text)))).
  { apply sortByLengthDesc_In, numberMatches_In.
    rewrite (runsOf_trim isDigit text space_not_digit). split; assumption. }
  destruct (sortByLengthDesc (numberMatches (trim text))) as [|n l] eqn:Hs; [destruct Hxs|].
  exists n. split; [reflexivity|].
  assert (Hn : In n (sortByLengthDesc (numberMatches (trim text))))
    by (rewrite Hs; left; reflexivity).
  apply sortByLengthDesc_In, numberMatches_In in Hn as [Hn Hn3].
  rewrite (runsOf_trim isDigit text space_not_digit) in Hn.
  split; [exact Hn|]. split; [exact Hn3|].
  intros m Hm. destruct (Nat.le_gt_cases 3 (String.length m)) as [Hm3|Hm3]; [|lia].
  apply Hhead. rewrite <- Hs.
  apply sortByLengthDesc_In, numberMatches_In.
  rewrite (runsOf_trim isDigit text space_not_digit). split; assumption.
Qed.

Lemma longest_number_is_read_witness :
  exists n, parseOrderIdFromText " 12 - 4567 / 890 " = Some n
            /\ In n (runsOf isDigit " 12 - 4567 / 890 ")
            /\ (3 <= String.length n)%nat
            /\ forall m, In m (runsOf isDigit " 12 - 4567 / 890 ")
                         -> (String.length m <= String.length n)%nat.
Proof.
  apply (longest_number_is_read " 12 - 4567 / 890 " "890").
  - reflexivity.
  - vm_compute. right. right. left. reflexivity.
  - cbn. lia.
Defined.

End OrderNumberFacts.


Module OrderReferenceFacts.
Import Text OrderParser Substring OrderSpec StringFacts OrderParserFacts OrderRoundTrips
  OrderNumberFacts.

Lemma toLowerCase_letters (s : string) :
  allChars isLetter (toLowerCase s) = allChars isLetter s.
Proof.
  induction s as [|c r IH]; [reflexivity|].
  cbn [toLowerCase allChars]. rewrite lowerChar_letter, IH. reflexivity.
Qed.

(** No caption starts inside a word. *)
Lemma searchCaption_word (w rest : string) (prev : option ascii) :
  wordBefore prev = true -> allChars isWord w = true ->
  (forall prev', searchCaption prev' rest = None) ->
  searchCaption prev (w ++ rest) = None.
Proof.
  intros Hprev Hw Hrest. revert prev Hprev. induction w as [|c r IH]; intros prev Hprev.
  - apply Hrest.
  - change (searchCaption prev (String c (r ++ rest)) = None).
    cbn [searchCaption]. rewrite (captionAt_after_word prev _ Hprev).
    cbn [allChars] in Hw. apply andb_true_iff in Hw as [Hc Hr].
    exact (IH Hr (Some c) Hc).
Qed.

Lemma digit_notLetter (c : ascii) : isDigit c = true -> notLetter c = true.
Proof. each_char c; (reflexivity || discriminate). Qed.

Lemma separator_notLetter (c : ascii) : isSeparator c = true -> notLetter c = true.
Proof. each_char c; (reflexivity || discriminate). Qed.

Lemma separator_not_digit (c : ascii) : isSeparator c = true -> isDigit c = false.
Proof. each_char c; (reflexivity || discriminate). Qed.

Lemma separator_idChar (c : ascii) : isSeparator c = true -> isIdChar c = true.
Proof. each_char c; (reflexivity || discriminate). Qed.

Lemma digits_notLetter (s : string) : allDigits s = true -> allChars notLetter s = true.
Proof. rewrite <- allChars_digits. apply allChars_impl, digit_notLetter. Qed.

Lemma digits_idChars (s : string) : allDigits s = true -> allChars isIdChar s = true.
Proof. rewrite <- allChars_digits. apply allChars_impl, digit_idChar. Qed.

(** What may follow the order id in a payment reference: nothing, or a
    separator and the digits of a time. *)
Lemma reference_read (p : string) (s1 : ascii) (d tail : string) :
  toLowerCase p = "drugsng" ->
  isSeparator s1 = true ->
  allDigits d = true -> d <> "" ->
  allChars isIdChar tail = true -> allChars notLetter tail = true ->
  fst (spanWhile isDigit tail) = "" ->
  parseOrderIdFromText (p ++ String s1 (d ++ tail)) = Some d.
Proof.
  intros Hp Hs Hd Hne Htail Hnl Hspan.
  destruct p as [|c r]; [discriminate Hp|].
  assert (Hletters : allChars isLetter (String c r) = true)
    by (rewrite <- toLowerCase_letters, Hp; reflexivity).
  pose proof Hletters as Hl. cbn [allChars] in Hl. apply andb_true_iff in Hl as [Hc Hr].
  assert (Hcs : isSpace c = false).
  { rewrite <- lowerChar_space. cbn [toLowerCase] in Hp. injection Hp as -> _. reflexivity. }
  assert (Hrest : allChars notLetter (String s1 (d ++ tail)) = true).
  { cbn [allChars]. rewrite (separator_notLetter s1 Hs), allChars_app, (digits_notLetter d Hd), Hnl.
    reflexivity. }
  set (text := (String c r ++ String s1 (d ++ tail))%string).
  assert (Htrim : trim text = text).
  { destruct tail as [|t tail'].
    - subst text. rewrite str_app_nil_r.
      assert (Heq : (String c r ++ String s1 d)%string
                    = String c ((r ++ String s1 "") ++ d))
        by (rewrite str_app_assoc; reflexivity).
      rewrite Heq. exact (trim_fixed c _ d Hcs (digits_idChars d Hd) Hne).
    - subst text.
      assert (Heq : (String c r ++ String s1 (d ++ String t tail'))%string
                    = String c ((r ++ String s1 d) ++ String t tail')).
      { change (String c (r ++ String s1 (d ++ String t tail'))
                = String c ((r ++ String s1 d) ++ String t tail')).
        rewrite str_app_assoc. reflexivity. }
      rewrite Heq. apply (trim_fixed c _ _ Hcs Htail). discriminate. }
  unfold parseOrderIdFromText. change (eqs text "") with false. cbv iota zeta.
  rewrite Htrim.
  assert (Hcap : searchCaption None text = None).
  { subst text. change (searchCaption None (String c (r ++ String s1 (d ++ tail))) = None).
    cbn [searchCaption].
    assert (Hd0 : lowerChar c = "d"%char)
      by (cbn [toLowerCase] in Hp; injection Hp as -> _; reflexivity).
    rewrite captionAt_head by (rewrite Hd0; discriminate).
    apply searchCaption_word; [exact (letter_word c Hc) | |].
    - exact (allChars_impl _ _ _ letter_word Hr).
    - intros prev'. exact (searchCaption_notLetter _ prev' Hrest). }
  rewrite Hcap.
  assert (Htx : txRefAt text = Some d).
  { unfold txRefAt. subst text. rewrite <- Hp at 1. rewrite stripPrefixCI_lower.
    change ((code s1 =? 45)%nat || (code s1 =? 95)%nat)%bool with (isSeparator s1).
    rewrite Hs. cbv zeta.
    rewrite (spanWhile_app isDigit d tail) by (rewrite allChars_digits; exact Hd).
    rewrite Hspan, str_app_nil_r.
    destruct (eqs d "") eqn:He; [apply String.eqb_eq in He; contradiction | reflexivity]. }
  destruct text; cbn [searchTxRef]; rewrite Htx; reflexivity.
Qed.

(** X16: a payment reference [drugsng-{order}-{time}], the word in any
    case, the separators [-] or [_], the order and the time written in
    digits, is read as the order; so is the reference without the time. *)
Theorem payment_reference_round_trip (p : string) (s1 s2 : ascii) (order time : string) :
  toLowerCase p = "drugsng" ->
  isSeparator s1 = true -> isSeparator s2 = true ->
  allDigits order = true -> order <> "" ->
  allDigits time = true ->
  parseOrderIdFromText (p ++ String s1 order) = Some order
  /\ parseOrderIdFromText (p ++ String s1 (order ++ String s2 time)) = Some order.
Proof.
  intros Hp H1 H2 Ho Hne Ht. split.
  - rewrite <- (str_app_nil_r order) at 1.
    apply reference_read; try assumption; reflexivity.
  - apply reference_read; try assumption.
    + cbn [allChars]. rewrite (separator_idChar s2 H2). exact (digits_idChars time Ht).
    + cbn [allChars]. rewrite (separator_notLetter s2 H2). exact (digits_notLetter time Ht).
    + cbn [spanWhile]. rewrite (separator_not_digit s2 H2). reflexivity.
Qed.

Lemma payment_reference_round_trip_witness :
  parseOrderIdFromText ("DrugsNG" ++ String "-" "12345") = Some "12345"
  /\ parseOrderIdFromText ("DrugsNG" ++ String "-" ("12345" ++ String "_" "1590000000"))
     = Some "12345".
Proof.
  apply (payment_reference_round_trip "DrugsNG" "-" "_" "12345" "1590000000");
    (reflexivity || discriminate).
Defined.

(** X17: an id read from a text, which [sanitizeInput] leaves as it is, is
    accepted by [isValidOrderId] unless it is longer than fifty characters
    or is a two-character id that is no number. *)
Theorem parsed_id_validity (sanitizeInput : string -> string) (text id : string) :
  parseOrderIdFromText text = Some id ->
  sanitizeInput id = id ->
  isValidOrderId sanitizeInput id = true
  <-> (String.length id <= 50)%nat /\ ((3 <= String.length id)%nat \/ allDigits id = true).
Proof.
  intros Hparse Hs.
  destruct (parsed_wellFormed text id Hparse) as (_ & Hid & Hlen).
  unfold isValidOrderId.
  destruct (eqs id "") eqn:He.
  { apply String.eqb_eq in He. subst id. cbn in Hlen. lia. }
  cbn zeta. rewrite Hs, Hid. cbn [andb].
  rewrite orb_true_iff, !andb_true_iff, !Nat.leb_le.
  split.
  - intros [[[Hd _] H12]|[H3 H50]]; [split; [lia | right; exact Hd] | split; [lia | left; lia]].
  - intros [H50 [H3|Hd]]; [right; split; lia|].
    destruct (Nat.le_gt_cases (String.length id) 12); [left; repeat split; (assumption || lia)|].
    right. split; lia.
Qed.

Lemma parsed_id_validity_witness :
  isValidOrderId (fun s => s) "12345" = true
  <-> (String.length "12345" <= 50)%nat
      /\ ((3 <= String.length "12345")%nat \/ allDigits "12345" = true).
Proof.
  apply (parsed_id_validity (fun s => s) "track 12345" "12345"); reflexivity.
Defined.

End OrderReferenceFacts.


(** * Searches, cart and appointments *)

Module CatalogFacts.
Import Text Model Handlers Dispatcher Catalog CatalogSpec.

Lemma field_setField_ne (k k' : string) (v : value) (s : Session) :
  k <> k' -> field (data (setField k v s)) k' = field (data s) k'.
Proof.
  intros Hne. unfold field, setField, withData. cbn [data].
  rewrite lookup_insert_ne by exact Hne. reflexivity.
Qed.

Lemma field_setField (k : string) (v : value) (s : Session) :
  field (data (setField k v s)) k = v.
Proof.
  unfold field, setField, withData. cbn [data]. rewrite lookup_insert_eq. reflexivity.
Qed.

Lemma reload_saved (phoneNumber : string) (s s' : Session) (w : World) :
  reload phoneNumber s' (saveSession phoneNumber s w) = s.
Proof.
  unfold reload, saveSession, withSessions. cbn [sessions].
  rewrite lookup_insert_eq. reflexivity.
Qed.

Lemma reload_nowhere (k phoneNumber : string) (session : Session) (w : World) :
  nowhere k phoneNumber session w -> holdsNo k (reload phoneNumber session w).
Proof.
  intros [Hs Hw]. unfold reload.
  destruct (sessions w !! phoneNumber) as [s|]; [exact (Hw s eq_refl) | exact Hs].
Qed.

Lemma itemAt_falsy (v : value) (index : option Z) : truthy v = false -> itemAt v index = None.
Proof. destruct v; try reflexivity. discriminate. Qed.

(** A doctor search writes the cursor, the page and the last search, and
    nothing else. *)
Lemma doctor_search_keeps (env : Env) (phoneNumber k : string) (session : Session)
  (parameters : gmap string string) (w : World) :
  k <> "doctorPagination" -> k <> "doctorPageItems" -> k <> "lastDoctorSearch" ->
  nowhere k phoneNumber session w ->
  holdsNo k (reload phoneNumber
               (session_after (handleDoctorSearch env phoneNumber session parameters w))
               (world_after (handleDoctorSearch env phoneNumber session parameters w))).
Proof.
  intros H1 H2 H3 Hno. unfold handleDoctorSearch. cbn zeta.
  destruct (negb (given parameters "specialty")); [exact (reload_nowhere _ _ _ _ Hno)|].
  destruct (searchDoctorsPaginated env _ _ 1 5) as [pageData|];
    [|exact (reload_nowhere _ _ _ _ Hno)].
  destruct (pd_items pageData) as [|d ds]; [exact (reload_nowhere _ _ _ _ Hno)|].
  cbn [session_after world_after reply]. rewrite reload_saved.
  unfold holdsNo. rewrite !field_setField_ne by congruence. exact (proj1 Hno).
Qed.

(** A listing of all the medicines writes the cursor and the page, a search
    by name the results. *)
Lemma product_listing_keeps (env : Env) (svc : Services) (phoneNumber k : string)
  (session : Session) (parameters : gmap string string) (w : World) :
  given parameters "product" = false ->
  k <> "productPagination" -> k <> "productPageItems" ->
  nowhere k phoneNumber session w ->
  holdsNo k (reload phoneNumber
               (session_after (handleProductSearch env svc phoneNumber session parameters w))
               (world_after (handleProductSearch env svc phoneNumber session parameters w))).
Proof.
  intros Hg H1 H2 Hno. unfold handleProductSearch. cbn zeta. rewrite Hg. cbn [negb].
  destruct (listAllProductsPaginated env 1 5) as [pageData|];
    [|exact (reload_nowhere _ _ _ _ Hno)].
  cbn [session_after world_after reply]. rewrite reload_saved.
  unfold holdsNo. rewrite !field_setField_ne by congruence. exact (proj1 Hno).
Qed.

Lemma booking_without_results (svc : Services) (phoneNumber : string) (session : Session)
  (parameters : gmap string string) (w : World) :
  holdsNo "doctorSearchResults" (reload phoneNumber session w) ->
  bookingRefused (handleBookAppointment svc phoneNumber session parameters w).
Proof.
  intros Hno. unfold handleBookAppointment, bookingRefused. cbn zeta.
  destruct (negb (isAuthenticatedSession (argOf session))); [split; [reflexivity | tauto]|].
  destruct (negb (truthy (field (data (reload phoneNumber session w)) "userId")));
    [split; [reflexivity | tauto]|].
  destruct (_ || _ || _)%bool; [split; [reflexivity | tauto]|].
  rewrite (itemAt_falsy _ _ Hno). split; [reflexivity | tauto].
Qed.

Lemma add_without_results (svc : Services) (phoneNumber : string) (session : Session)
  (parameters : gmap string string) (w : World) :
  holdsNo "searchResults" (reload phoneNumber session w) ->
  addRefused (handleAddToCart svc phoneNumber session parameters w).
Proof.
  intros Hno. unfold handleAddToCart, addRefused. cbn zeta.
  destruct (negb (isAuthenticatedSession (argOf session))); [split; [reflexivity | tauto]|].
  destruct (negb (truthy (field (data (reload phoneNumber session w)) "userId")));
    [split; [reflexivity | tauto]|].
  destruct (_ || _)%bool; [split; [reflexivity | tauto]|].
  rewrite (itemAt_falsy _ _ Hno). split; [reflexivity | tauto].
Qed.

(** X18: a doctor search does not fill the list [handleBookAppointment]
    books from: when neither the session nor its row keeps anything under
    [doctorSearchResults], a booking that follows a doctor search, whatever
    the search gave and whatever is asked, makes no call and is answered by
    the request to log in, the usage, or the request to search for doctors
    first. *)
Theorem booking_after_doctor_search_is_refused (env : Env) (svc : Services)
  (phoneNumber : string) (session : Session) (searched asked : gmap string string)
  (w : World) :
  nowhere "doctorSearchResults" phoneNumber session w ->
  bookingRefused
    (handleBookAppointment svc phoneNumber
       (session_after (handleDoctorSearch env phoneNumber session searched w)) asked
       (world_after (handleDoctorSearch env phoneNumber session searched w))).
Proof.
  intros Hno. apply booking_without_results.
  apply doctor_search_keeps; (discriminate || exact Hno).
Qed.

(** X19: the list of all the medicines, which tells the user to type
    [add [number] [quantity]], does not fill the list [handleAddToCart]
    adds from: when neither the session nor its row keeps anything under
    [searchResults], an addition that follows the listing makes no call and
    is answered by the request to log in, the usage, or the request to
    search for products first. *)
Theorem add_after_listing_is_refused (env : Env) (svc : Services)
  (phoneNumber : string) (session : Session) (listed asked : gmap string string)
  (w : World) :
  given listed "product" = false ->
  nowhere "searchResults" phoneNumber session w ->
  addRefused
    (handleAddToCart svc phoneNumber
       (session_after (handleProductSearch env svc phoneNumber session listed w)) asked
       (world_after (handleProductSearch env svc phoneNumber session listed w))).
Proof.
  intros Hg Hno. apply add_without_results.
  apply product_listing_keeps; (discriminate || assumption).
Qed.

End CatalogFacts.


Module CartFacts.
Import Text Model Handlers Dispatcher Catalog CatalogSpec CatalogFacts.

Lemma booking_after_doctor_search_is_refused_witness :
  bookingRefused
    (handleBookAppointment CatalogSample.services Sample.phone
       (session_after (handleDoctorSearch CatalogSample.env Sample.phone CatalogSample.ada
                         CatalogSample.cardiologist CatalogSample.store))
       CatalogSample.firstDoctor
       (world_after (handleDoctorSearch CatalogSample.env Sample.phone CatalogSample.ada
                       CatalogSample.cardiologist CatalogSample.store))).
Proof.
  apply (booking_after_doctor_search_is_refused CatalogSample.env CatalogSample.services
           Sample.phone CatalogSample.ada CatalogSample.cardiologist
           CatalogSample.firstDoctor CatalogSample.store).
  split; [reflexivity|].
  intros s Hs. vm_compute in Hs. injection Hs as <-. vm_compute. reflexivity.
Defined.

Lemma add_after_listing_is_refused_witness :
  addRefused
    (handleAddToCart CatalogSample.services Sample.phone
       (session_after (handleProductSearch CatalogSample.env CatalogSample.services
                         Sample.phone CatalogSample.ada ∅ CatalogSample.store))
       CatalogSample.twoOfTheSecond
       (world_after (handleProductSearch CatalogSample.env CatalogSample.services
                       Sample.phone CatalogSample.ada ∅ CatalogSample.store))).
Proof.
  apply (add_after_listing_is_refused CatalogSample.env CatalogSample.services
           Sample.phone CatalogSample.ada ∅ CatalogSample.twoOfTheSecond CatalogSample.store).
  - reflexivity.
  - split; [reflexivity|].
    intros s Hs. vm_compute in Hs. injection Hs as <-. vm_compute. reflexivity.
Defined.

Lemma authenticated_by_userId (s : Session) :
  truthy (field (data s) "userId") = true -> isAuthenticatedSession (argOf s) = true.
Proof.
  intros Hu. unfold isAuthenticatedSession, argOf, isAuthenticatedSession_try.
  destruct (decide (Some (state s) = Some LOGGED_IN)); [reflexivity|].
  rewrite Hu. reflexivity.
Qed.

Lemma parseInt_given (parameters : gmap string string) (k : string) (i : Z) :
  parseInt (param parameters k) = Some i -> given parameters k = true.
Proof.
  unfold given. destruct (param parameters k); [discriminate | reflexivity].
Qed.

(** X20: after a search by name that found products, [add i q] adds the
    product shown at number [i]: for a session that carries a user id,
    the one call made is [addToCart] with that user, the [i]-th of the
    products shown and the quantity read, and the answer tells the addition
    when the call returns, the failure when it raises. *)
Theorem add_picks_the_product_shown (env : Env) (svc : Services) (phoneNumber : string)
  (session : Session) (searched asked : gmap string string) (w : World)
  (products : list string) (i : Z) (product : string) :
  truthy (field (data session) "userId") = true ->
  given searched "product" = true ->
  searchProducts svc (param searched "product") = Some products ->
  parseInt (param asked "productIndex") = Some i ->
  given asked "quantity" = true ->
  1 <= i ->
  firstFive products !! Z.to_nat (i - 1) = Some product ->
  let found := handleProductSearch env svc phoneNumber session searched w in
  let added := handleAddToCart svc phoneNumber (session_after found) asked
                 (world_after found) in
  let userId := field (data session) "userId" in
  let quantity := parseInt (param asked "quantity") in
  sent found = NProductMatches (param searched "product") (firstFive products)
  /\ calls added = [CAddToCart userId product quantity]
  /\ sent added = (if addToCart svc userId product quantity
                   then NAdded quantity product else NAddError).
Proof.
  intros Hu Hg Hs Hi Hq H1 Hp. cbn zeta.
  assert (Hfound : handleProductSearch env svc phoneNumber session searched w
                   = reply (setField "searchResults" (VItems (firstFive products)) session)
                       (saveSession phoneNumber
                          (setField "searchResults" (VItems (firstFive products)) session) w)
                       (NProductMatches (param searched "product") (firstFive products))
                       (isAuthenticatedSession (argOf session)) []).
  { unfold handleProductSearch. cbn zeta. rewrite Hg, Hs. cbn [negb].
    destruct products as [|p ps]; [discriminate Hp | reflexivity]. }
  rewrite Hfound. cbn [sent session_after world_after reply].
  split; [reflexivity|].
  set (session1 := setField "searchResults" (VItems (firstFive products)) session).
  assert (Hu1 : field (data session1) "userId" = field (data session) "userId")
    by (apply field_setField_ne; discriminate).
  unfold handleAddToCart. cbn zeta.
  rewrite (authenticated_by_userId session1) by (rewrite Hu1; exact Hu).
  cbn [negb]. rewrite reload_saved, Hu1, Hu. cbn [negb].
  rewrite (parseInt_given asked "productIndex" i Hi), Hq. cbn [negb orb].
  rewrite Hi. cbn [fmap option_fmap option_map].
  assert (Hres : field (data session1) "searchResults" = VItems (firstFive products))
    by apply field_setField.
  rewrite Hres. cbn [itemAt].
  destruct (i - 1 <? 0) eqn:Hneg; [apply Z.ltb_lt in Hneg; lia|].
  rewrite Hp.
  destruct (addToCart svc (field (data session) "userId") product
              (parseInt (param asked "quantity"))); split; reflexivity.
Qed.

Lemma add_picks_the_product_shown_witness :
  sent (handleProductSearch CatalogSample.env CatalogSample.services Sample.phone
          CatalogSample.ada CatalogSample.painkiller CatalogSample.store)
  = NProductMatches "pain" (firstFive CatalogSample.shelf)
  /\ calls (handleAddToCart CatalogSample.services Sample.phone
              (session_after (handleProductSearch CatalogSample.env CatalogSample.services
                                Sample.phone CatalogSample.ada CatalogSample.painkiller
                                CatalogSample.store))
              CatalogSample.twoOfTheSecond
              (world_after (handleProductSearch CatalogSample.env CatalogSample.services
                              Sample.phone CatalogSample.ada CatalogSample.painkiller
                              CatalogSample.store)))
     = [CAddToCart (VNum 7) "Ibuprofen" (Some 2)].
Proof.
  pose proof (add_picks_the_product_shown CatalogSample.env CatalogSample.services
                Sample.phone CatalogSample.ada CatalogSample.painkiller
                CatalogSample.twoOfTheSecond CatalogSample.store CatalogSample.shelf 2
                "Ibuprofen") as H.
  cbn zeta in H.
  destruct H as (Hsent & Hcalls & _);
    [reflexivity | reflexivity | reflexivity | reflexivity | reflexivity | lia | reflexivity |].
  split; [exact Hsent | exact Hcalls].
Defined.

Lemma attachMatch_next : attachMatch "next" = None.
Proof. reflexivity. Qed.

(** X21: the product cursor is asked before the doctor cursor. After the
    list of all the medicines was shown at a page before the last one, a
    doctor search does not close that list: whatever the search gave, the
    message [next] of a session that is not in a support chat goes to the
    next page of the medicines, not to the doctors. *)
Theorem next_after_doctor_search_pages_products (env : Env) (svc : Services)
  (phoneNumber : string) (session : Session) (listed searched : gmap string string)
  (w : World) (pageData : PageData) :
  state session <> SUPPORT_CHAT ->
  given listed "product" = false ->
  listAllProductsPaginated env 1 5 = Some pageData ->
  1 <= pd_page pageData < pd_totalPages pageData ->
  let shown := handleProductSearch env svc phoneNumber session listed w in
  let found := handleDoctorSearch env phoneNumber (session_after shown) searched
                 (world_after shown) in
  route env phoneNumber (session_after found) "next"
  = RProductPage (pd_page pageData + 1) (cursorOf pageData).
Proof.
  intros Hst Hg Hlist Hpage. cbn zeta.
  assert (Hshown : session_after (handleProductSearch env svc phoneNumber session listed w)
                   = setField "productPageItems" (VItems (pd_items pageData))
                       (setField "productPagination" (VCursor (cursorOf pageData)) session)).
  { unfold handleProductSearch. cbn zeta. rewrite Hg, Hlist. reflexivity. }
  rewrite Hshown.
  set (session1 := setField "productPageItems" _ _).
  set (found := handleDoctorSearch env phoneNumber session1 searched _).
  assert (Hkept : state (session_after found) = state session
                  /\ field (data (session_after found)) "productPagination"
                     = VCursor (cursorOf pageData)).
  { assert (H1 : field (data session1) "productPagination" = VCursor (cursorOf pageData)).
    { unfold session1. rewrite field_setField_ne by discriminate. apply field_setField. }
    subst found. unfold handleDoctorSearch. cbn zeta.
    destruct (negb (given searched "specialty")); [split; [reflexivity | exact H1]|].
    destruct (searchDoctorsPaginated env _ _ 1 5) as [pd|]; [|split; [reflexivity | exact H1]].
    destruct (pd_items pd); [split; [reflexivity | exact H1]|].
    cbn [session_after reply]. split; [reflexivity|].
    rewrite !field_setField_ne by discriminate. exact H1. }
  destruct Hkept as [Hstate Hcursor].
  unfold route. rewrite Hstate.
  destruct (decide (state session = SUPPORT_CHAT)); [contradiction|].
  rewrite attachMatch_next. unfold navigationTarget. rewrite Hcursor.
  unfold Pagination.parseNavigationCommand, cursorOf. cbn [currentPage totalPages].
  change (eqs "next" "") with false.
  change (eqs (toLowerCase (trim "next")) "next") with true.
  cbn [negb andb orb].
  destruct (pd_page pageData <? pd_totalPages pageData) eqn:Hlt;
    [|apply Z.ltb_ge in Hlt; lia].
  destruct (pd_page pageData + 1 =? 0) eqn:Hz; [apply Z.eqb_eq in Hz; lia|].
  reflexivity.
Qed.

Lemma next_after_doctor_search_pages_products_witness :
  route CatalogSample.env Sample.phone
    (session_after
       (handleDoctorSearch CatalogSample.env Sample.phone
          (session_after (handleProductSearch CatalogSample.env CatalogSample.services
                            Sample.phone CatalogSample.ada ∅ CatalogSample.store))
          CatalogSample.cardiologist
          (world_after (handleProductSearch CatalogSample.env CatalogSample.services
                          Sample.phone CatalogSample.ada ∅ CatalogSample.store))))
    "next"
  = RProductPage 2 (mkCursor 1 2 5).
Proof.
  apply (next_after_doctor_search_pages_products CatalogSample.env CatalogSample.services
           Sample.phone CatalogSample.ada ∅ CatalogSample.cardiologist CatalogSample.store
           (mkPage (take 5 CatalogSample.shelf) 1 2 5)).
  - discriminate.
  - reflexivity.
  - reflexivity.
  - cbn. lia.
Defined.

End CartFacts.


(** * The administration gate and the backup codes *)

Module AdminFacts.
Import Text Model Otp Handlers Dispatcher Spec Steps OrderParser Admin.
Import TextFacts OtpFacts RegistrationFacts IssueVerifyFacts StringFacts OrderRoundTrips.

Lemma backup_created (env : Env) (email otp : string) (w : World) :
  email <> "" -> generateOTP env = Some otp ->
  backupOtp env email "create" w
  = (BackupCreated otp (getOTPExpiry env),
     mkWorld (sessions w)
       (otps w ++ [issuedRow env (toLowerCase email) otp None]) (outbox w)).
Proof.
  intros Hne Hgen. unfold backupOtp.
  apply eqs_false in Hne. rewrite Hne, Hgen. reflexivity.
Qed.

(** X22: a backup code does what the mailed code does. When the
    administrator creates a code for the address a session is registering,
    a 4-digit code that the older rows of the table do not hold at a later
    time, the user who sends it before it expires is registered with the
    payload of the session and logged in, and the code is marked used. *)
Theorem backup_code_completes_registration (env0 env1 : Env) (email ph : string)
  (s' f : Session) (ud : RegistrationData) (w : World) (otp : string) (res : AuthResult) :
  email <> "" ->
  generateOTP env0 = Some otp ->
  isFourDigits otp = true ->
  (forall r, r ∈ otps w -> otp_code r = otp -> otp_purpose r = "registration" ->
             otp_createdAt r < now env0) ->
  sessions w !! ph = Some f ->
  field (data f) "registrationData" = VReg ud ->
  reg_email ud = toLowerCase email ->
  now env1 <= getOTPExpiry env0 ->
  (forall table, registerUser env1 table ud = Some res) ->
  let created := backupOtp env0 email "create" w in
  let w2 := handleRegistrationOTPVerification env1 ph s' otp (snd created) in
  fst created = BackupCreated otp (getOTPExpiry env0)
  /\ lastSent w2 = Some (TRegistrationSuccess (reg_name ud))
  /\ (exists g, sessions w2 !! ph = Some g /\ state g = LOGGED_IN
                /\ field (data g) "userId" = VNum (res_userId res)
                /\ field (data g) "registrationData" = VNull
                /\ waitingForOTP g = false)
  /\ (exists r, otps w2 !! length (otps w) = Some r /\ otp_code r = otp
                /\ otp_isUsed r = true /\ otp_usedAt r = Some (now env1)).
Proof.
  intros Hne Hgen Hd Hold Hf Hrd Hemail Hle Hreg. cbn zeta.
  rewrite (backup_created env0 email otp w Hne Hgen). cbn [fst snd].
  split; [reflexivity|].
  set (row := issuedRow env0 (toLowerCase email) otp None).
  set (w1 := mkWorld (sessions w) (otps w ++ [row]) (outbox w)).
  destruct (fourDigits_trim otp Hd) as [Ht Hd'].
  assert (Hfind : findLatest (byCode (trim otp) "registration") (otps w1)
                  = Some (length (otps w), row)).
  { rewrite Ht. apply findLatest_app_new.
    - apply byCode_spec. split; reflexivity.
    - intros r Hr Hp. apply byCode_spec in Hp as [Hc Hp]. exact (Hold r Hr Hc Hp). }
  assert (Hemail' : reg_email ud <> "").
  { rewrite Hemail. destruct email; [congruence | discriminate]. }
  assert (Hres : resolveRegistration env1 ph (sessions w1 !! ph) s'
                   (Some (length (otps w), row)) = Some ud).
  { unfold resolveRegistration, sessionRegistration, orElse.
    change (sessions w1 !! ph) with (sessions w !! ph). rewrite Hf, Hrd.
    cbn [truthy usableRegistration]. apply eqs_false in Hemail'. rewrite Hemail'.
    reflexivity. }
  rewrite (verification_reaches_gate env1 ph s' otp w1 ud _ row Hd' Hfind Hres Hemail).
  rewrite (gate_success env1 ph _ ud _ row w1 res eq_refl Hle (Hreg _)).
  cbn [sessions otps]. split; [apply lastSent_snoc|]. split.
  - eexists. split; [apply lookup_insert_eq|].
    destruct (registeredSession_fields env1 res (default s' (sessions w1 !! ph)))
      as (H1 & _ & H3 & H4).
    rewrite registeredSession_state. repeat split; assumption.
  - eexists. split.
    + apply list_lookup_insert_eq. unfold w1. cbn [otps]. rewrite length_app. cbn. lia.
    + repeat split; reflexivity.
Qed.

Lemma backup_code_completes_registration_witness :
  lastSent (handleRegistrationOTPVerification (Sample.env 2000 true true "1111") Sample.phone
              Sample.registering "7777"
              (snd (backupOtp (Sample.env 1000 true true "7777") "Ada@Example.com" "create"
                      (Sample.worldOf Sample.registering [Sample.adaCode]))))
  = Some (TRegistrationSuccess "Ada").
Proof.
  refine (proj1 (proj2 (backup_code_completes_registration
                          (Sample.env 1000 true true "7777") (Sample.env 2000 true true "1111")
                          "Ada@Example.com" Sample.phone Sample.registering Sample.registering
                          Sample.ada (Sample.worldOf Sample.registering [Sample.adaCode])
                          "7777" (mkAuth 7 "") _ _ _ _ _ _ _ _ _))); try concrete.
  intros r Hr Hc. apply list_elem_of_singleton in Hr. subst r. discriminate Hc.
Defined.

(** X23: a backup code carries no snapshot of the payload. When neither
    the stored session nor the session at hand holds a usable registration
    payload, the user who sends a backup code just created, a 4-digit code
    that the older rows do not hold at a later time, is told that the
    registration session expired; the code is left in the table, unused. *)
Theorem backup_code_cannot_recover_payload (env0 env1 : Env) (email ph : string)
  (s' : Session) (w : World) (otp : string) :
  email <> "" ->
  generateOTP env0 = Some otp ->
  isFourDigits otp = true ->
  (forall r, r ∈ otps w -> otp_code r = otp -> otp_purpose r = "registration" ->
             otp_createdAt r < now env0) ->
  usableRegistration (sessionRegistration (sessions w !! ph) s') = None ->
  let created := backupOtp env0 email "create" w in
  let w2 := handleRegistrationOTPVerification env1 ph s' otp (snd created) in
  lastSent w2 = Some TOtpSessionExpired
  /\ otps w2 = (otps w ++ [issuedRow env0 (toLowerCase email) otp None])%list.
Proof.
  intros Hne Hgen Hd Hold Hnone. cbn zeta.
  rewrite (backup_created env0 email otp w Hne Hgen). cbn [snd].
  set (row := issuedRow env0 (toLowerCase email) otp None).
  set (w1 := mkWorld (sessions w) (otps w ++ [row]) (outbox w)).
  destruct (fourDigits_trim otp Hd) as [Ht Hd'].
  assert (Hfind : findLatest (byCode (trim otp) "registration") (otps w1)
                  = Some (length (otps w), row)).
  { rewrite Ht. apply findLatest_app_new.
    - apply byCode_spec. split; reflexivity.
    - intros r Hr Hp. apply byCode_spec in Hp as [Hc Hp]. exact (Hold r Hr Hc Hp). }
  unfold handleRegistrationOTPVerification. cbn zeta.
  rewrite Hd', Hfind. cbn [negb].
  assert (Hres : resolveRegistration env1 ph (sessions w1 !! ph) s'
                   (Some (length (otps w), row)) = None).
  { unfold resolveRegistration. change (sessions w1 !! ph) with (sessions w !! ph).
    rewrite Hnone. reflexivity. }
  rewrite Hres.
  destruct (sessions w1 !! ph) as [f|]; split; try reflexivity;
    unfold lastSent; cbn; rewrite last_snoc; reflexivity.
Qed.

Lemma backup_code_cannot_recover_payload_witness :
  lastSent (handleRegistrationOTPVerification (Sample.env 2000 true true "1111") Sample.phone
              Sample.registeringWithoutPayload "7777"
              (snd (backupOtp (Sample.env 1000 true true "7777") "Ada@Example.com" "create"
                      (Sample.worldOf Sample.registeringWithoutPayload [Sample.adaCode]))))
  = Some TOtpSessionExpired.
Proof.
  refine (proj1 (backup_code_cannot_recover_payload
                   (Sample.env 1000 true true "7777") (Sample.env 2000 true true "1111")
                   "Ada@Example.com" Sample.phone Sample.registeringWithoutPayload
                   (Sample.worldOf Sample.registeringWithoutPayload [Sample.adaCode])
                   "7777" _ _ _ _ _)); try concrete.
  intros r Hr Hc. apply list_elem_of_singleton in Hr. subst r. discriminate Hc.
Defined.

Lemma bearerToken_scheme (scheme ws token : string) :
  toLowerCase scheme = "bearer" -> ws <> "" -> allChars isSpace ws = true ->
  trimStart token = token ->
  bearerToken (scheme ++ ws ++ token) = token.
Proof.
  intros Hs Hne Hws Ht. unfold bearerToken.
  rewrite <- Hs at 1. rewrite stripPrefixCI_lower.
  destruct ws as [|c ws']; [congruence|].
  cbn [allChars] in Hws. apply andb_true_iff in Hws as [Hc Hws'].
  change (String c ws' ++ token)%string with (String c (ws' ++ token)).
  cbv beta iota. rewrite Hc, (trimStart_spaces ws' token Hws'). exact Ht.
Qed.

(** X24: the gate of the administration endpoints does not ask for the
    scheme. A token that does not start with white space and is not itself
    written with the scheme passes or fails the gate alone exactly as it
    does after [Bearer], in any case, and white space. *)
Theorem bearer_scheme_is_optional {A : Type} (verifyAdminToken : string -> option (option A))
  (scheme ws token : string) :
  toLowerCase scheme = "bearer" -> ws <> "" -> allChars isSpace ws = true ->
  trimStart token = token -> bearerToken token = token ->
  adminAuthMiddleware verifyAdminToken (scheme ++ ws ++ token)
  = adminAuthMiddleware verifyAdminToken token.
Proof.
  intros Hs Hne Hws Ht Hb. unfold adminAuthMiddleware. cbn zeta.
  rewrite (bearerToken_scheme scheme ws token Hs Hne Hws Ht), Hb. reflexivity.
Qed.

Lemma bearer_scheme_is_optional_witness :
  adminAuthMiddleware (fun t => if eqs t "s3cret" then Some (Some 1) else Some None)
    ("BEARER" ++ "  " ++ "s3cret")
  = adminAuthMiddleware (fun t => if eqs t "s3cret" then Some (Some 1) else Some None)
      "s3cret".
Proof.
  apply (bearer_scheme_is_optional
           (fun t => if eqs t "s3cret" then Some (Some 1) else Some None)
           "BEARER" "  " "s3cret"); (reflexivity || discriminate).
Defined.

End AdminFacts.


(** * The text of a page, and order tracking *)

Module PaginationMessageFacts.
Import Text Pagination PaginationMessage.

Lemma previous_accepted (page totalPages : Z) :
  parseNavigationCommand "Previous" page totalPages
  = if 1 <? page then Some (page - 1) else None.
Proof.
  unfold parseNavigationCommand.
  change (eqs "Previous" "") with false. cbv iota zeta.
  change (toLowerCase (trim "Previous")) with "previous".
  change (eqs "previous" "next") with false.
  change (eqs "previous" "previous") with true.
  change (isDigitString (trim "Previous")) with false.
  cbn [andb]. destruct (1 <? page); reflexivity.
Qed.

Lemma next_accepted (page totalPages : Z) :
  parseNavigationCommand "Next" page totalPages
  = if page <? totalPages then Some (page + 1) else None.
Proof.
  unfold parseNavigationCommand.
  change (eqs "Next" "") with false. cbv iota zeta.
  change (toLowerCase (trim "Next")) with "next".
  change (eqs "next" "next") with true.
  change (eqs "next" "previous") with false.
  change (isDigitString (trim "Next")) with false.
  cbn [andb]. destruct (page <? totalPages); reflexivity.
Qed.

(** X25: the hints of a page are the commands that are taken. The message
    of [buildPaginatedListMessage] is its heading, its items and, under the
    navigation title, the line for [Previous] exactly when
    [parseNavigationCommand] takes [Previous] on this page, and the line for
    [Next] exactly when it takes [Next], each with the page that the command
    leads to; the line about the numbers ends it. *)
Theorem hints_are_the_accepted_commands {A : Type} (items : list A) (page totalPages : Z)
  (title : string) (itemFormatter : A -> nat -> string) :
  buildPaginatedListMessage items page totalPages title itemFormatter
  = (heading title page totalPages
     ++ itemLines itemFormatter 0 items
     ++ navigationTitle
     ++ hintIfAccepted "Previous" page totalPages
     ++ hintIfAccepted "Next" page totalPages
     ++ selectLine (length items))%string.
Proof.
  unfold buildPaginatedListMessage, hintIfAccepted.
  rewrite previous_accepted, next_accepted.
  destruct (1 <? page), (page <? totalPages); reflexivity.
Qed.

End PaginationMessageFacts.

Module TrackingFacts.
Import Text Model Handlers OrderParser OrderSpec Tracking.
Import StringFacts OrderParserFacts OrderRoundTrips OrderNumberFacts OrderReferenceFacts.

Lemma digits_valid (sanitize : string -> string) (id : string) :
  allDigits id = true -> id <> "" -> (String.length id <= 50)%nat -> sanitize id = id ->
  isValidOrderId sanitize id = true.
Proof.
  intros Hd Hne Hlen Hs. unfold isValidOrderId.
  destruct (eqs id "") eqn:He; [apply String.eqb_eq in He; contradiction|].
  cbn zeta. rewrite Hs, Hd, (digits_idChars id Hd). cbn [andb].
  assert (1 <= String.length id)%nat by (destruct id; [congruence | cbn; lia]).
  apply orb_true_iff.
  destruct (Nat.le_gt_cases (String.length id) 12) as [H12|H12].
  - left. apply andb_true_iff. split; apply Nat.leb_le; lia.
  - right. apply andb_true_iff. split; apply Nat.leb_le; lia.
Qed.

(** X26: an order is tracked by its payment reference. When the order id
    given is a reference [drugsng-{order}-{time}], the order being a number
    of at most fifty digits that [sanitizeInput] leaves as it is, the
    lookup is made with the order number alone, and the answer is the
    status, the order not found, or the failure of the lookup. *)
Theorem tracking_by_payment_reference (env : Env)
  (trackOrder : string -> option (option string)) (session : Session)
  (parameters : gmap string string) (p : string) (s1 s2 : ascii) (order time : string) :
  param parameters "orderId" = (p ++ String s1 (order ++ String s2 time))%string ->
  toLowerCase p = "drugsng" ->
  isSeparator s1 = true -> isSeparator s2 = true ->
  allDigits order = true -> order <> "" -> (String.length order <= 50)%nat ->
  allDigits time = true ->
  sanitizeInput env order = order ->
  handleTrackOrder env trackOrder session parameters
  = (match trackOrder order with
     | Some (Some orderDetails) => TrackStatus orderDetails
     | Some None => TrackNotFound order
     | None => TrackError
     end, isAuthenticatedSession (argOf session)).
Proof.
  intros Hraw Hp H1 H2 Ho Hne Hlen Ht Hs. unfold handleTrackOrder. cbn zeta.
  assert (Hgiven : given parameters "orderId" = true).
  { unfold given. rewrite Hraw. destruct p; [discriminate Hp | reflexivity]. }
  rewrite Hgiven. cbn [negb].
  assert (Hid : orderIdOf env (param parameters "orderId") = order).
  { unfold orderIdOf. rewrite Hraw.
    rewrite (reference_read p s1 order (String s2 time) Hp H1 Ho Hne).
    - exact Hs.
    - cbn [allChars]. rewrite (separator_idChar s2 H2). exact (digits_idChars time Ht).
    - cbn [allChars]. rewrite (separator_notLetter s2 H2). exact (digits_notLetter time Ht).
    - cbn [spanWhile]. rewrite (separator_not_digit s2 H2). reflexivity. }
  rewrite Hid, (digits_valid (sanitizeInput env) order Ho Hne Hlen Hs). cbn [negb].
  destruct (trackOrder order) as [[d|]|]; reflexivity.
Qed.

Lemma tracking_by_payment_reference_witness :
  handleTrackOrder (Sample.env 1000 true true "4821")
    (fun id => if eqs id "12345" then Some (Some "Shipped") else Some None)
    (Sample.loggedInSince 1000)
    (list_to_map [("orderId", "drugsng-12345-1590000000")])
  = (TrackStatus "Shipped", true).
Proof.
  apply (tracking_by_payment_reference (Sample.env 1000 true true "4821")
           (fun id => if eqs id "12345" then Some (Some "Shipped") else Some None)
           (Sample.loggedInSince 1000)
           (list_to_map [("orderId", "drugsng-12345-1590000000")])
           "drugsng" "-" "-" "12345" "1590000000");
    try (reflexivity || discriminate).
  cbn. lia.
Defined.

End TrackingFacts.


(** * A valid code whose row holds no snapshot *)

Module RecoveryFacts.
Import Text Model Otp Handlers Dispatcher Spec Admin Configured.
Import Sample.

(** C9, as the specification states it: the code setup of a registration
    failed, which cleared the payload of the session, and a backup code was
    created for the address. The row of the code is valid, unused and not
    expired, and it holds no snapshot: the user who sends the code is told
    that the registration session expired, and the registration does not
    complete. *)
Lemma valid_code_without_snapshot_fails :
  (exists f, sessions setupFailedThenBackup !! phone = Some f
             /\ state f = REGISTERING
             /\ field (data f) "registrationData" = VNull)
  /\ otps setupFailedThenBackup
     = [mkOTP "ada@example.com" "7777" "registration" false None 302000 2000 None]
  /\ now (env 3000 true true "1111") <= 302000
  /\ route (env 3000 true true "1111") phone
       (default (mkSession NEW ∅ None None) (sessions setupFailedThenBackup !! phone)) "7777"
     = ROtpVerify "7777"
  /\ lastSent (handleCustomerMessage (env 3000 true true "1111") phone "7777"
                 setupFailedThenBackup)
     = Some TOtpSessionExpired
  /\ stateOf (handleCustomerMessage (env 3000 true true "1111") phone "7777"
                setupFailedThenBackup)
     = Some REGISTERING
  /\ otps (handleCustomerMessage (env 3000 true true "1111") phone "7777"
             setupFailedThenBackup)
     = otps setupFailedThenBackup.
Proof.
  split; [eexists; split; [vm_compute; reflexivity | split; reflexivity] |].
  split; [reflexivity |]. split; [cbn; lia |].
  repeat split; vm_compute; reflexivity.
Qed.

End RecoveryFacts.


(** * The session invariant across the commits of the handlers *)

Module CommitFacts.
Import Text Model Otp Handlers Pagination Dispatcher Spec CommitSpec.
Import TextFacts OtpFacts RegistrationFacts IdleFacts InvariantFacts.








































Import Sample.


End CommitFacts.
